(** * jabber-bot: webhook delivery, test-mode rewriting, XMPP fan-in

    A shallow embedding of the Go code of [internal/webhook] (service.go,
    testmode utilities), [internal/xmpp] (client.go, manager.go) and
    [internal/models], followed by the properties proved about it.

    Conventions.
    - A Go [string] is a sequence of bytes: [string] of 8-bit [ascii].
    - A Go [int]/[int64] is a [Z] kept in range by [wrap64].
    - A Go [error] built with [fmt.Errorf] is its message; [None] is [nil].
    - What the webhook code calls outside the repository (net/url,
      net/http, the wall clock) is collected in the record [Env]; the XMPP
      library's session is a parameter of the client model. *)

From Stdlib Require Import ZArith List String Ascii Bool Lia Arith.
From Stdlib Require Import Permutation DecimalString.
Import ListNotations.

Open Scope string_scope.
Open Scope Z_scope.

(* ================================================================== *)
(** * Part I: definitions                                              *)
(* ================================================================== *)

(** ** Machine integers *)

Definition MaxInt64 : Z := 9223372036854775807.

(** Two's-complement wrap-around of a 64-bit signed integer ([int] is 64
    bits wide on the amd64 target the Dockerfile builds for). *)
Definition wrap64 (z : Z) : Z := (z + 2 ^ 63) mod 2 ^ 64 - 2 ^ 63.

(** ** The functions of Go's [strings] package used by the repository *)

(** [strings.HasPrefix(s, prefix)] *)
Fixpoint HasPrefix (s prefix : string) {struct prefix} : bool :=
  match prefix with
  | EmptyString => true
  | String p prefix' =>
      match s with
      | EmptyString => false
      | String c s' => Ascii.eqb c p && HasPrefix s' prefix'
      end
  end.

(** [s[n:]], clipped at the end of the string. *)
Fixpoint skip (n : nat) (s : string) : string :=
  match n with
  | O => s
  | S n' => match s with
            | EmptyString => EmptyString
            | String _ s' => skip n' s'
            end
  end.

(** [strings.TrimPrefix(s, prefix)] *)
Definition TrimPrefix (s prefix : string) : string :=
  if HasPrefix s prefix then skip (String.length prefix) s else s.

(** [strings.Contains(s, substr)] *)
Fixpoint Contains (s substr : string) : bool :=
  HasPrefix s substr
  || match s with
     | EmptyString => false
     | String _ s' => Contains s' substr
     end.

(** [strings.Replace(s, old, new, 1)]: the leftmost occurrence only. *)
Fixpoint Replace1 (s old new : string) : string :=
  if HasPrefix s old then new ++ skip (String.length old) s
  else match s with
       | EmptyString => EmptyString
       | String c s' => String c (Replace1 s' old new)
       end.

(** Reversal of a byte string, used to look at a string from its end. *)
Fixpoint srev (s : string) : string :=
  match s with
  | EmptyString => EmptyString
  | String c s' => srev s' ++ String c EmptyString
  end.

(** The UTF-8 encodings of the runes for which [unicode.IsSpace] holds:
    the six ASCII ones, U+0085, U+00A0, U+1680, U+2000..U+200A, U+2028,
    U+2029, U+202F, U+205F and U+3000.  A string starts (ends) with a rune
    that is a space exactly when it starts (ends) with one of these byte
    sequences: UTF-8 decoding is deterministic and rejects overlong forms. *)
Definition bytes3 (a b c : ascii) : string :=
  String a (String b (String c EmptyString)).
Definition bytes2 (a b : ascii) : string :=
  String a (String b EmptyString).
Definition byte1 (a : ascii) : string := String a EmptyString.

Definition space_seqs : list string :=
  [ byte1 "009"; byte1 "010"; byte1 "011"; byte1 "012"; byte1 "013";
    byte1 "032";
    bytes2 "194" "133"; bytes2 "194" "160";
    bytes3 "225" "154" "128";
    bytes3 "226" "128" "128"; bytes3 "226" "128" "129";
    bytes3 "226" "128" "130"; bytes3 "226" "128" "131";
    bytes3 "226" "128" "132"; bytes3 "226" "128" "133";
    bytes3 "226" "128" "134"; bytes3 "226" "128" "135";
    bytes3 "226" "128" "136"; bytes3 "226" "128" "137";
    bytes3 "226" "128" "138";
    bytes3 "226" "128" "168"; bytes3 "226" "128" "169";
    bytes3 "226" "128" "175";
    bytes3 "226" "129" "159";
    bytes3 "227" "128" "128" ]%char.

(** Remove one leading sequence of [seqs], if the string starts with one. *)
Fixpoint strip_one (seqs : list string) (s : string) : option string :=
  match seqs with
  | [] => None
  | q :: seqs' =>
      if HasPrefix s q then Some (skip (String.length q) s)
      else strip_one seqs' s
  end.

(** Remove leading sequences of [seqs] as long as there is one. *)
Fixpoint trim_seqs (seqs : list string) (fuel : nat) (s : string) : string :=
  match fuel with
  | O => s
  | S fuel' =>
      match strip_one seqs s with
      | Some s' => trim_seqs seqs fuel' s'
      | None => s
      end
  end.

(** [strings.TrimLeftFunc(s, unicode.IsSpace)] *)
Definition TrimLeftSpace (s : string) : string :=
  trim_seqs space_seqs (String.length s) s.

(** [strings.TrimRightFunc(s, unicode.IsSpace)] *)
Definition TrimRightSpace (s : string) : string :=
  srev (trim_seqs (map srev space_seqs) (String.length s) (srev s)).

(** [strings.TrimSpace(s)] *)
Definition TrimSpace (s : string) : string :=
  TrimRightSpace (TrimLeftSpace s).

(** [%d] of [fmt] for an integer. *)
Definition itoa (z : Z) : string := NilEmpty.string_of_int (Z.to_int z).

(** ** internal/models *)

Record Message := mkMessage {
  ID : string;
  From : string;
  To : string;
  Body : string;
  MType : string;      (* field [Type] *)
  Subject : string;
  Thread : string;
  Stamp : string
}.

Record WebhookPayload := mkPayload {
  PMessage : Message;  (* field [Message] *)
  Timestamp : string;
  Source : string
}.

Definition set_Body (body : string) (m : Message) : Message :=
  mkMessage (ID m) (From m) (To m) body (MType m) (Subject m) (Thread m)
            (Stamp m).

(** [payload.Message.Body = body] *)
Definition set_payload_Body (body : string) (p : WebhookPayload)
  : WebhookPayload :=
  mkPayload (set_Body body (PMessage p)) (Timestamp p) (Source p).

(** ** internal/config: the webhook section *)

(** [time.Duration]: nanoseconds in an [int64]. *)
Definition Duration := Z.
Definition Second : Duration := 1000000000.

Record WebhookConfig := mkWebhookConfig {
  URL : string;
  Timeout : Duration;
  RetryAttempts : Z;
  TestModeSuffix : string
}.

(** ** External collaborators *)

(** The fields of [net/url.URL] that [URL.String] prints. *)
Record url_URL := mkURL {
  Scheme : string;
  Host : string;
  Path : string;
  RawQuery : string;
  Fragment : string
}.

(** [parsedURL.Path = p] *)
Definition set_Path (p : string) (u : url_URL) : url_URL :=
  mkURL (Scheme u) (Host u) p (RawQuery u) (Fragment u).

(** [time.Time] as an instant: nanoseconds since the zero [Time]. *)
Definition Time := Z.
Definition zeroTime : Time := 0.
(** [t.Before(u)] *)
Definition Before (t u : Time) : bool := t <? u.

(** An HTTP request as [sendWebhookAttempt] builds it.  The body is the
    payload handed to [json.Marshal], which cannot fail on a struct of
    strings. *)
Record Request := mkRequest {
  req_method : string;
  req_url : string;
  req_body : WebhookPayload;
  req_headers : list (string * string)
}.

(** The result of [httpClient.Do]: a transport error or a status code. *)
Inductive DoResult :=
| DoError (msg : string)
| DoResponse (status : Z).

(** Everything the code calls outside the repository.  The network and the
    wall clock are oracles indexed by the number of earlier calls. *)
Record Env := mkEnv {
  url_Parse : string -> option url_URL;      (* net/url.Parse *)
  url_String : url_URL -> string;            (* URL.String *)
  url_Error : string -> string;              (* text of a parse error *)
  http_Do : nat -> Request -> DoResult;      (* http.Client.Do *)
  time_Now : nat -> Time;                    (* time.Now().UTC() *)
  time_Format : Time -> string               (* t.Format(time.RFC3339) *)
}.

(** ** internal/webhook: test-mode utilities *)

Record TestModeUtils := mkTestModeUtils { testModeSuffix : string }.

Definition NewTestModeUtils (suffix : string) : TestModeUtils :=
  if String.eqb suffix "" then mkTestModeUtils "-test"
  else mkTestModeUtils suffix.

Definition isTestMessage (t : TestModeUtils) (body : string) : bool :=
  HasPrefix (TrimSpace body) "[test]".

Definition removeTestPrefix (t : TestModeUtils) (body : string) : string :=
  let trimmed := TrimSpace body in
  if HasPrefix trimmed "[test]" then
    let withoutPrefix := TrimPrefix trimmed "[test]" in
    TrimSpace withoutPrefix
  else body.

Definition simpleURLModification (t : TestModeUtils) (baseURL : string)
  : string :=
  if Contains baseURL "webhook" && negb (Contains baseURL "webhook-test")
  then Replace1 baseURL "webhook" ("webhook" ++ testModeSuffix t)
  else baseURL.

Definition getTestWebhookURL (E : Env) (t : TestModeUtils)
  (baseURL : string) : string :=
  if String.eqb baseURL "" then baseURL
  else
    match url_Parse E baseURL with
    | None => simpleURLModification t baseURL
    | Some parsedURL =>
        let path := Path parsedURL in
        if Contains path "webhook" && negb (Contains path "webhook-test")
        then
          let newPath :=
            Replace1 path "webhook" ("webhook" ++ testModeSuffix t) in
          url_String E (set_Path newPath parsedURL)
        else baseURL
    end.

(** Returns (processedBody, webhookURL, isTestMode). *)
Definition ProcessTestMessage (E : Env) (t : TestModeUtils)
  (body webhookURL : string) : string * string * bool :=
  if negb (isTestMessage t body) then (body, webhookURL, false)
  else
    let processedBody := removeTestPrefix t body in
    let testURL := getTestWebhookURL E t webhookURL in
    (processedBody, testURL, true).

(** ** Calls, channels and goroutine-visible outcomes *)

(** How a call ends: it returns, it panics, or its goroutine blocks
    forever.  Each carries the state the call leaves behind. *)
Inductive result (A S : Type) : Type :=
| Ret (a : A) (s : S)
| Panic (msg : string) (s : S)
| Block (s : S).
Arguments Ret {A S} a s.
Arguments Panic {A S} msg s.
Arguments Block {A S} s.

(** A buffered channel: the buffered values (oldest first), the capacity
    given to [make] and whether [close] was called.  Receivers are
    separate steps of the model, so a send finds room exactly when the
    buffer is not full. *)
Record chan (A : Type) := mkChan {
  buf : list A;
  cap : nat;
  closed : bool
}.
Arguments mkChan {A} buf cap closed.
Arguments buf {A} c.
Arguments cap {A} c.
Arguments closed {A} c.

(** [make(chan A, n)] *)
Definition make_chan {A} (n : nat) : chan A := mkChan [] n false.

(** [len(ch)] *)
Definition chan_len {A} (ch : chan A) : nat := List.length (buf ch).

(** The three ways [select { case ch <- v: ... default: ... }] can go. *)
Inductive try_send (A : Type) :=
| Sent (ch' : chan A)      (* the send case ran *)
| WouldBlock               (* the default case ran *)
| SendOnClosed.            (* the send case ran on a closed channel *)
Arguments Sent {A} ch'.
Arguments WouldBlock {A}.
Arguments SendOnClosed {A}.

Definition chan_try_send {A} (ch : chan A) (v : A) : try_send A :=
  if closed ch then SendOnClosed
  else if (chan_len ch <? cap ch)%nat
       then Sent (mkChan (buf ch ++ [v])%list (cap ch) false)
       else WouldBlock.

(** [close(ch)]; [None] is the panic on an already closed channel. *)
Definition chan_close {A} (ch : chan A) : option (chan A) :=
  if closed ch then None else Some (mkChan (buf ch) (cap ch) true).

(** ** internal/webhook: the service *)

Record Stats := mkStats {
  TotalSent : Z;
  TotalFailed : Z;
  LastSent : Time;
  LastFailure : Time;
  LastError : string
}.

(** [&Stats{}] *)
Definition emptyStats : Stats := mkStats 0 0 zeroTime zeroTime "".

(** The state of a [Service].  Besides the fields of the Go struct it
    records the contexts that [Start] created ([ctx_count] of them, those
    in [cancelled] cancelled) and, for each live [processWebhooks]
    goroutine, the context it watches.  [Start] and [Stop] hold [s.mu]
    from their first line to their return, and [GetStats] and
    [updateStats] hold [s.stats.mu] likewise, so each of them is one
    atomic step.  [SendMessage] is not: it is modelled in two steps
    below. *)
Record Service := mkService {
  config : WebhookConfig;
  messageQueue : chan Message;
  running : bool;
  cancelFunc : option nat;
  stats : Stats;
  testMode : TestModeUtils;
  ctx_count : nat;
  cancelled : list nat;
  workers : list nat
}.

Definition set_queue (q : chan Message) (s : Service) : Service :=
  mkService (config s) q (running s) (cancelFunc s) (stats s) (testMode s)
            (ctx_count s) (cancelled s) (workers s).
Definition set_running (b : bool) (s : Service) : Service :=
  mkService (config s) (messageQueue s) b (cancelFunc s) (stats s)
            (testMode s) (ctx_count s) (cancelled s) (workers s).
Definition set_stats (st : Stats) (s : Service) : Service :=
  mkService (config s) (messageQueue s) (running s) (cancelFunc s) st
            (testMode s) (ctx_count s) (cancelled s) (workers s).
Definition set_workers (ws : list nat) (s : Service) : Service :=
  mkService (config s) (messageQueue s) (running s) (cancelFunc s) (stats s)
            (testMode s) (ctx_count s) (cancelled s) ws.
(** [ctx, cancel := context.WithCancel(...); s.cancelFunc = cancel;
     go s.processWebhooks(ctx)] *)
Definition spawn_worker (s : Service) : Service :=
  mkService (config s) (messageQueue s) (running s) (Some (ctx_count s))
            (stats s) (testMode s) (S (ctx_count s)) (cancelled s)
            (ctx_count s :: workers s).
(** [s.cancelFunc()] *)
Definition cancel_ctx (id : nat) (s : Service) : Service :=
  mkService (config s) (messageQueue s) (running s) (cancelFunc s) (stats s)
            (testMode s) (ctx_count s) (id :: cancelled s) (workers s).

Definition NewService (cfg : WebhookConfig) : Service :=
  mkService cfg (make_chan 1000) false None emptyStats
            (NewTestModeUtils (TestModeSuffix cfg)) 0 [] [].

Definition Start (s : Service) : result (option string) Service :=
  if running s then Ret (Some "webhook service is already running") s
  else Ret None (set_running true (spawn_worker s)).

Definition Stop (s : Service) : result (option string) Service :=
  if negb (running s) then Ret None s
  else
    let s1 := match cancelFunc s with
              | Some id => cancel_ctx id s
              | None => s
              end in
    match chan_close (messageQueue s1) with
    | None => Panic "close of closed channel" s1
    | Some q => Ret None (set_running false (set_queue q s1))
    end.

Definition isRunning (s : Service) : bool := running s.

(** The [select] of [SendMessage]: the send case when the channel takes
    the message, the default case when it would block. *)
Definition SendMessage_select (s : Service) (msg : Message)
  : result (option string) Service :=
  match chan_try_send (messageQueue s) msg with
  | Sent q => Ret None (set_queue q s)
  | WouldBlock => Ret (Some "webhook queue is full") s
  | SendOnClosed => Panic "send on closed channel" s
  end.

(** [SendMessage] takes two steps.  [isRunning] reads [s.running] under
    [s.mu] and releases the lock; only then does the [select] run, with
    no lock held.  Other goroutines ([Stop], [Start], the workers, other
    senders) can run between the two: [SendMessage_at s s' msg] is the
    call whose check reads the state [s] and whose [select] runs on [s'],
    what the others have made of [s] by then. *)
Definition SendMessage_at (s s' : Service) (msg : Message)
  : result (option string) Service :=
  if negb (isRunning s) then Ret (Some "webhook service is not running") s
  else SendMessage_select s' msg.

(** The call during which no other goroutine runs. *)
Definition SendMessage (s : Service) (msg : Message)
  : result (option string) Service :=
  SendMessage_at s s msg.

Definition GetStats (s : Service) : Stats :=
  mkStats (TotalSent (stats s)) (TotalFailed (stats s)) (LastSent (stats s))
          (LastFailure (stats s)) (LastError (stats s)).

Definition GetQueueLength (s : Service) : nat := chan_len (messageQueue s).

(** [updateStats]; [now] is the reading of [time.Now().UTC()]. *)
Definition updateStats (now : Time) (success : bool) (errorMsg : string)
  (s : Service) : Service :=
  let st := stats s in
  if success then
    set_stats (mkStats (wrap64 (TotalSent st + 1)) (TotalFailed st) now
                       (LastFailure st) (LastError st)) s
  else
    set_stats (mkStats (TotalSent st) (wrap64 (TotalFailed st + 1))
                       (LastSent st) now errorMsg) s.

Definition IsHealthy (s : Service) : bool :=
  if negb (isRunning s) then false
  else if String.eqb (URL (config s)) "" then false
  else
    let stats := GetStats s in
    if (TotalFailed stats >? 10) && Before (LastSent stats) (LastFailure stats)
    then false
    else true.

(** ** internal/webhook: delivery with retries *)

(** How far the oracles of [Env] have been consumed. *)
Record World := mkWorld {
  w_clock : nat;   (* readings of the clock taken so far *)
  w_http : nat     (* HTTP round trips made so far *)
}.

Definition tick (w : World) : World := mkWorld (S (w_clock w)) (w_http w).
Definition sent_request (w : World) : World :=
  mkWorld (w_clock w) (S (w_http w)).

(** What [sendWebhook] does that can be seen from outside: the requests it
    issues, the sleeps, and its log lines at warn, info and error level
    (debug lines are left out). *)
Inductive Event :=
| EvHTTP (r : Request)
| EvSleep (d : Duration)
| EvWarnAttemptFailed (attempt : Z) (err : string) (url : string)
| EvInfoSent (attempt : Z) (url : string)
| EvErrorAllFailed (attempts : Z) (err : option string) (url : string).

Definition request_headers (timestamp : string) (isTestMode : bool)
  : list (string * string) :=
  ([ ("Content-Type", "application/json");
     ("User-Agent", "Jabber-Bot/1.0.0");
     ("X-Webhook-Source", "jabber-bot");
     ("X-Webhook-Timestamp", timestamp) ]
   ++ (if isTestMode then [("Webhook-Test-Mode", "true")] else []))%list.

(** What one attempt leaves behind.  [ar_payload] is the attempt's own
    [payload] variable when it returns: Go passes the struct by value, so
    this is a copy that the caller never sees. *)
Record AttemptResult := mkAttempt {
  ar_err : option string;
  ar_trace : list Event;
  ar_world : World;
  ar_payload : WebhookPayload
}.

Definition sendWebhookAttempt (E : Env) (s : Service)
  (payload : WebhookPayload) (w : World) : AttemptResult :=
  if String.eqb (URL (config s)) "" then
    mkAttempt (Some "webhook URL is not configured") [] w payload
  else
    let '(processedBody, webhookURL, isTestMode) :=
      ProcessTestMessage E (testMode s) (Body (PMessage payload))
                         (URL (config s)) in
    let payload :=
      if isTestMode then set_payload_Body processedBody payload
      else payload in
    match url_Parse E webhookURL with
    | None =>
        mkAttempt
          (Some ("failed to create HTTP request: " ++ url_Error E webhookURL))
          [] w payload
    | Some _ =>
        let req :=
          mkRequest "POST" webhookURL payload
                    (request_headers (Timestamp payload) isTestMode) in
        match http_Do E (w_http w) req with
        | DoError e =>
            mkAttempt (Some ("failed to send HTTP request: " ++ e))
                      [EvHTTP req] (sent_request w) payload
        | DoResponse status =>
            if (status <? 200) || (status >=? 300) then
              mkAttempt
                (Some ("webhook returned status " ++ itoa status))
                [EvHTTP req] (sent_request w) payload
            else mkAttempt None [EvHTTP req] (sent_request w) payload
        end
    end.

(** What [sendWebhook] leaves behind; [sr_payload] is its local variable
    [payload] when it returns. *)
Record SendResult := mkSend {
  sr_service : Service;
  sr_world : World;
  sr_trace : list Event;
  sr_payload : WebhookPayload
}.

Definition prepend (evs : list Event) (r : SendResult) : SendResult :=
  mkSend (sr_service r) (sr_world r) (evs ++ sr_trace r)%list (sr_payload r).

(** The URL a message with this body is delivered to: the second
    component of [ProcessTestMessage] in test mode, the configured URL
    otherwise. *)
Definition target_url (E : Env) (s : Service) (body : string) : string :=
  let '(_, testURL, isTestMode) :=
    ProcessTestMessage E (testMode s) body (URL (config s)) in
  if isTestMode then testURL else URL (config s).

(** The URL that [sendWebhook] puts in its log lines. *)
Definition logged_url (E : Env) (s : Service) (payload : WebhookPayload)
  : string :=
  target_url E s (Body (PMessage payload)).

(** [time.Duration(attempt*attempt) * time.Second] *)
Definition backoff (attempt : Z) : Duration :=
  wrap64 (wrap64 (attempt * attempt) * Second).

(** The loop [for attempt := ...; attempt <= RetryAttempts; attempt++] of
    [sendWebhook] together with the code after it.  One unit of fuel is
    one evaluation of the loop condition; [None] is fuel running out. *)
Fixpoint sendWebhook_loop (E : Env) (fuel : nat) (attempt : Z)
  (payload : WebhookPayload) (lastErr : option string)
  (s : Service) (w : World) : option SendResult :=
  match fuel with
  | O => None
  | S fuel' =>
      if attempt <=? RetryAttempts (config s) then
        let webhookURL := logged_url E s payload in
        let a := sendWebhookAttempt E s payload w in
        match ar_err a with
        | None =>
            let w1 := ar_world a in
            Some (mkSend (updateStats (time_Now E (w_clock w1)) true "" s)
                         (tick w1)
                         (ar_trace a ++ [EvInfoSent attempt webhookURL])%list
                         payload)
        | Some err =>
            let evs :=
              (ar_trace a ++ [EvWarnAttemptFailed attempt err webhookURL]
               ++ (if attempt <? RetryAttempts (config s)
                   then [EvSleep (backoff attempt)] else []))%list in
            option_map (prepend evs)
              (sendWebhook_loop E fuel' (wrap64 (attempt + 1)) payload
                                (Some err) s (ar_world a))
        end
      else
        let errorMsg := match lastErr with
                        | Some e => e
                        | None => "unknown error"
                        end in
        let webhookURL := logged_url E s payload in
        Some (mkSend (updateStats (time_Now E (w_clock w)) false errorMsg s)
                     (tick w)
                     [EvErrorAllFailed (RetryAttempts (config s)) lastErr
                                       webhookURL]
                     payload)
  end.

(** The fuel that lets the loop check its condition [RetryAttempts + 1]
    times. *)
Definition sendWebhook_fuel (s : Service) : nat :=
  S (Z.to_nat (RetryAttempts (config s))).

Definition sendWebhook (E : Env) (s : Service) (msg : Message) (w : World)
  : option SendResult :=
  let payload :=
    mkPayload msg (time_Format E (time_Now E (w_clock w))) "jabber-bot" in
  sendWebhook_loop E (sendWebhook_fuel s) 1 payload None s (tick w).

(** One step of a [processWebhooks] goroutine: it leaves when its context
    is cancelled, it leaves when the queue is closed and drained, or it
    takes the oldest message and runs [sendWebhook] on it.  ([select]
    chooses freely when several cases are ready.) *)
Inductive worker_step (E : Env) : Service * World -> Service * World -> Prop :=
| worker_cancelled : forall s w id,
    In id (workers s) -> In id (cancelled s) ->
    worker_step E (s, w) (set_workers (remove Nat.eq_dec id (workers s)) s, w)
| worker_queue_closed : forall s w id,
    In id (workers s) ->
    closed (messageQueue s) = true -> buf (messageQueue s) = [] ->
    worker_step E (s, w) (set_workers (remove Nat.eq_dec id (workers s)) s, w)
| worker_delivers : forall s w id msg rest r,
    In id (workers s) ->
    buf (messageQueue s) = msg :: rest ->
    sendWebhook E
      (set_queue (mkChan rest (cap (messageQueue s))
                         (closed (messageQueue s))) s) msg w = Some r ->
    worker_step E (s, w) (sr_service r, sr_world r).

(** Any number of worker steps. *)
Inductive worker_steps (E : Env) : Service * World -> Service * World -> Prop :=
| worker_steps_refl : forall x, worker_steps E x x
| worker_steps_step : forall x y z,
    worker_step E x y -> worker_steps E y z -> worker_steps E x z.

(** ** A concrete environment for examples

    [demo_url_Parse] and [demo_url_String] follow net/url on URLs of the
    plain shape [scheme://host/path?query#fragment] (and on scheme-less
    paths); like net/url they refuse ASCII control characters.  The demo
    endpoint answers every request with the status given to [demo_Env]. *)

Fixpoint has_control_char (s : string) : bool :=
  match s with
  | EmptyString => false
  | String c s' =>
      (nat_of_ascii c <? 32)%nat || (nat_of_ascii c =? 127)%nat
      || has_control_char s'
  end.

(** [strings.Cut(s, sep)] *)
Fixpoint Cut (s sep : string) : option (string * string) :=
  if HasPrefix s sep then Some (EmptyString, skip (String.length sep) s)
  else match s with
       | EmptyString => None
       | String c s' =>
           match Cut s' sep with
           | Some (before, after) => Some (String c before, after)
           | None => None
           end
       end.

Definition demo_url_Parse (rawURL : string) : option url_URL :=
  if has_control_char rawURL then None
  else
    let '(rest, frag) := match Cut rawURL "#" with
                         | Some (r, f) => (r, f)
                         | None => (rawURL, "")
                         end in
    let '(rest, query) := match Cut rest "?" with
                          | Some (r, q) => (r, q)
                          | None => (rest, "")
                          end in
    match Cut rest "://" with
    | Some (scheme, authority) =>
        match Cut authority "/" with
        | Some (host, path) => Some (mkURL scheme host ("/" ++ path) query frag)
        | None => Some (mkURL scheme authority "" query frag)
        end
    | None => Some (mkURL "" "" rest query frag)
    end.

Definition demo_url_String (u : url_URL) : string :=
  (if String.eqb (Scheme u) "" then "" else Scheme u ++ "://")
  ++ Host u ++ Path u
  ++ (if String.eqb (RawQuery u) "" then "" else "?" ++ RawQuery u)
  ++ (if String.eqb (Fragment u) "" then "" else "#" ++ Fragment u).

Definition demo_Env (status : Z) : Env :=
  mkEnv demo_url_Parse demo_url_String
        (fun _ => "invalid control character in URL")
        (fun _ _ => DoResponse status)
        (fun i => 1700000000 * Second + Z.of_nat i)
        itoa.

Definition demo_config (url : string) (attempts : Z) : WebhookConfig :=
  mkWebhookConfig url (30 * Second) attempts "".

Definition demo_message (body : string) : Message :=
  mkMessage "m1" "alice@example.com" "bot@example.com" body "chat" "" "" "".

(** The retry loop as the specification words it: the stripping done by
    an attempt is written into the payload that the loop holds, so the
    next attempt starts from the stripped body.  It differs from
    [sendWebhook_loop] only in the payload handed to the next iteration. *)
Fixpoint spec_shared_loop (E : Env) (fuel : nat) (attempt : Z)
  (payload : WebhookPayload) (lastErr : option string)
  (s : Service) (w : World) : option SendResult :=
  match fuel with
  | O => None
  | S fuel' =>
      if attempt <=? RetryAttempts (config s) then
        let webhookURL := logged_url E s payload in
        let a := sendWebhookAttempt E s payload w in
        match ar_err a with
        | None =>
            let w1 := ar_world a in
            Some (mkSend (updateStats (time_Now E (w_clock w1)) true "" s)
                         (tick w1)
                         (ar_trace a ++ [EvInfoSent attempt webhookURL])%list
                         (ar_payload a))
        | Some err =>
            let evs :=
              (ar_trace a ++ [EvWarnAttemptFailed attempt err webhookURL]
               ++ (if attempt <? RetryAttempts (config s)
                   then [EvSleep (backoff attempt)] else []))%list in
            option_map (prepend evs)
              (spec_shared_loop E fuel' (wrap64 (attempt + 1)) (ar_payload a)
                                (Some err) s (ar_world a))
        end
      else
        let errorMsg := match lastErr with
                        | Some e => e
                        | None => "unknown error"
                        end in
        let webhookURL := logged_url E s payload in
        Some (mkSend (updateStats (time_Now E (w_clock w)) false errorMsg s)
                     (tick w)
                     [EvErrorAllFailed (RetryAttempts (config s)) lastErr
                                       webhookURL]
                     payload)
  end.

Definition spec_shared_sendWebhook (E : Env) (s : Service) (msg : Message)
  (w : World) : option SendResult :=
  let payload :=
    mkPayload msg (time_Format E (time_Now E (w_clock w))) "jabber-bot" in
  spec_shared_loop E (sendWebhook_fuel s) 1 payload None s (tick w).

(** The requests of a trace, oldest first. *)
Fixpoint requests (tr : list Event) : list Request :=
  match tr with
  | [] => []
  | EvHTTP r :: tr' => r :: requests tr'
  | _ :: tr' => requests tr'
  end.

(** ** internal/xmpp: the client's [Disconnect] *)

Module XmppClient.

(** What [Disconnect] does to the world outside the struct. *)
Inductive Effect :=
| CancelMonitor        (* c.cancelFunc() *)
| SessionDisconnect    (* c.client.Disconnect() *)
| CloseStreamLogger    (* c.streamLogger.Close() and os.Remove *)
| CloseMessageChan.    (* close(c.messageChan) *)

Definition Effect_eqb (a b : Effect) : bool :=
  match a, b with
  | CancelMonitor, CancelMonitor => true
  | SessionDisconnect, SessionDisconnect => true
  | CloseStreamLogger, CloseStreamLogger => true
  | CloseMessageChan, CloseMessageChan => true
  | _, _ => false
  end.

(** The fields of [Client] that [Disconnect] reads or writes.  Pointers
    are kept as "is not nil"; [mu] says whether [c.mu] is held; [effects]
    lists what was done so far, oldest first. *)
Record Client := mkClient {
  connected : bool;
  messageChan : chan Message;
  mu : bool;
  cancelFunc : bool;
  client : bool;
  streamLogger : bool;
  effects : list Effect
}.

Definition NewClient : Client :=
  mkClient false (make_chan 100) false false false false [].

(** A client on which [Connect] has succeeded. *)
Definition connected_client : Client :=
  mkClient true (make_chan 100) false true true true [].

Definition set_mu (b : bool) (c : Client) : Client :=
  mkClient (connected c) (messageChan c) b (cancelFunc c) (client c)
           (streamLogger c) (effects c).
Definition set_connected (b : bool) (c : Client) : Client :=
  mkClient b (messageChan c) (mu c) (cancelFunc c) (client c)
           (streamLogger c) (effects c).
Definition set_streamLogger (b : bool) (c : Client) : Client :=
  mkClient (connected c) (messageChan c) (mu c) (cancelFunc c) (client c) b
           (effects c).
Definition set_messageChan (q : chan Message) (c : Client) : Client :=
  mkClient (connected c) q (mu c) (cancelFunc c) (client c)
           (streamLogger c) (effects c).
Definition perform (e : Effect) (c : Client) : Client :=
  mkClient (connected c) (messageChan c) (mu c) (cancelFunc c) (client c)
           (streamLogger c) (effects c ++ [e])%list.

Definition count_effect (e : Effect) (c : Client) : nat :=
  List.length (filter (Effect_eqb e) (effects c)).

(** Code of one goroutine running on a [Client]. *)
Definition M (A : Type) : Type := Client -> result A Client.

Definition ret {A} (a : A) : M A := fun c => Ret a c.

Definition bind {A B} (m : M A) (k : A -> M B) : M B :=
  fun c => match m c with
           | Ret a c' => k a c'
           | Panic msg c' => Panic msg c'
           | Block c' => Block c'
           end.

Definition modify (f : Client -> Client) : M unit := fun c => Ret tt (f c).
Definition when (b : Client -> bool) (m : M unit) : M unit :=
  fun c => if b c then m c else Ret tt c.

(** [c.mu.Lock()]: a [sync.RWMutex] is not reentrant, so locking a mutex
    that is held waits for an unlock by another goroutine. *)
Definition Lock : M unit :=
  fun c => if mu c then Block c else Ret tt (set_mu true c).

(** [defer c.mu.Unlock()] around the rest of the function: the unlock
    runs when the body returns or panics, not when it blocks. *)
Definition deferUnlock {A} (body : M A) : M A :=
  fun c => match body c with
           | Ret a c' => Ret a (set_mu false c')
           | Panic msg c' => Panic msg (set_mu false c')
           | Block c' => Block c'
           end.

Definition setConnected (b : bool) : M unit :=
  bind Lock (fun _ => deferUnlock (modify (set_connected b))).

(** [close(c.messageChan)] *)
Definition closeMessageChan : M unit :=
  fun c => match chan_close (messageChan c) with
           | None => Panic "close of closed channel" c
           | Some q => Ret tt (perform CloseMessageChan (set_messageChan q c))
           end.

(** The part of [Disconnect] after [c.setConnected(false)].
    [session_Disconnect] gives the error of the n-th call of the XMPP
    library's [Disconnect]. *)
Definition Disconnect_cleanup (session_Disconnect : nat -> option string)
  : M (option string) :=
  bind (fun c =>
          if client c then
            Ret (session_Disconnect (count_effect SessionDisconnect c))
                (perform SessionDisconnect c)
          else Ret None c)
       (fun err =>
          match err with
          | Some e => ret (Some e)
          | None =>
              bind (when streamLogger
                      (bind (modify (perform CloseStreamLogger))
                            (fun _ => modify (set_streamLogger false))))
                   (fun _ => bind closeMessageChan (fun _ => ret None))
          end).

Definition Disconnect (session_Disconnect : nat -> option string)
  : M (option string) :=
  bind Lock (fun _ =>
    deferUnlock
      (bind (when cancelFunc (modify (perform CancelMonitor))) (fun _ =>
       bind (setConnected false) (fun _ =>
       Disconnect_cleanup session_Disconnect)))).

End XmppClient.

(** ** internal/xmpp: [mergeChannels] *)

Module FanIn.

(** Where a forwarding goroutine [for msg := range c { output <- msg }]
    stands: at the receive from its source, at the send of [msg] to
    [output], or past its deferred [wg.Done()]. *)
Inductive forwarder :=
| Receiving
| Sending (msg : Message)
| Exited.

(** The goroutines started by [mergeChannels], each with the messages its
    source channel has yet to hand out before it is closed; the
    [WaitGroup] counter; whether the closing goroutine has closed
    [output]; what the reader of [output] has received, oldest first. *)
Record Merge := mkMerge {
  goroutines : list (forwarder * list Message);
  wg : Z;
  output_closed : bool;
  received : list Message;
  panicked : bool
}.

(** The state in which [mergeChannels(channels...)] returns. *)
Definition mergeChannels (channels : list (list Message)) : Merge :=
  mkMerge (map (fun c => (Receiving, c)) channels)
          (Z.of_nat (List.length channels)) false [] false.

(** One step of one goroutine.  [output] is unbuffered: a send is a
    hand-over to the reader, who is always ready to receive. *)
Inductive step : Merge -> Merge -> Prop :=
| step_receive : forall l1 l2 msg rest n closed rcv,
    step (mkMerge (l1 ++ (Receiving, msg :: rest) :: l2) n closed rcv false)
         (mkMerge (l1 ++ (Sending msg, rest) :: l2) n closed rcv false)
| step_send : forall l1 l2 msg rest n rcv,
    step (mkMerge (l1 ++ (Sending msg, rest) :: l2) n false rcv false)
         (mkMerge (l1 ++ (Receiving, rest) :: l2) n false (rcv ++ [msg]) false)
| step_send_on_closed : forall l1 l2 msg rest n rcv,
    step (mkMerge (l1 ++ (Sending msg, rest) :: l2) n true rcv false)
         (mkMerge (l1 ++ (Sending msg, rest) :: l2) n true rcv true)
| step_source_closed : forall l1 l2 n closed rcv,
    step (mkMerge (l1 ++ (Receiving, []) :: l2) n closed rcv false)
         (mkMerge (l1 ++ (Exited, []) :: l2) (n - 1) closed rcv (n - 1 <? 0))
| step_close : forall l rcv,
    step (mkMerge l 0 false rcv false) (mkMerge l 0 true rcv false).

Inductive steps : Merge -> Merge -> Prop :=
| steps_refl : forall m, steps m m
| steps_step : forall m1 m2 m3, steps m1 m2 -> step m2 m3 -> steps m1 m3.

(** The messages a goroutine still has to deliver. *)
Definition pending_of (g : forwarder * list Message) : list Message :=
  match fst g with
  | Sending msg => msg :: snd g
  | _ => snd g
  end.

Definition pending (l : list (forwarder * list Message)) : list Message :=
  flat_map pending_of l.

Definition is_live (g : forwarder * list Message) : bool :=
  match fst g with
  | Exited => false
  | _ => true
  end.

(** A bound on the number of steps that are left. *)
Definition weight (g : forwarder * list Message) : nat :=
  (2 * List.length (snd g)
   + match fst g with Receiving => 1 | Sending _ => 2 | Exited => 0 end)%nat.

Definition measure (m : Merge) : nat :=
  (list_sum (map weight (goroutines m))
   + (if output_closed m then 0 else 1)
   + (if panicked m then 0 else 1))%nat.

(** The goroutines that have not called [wg.Done()] yet. *)
Definition count_live (l : list (forwarder * list Message)) : nat :=
  List.length (filter is_live l).

(** What holds in every state that [mergeChannels channels] can reach. *)
Definition invariant (channels : list (list Message)) (m : Merge) : Prop :=
  panicked m = false
  /\ wg m = Z.of_nat (count_live (goroutines m))
  /\ (output_closed m = true -> wg m = 0)
  /\ Forall (fun g => fst g = Exited -> snd g = []) (goroutines m)
  /\ Permutation (received m ++ pending (goroutines m))%list
                 (List.concat channels).

End FanIn.

(** ** Vocabulary of the properties *)

(** The state a call leaves behind. *)
Definition state_of {A S} (r : result A S) : S :=
  match r with
  | Ret _ s => s
  | Panic _ s => s
  | Block s => s
  end.

(** A service on which [Start], [Stop] and [Start] were called. *)
Definition restarted_service (cfg : WebhookConfig) : Service :=
  state_of (Start (state_of (Stop (state_of (Start (NewService cfg)))))).

(** [s'] is [s] with one more failure in its statistics, recorded at
    [now] with the text [err], and nothing else changed; likewise for one
    more success.  ([TotalFailed] and [TotalSent] are [int64].) *)
Definition one_failure_recorded (now : Time) (err : string)
  (s s' : Service) : Prop :=
  TotalFailed (stats s') = wrap64 (TotalFailed (stats s) + 1)
  /\ (0 <= TotalFailed (stats s) < MaxInt64 ->
      TotalFailed (stats s') = TotalFailed (stats s) + 1)
  /\ TotalSent (stats s') = TotalSent (stats s)
  /\ LastSent (stats s') = LastSent (stats s)
  /\ LastFailure (stats s') = now
  /\ LastError (stats s') = err
  /\ config s' = config s
  /\ messageQueue s' = messageQueue s
  /\ running s' = running s.

Definition one_success_recorded (now : Time) (s s' : Service) : Prop :=
  TotalSent (stats s') = wrap64 (TotalSent (stats s) + 1)
  /\ (0 <= TotalSent (stats s) < MaxInt64 ->
      TotalSent (stats s') = TotalSent (stats s) + 1)
  /\ TotalFailed (stats s') = TotalFailed (stats s)
  /\ LastSent (stats s') = now
  /\ LastFailure (stats s') = LastFailure (stats s)
  /\ LastError (stats s') = LastError (stats s)
  /\ config s' = config s
  /\ messageQueue s' = messageQueue s
  /\ running s' = running s.

(** [s'] is [s] with [ins] put in right after the leftmost occurrence of
    [x]. *)
Definition inserted_after_first (x ins s s' : string) : Prop :=
  exists a b,
    s = a ++ x ++ b
    /\ (forall a1 a2, a = a1 ++ a2 -> a2 <> "" ->
                      HasPrefix (a2 ++ x ++ b) x = false)
    /\ s' = a ++ x ++ ins ++ b.

(** [SendMessage] as the specification words it, for every state: an
    error when not running, otherwise [nil] with room in the queue and an
    error without. *)
Definition SendMessage_as_specified (s : Service) (msg : Message) : Prop :=
  (isRunning s = false ->
   exists s', SendMessage s msg = Ret (Some "webhook service is not running") s')
  /\ (isRunning s = true ->
      (chan_len (messageQueue s) < cap (messageQueue s))%nat ->
      exists s', SendMessage s msg = Ret None s')
  /\ (isRunning s = true ->
      (cap (messageQueue s) <= chan_len (messageQueue s))%nat ->
      exists s', SendMessage s msg = Ret (Some "webhook queue is full") s').

(** The shared-payload reading of the specification: when [sendWebhook]
    is done with a message, the payload it holds carries the body that
    the attempts have stripped. *)
Definition payload_mutation_persists (E : Env) (s : Service) (msg : Message)
  (w : World) : Prop :=
  forall r, sendWebhook E s msg w = Some r ->
            Body (PMessage (sr_payload r))
            = removeTestPrefix (testMode s) (Body msg).

(** [failures] recorded one after the other, each with its clock reading
    and error text. *)
Fixpoint record_failures (failures : list (Time * string)) (s : Service)
  : Service :=
  match failures with
  | [] => s
  | (now, err) :: rest => record_failures rest (updateStats now false err s)
  end.

(** Whether [sendWebhookAttempt] counts a round trip as delivered. *)
Definition delivered (r : DoResult) : bool :=
  match r with
  | DoError _ => false
  | DoResponse status => negb ((status <? 200) || (status >=? 300))
  end.

(** An event without its payload. *)
Inductive Kind :=
| KHttp
| KSleep (d : Duration)
| KWarn (attempt : Z)
| KInfo (attempt : Z)
| KError (attempts : Z).

Definition kind_of (e : Event) : Kind :=
  match e with
  | EvHTTP _ => KHttp
  | EvSleep d => KSleep d
  | EvWarnAttemptFailed attempt _ _ => KWarn attempt
  | EvInfoSent attempt _ => KInfo attempt
  | EvErrorAllFailed attempts _ _ => KError attempts
  end.

(** What attempt [k] of [n] shows when it fails: a request, the warning,
    and, unless it is the last one, a sleep of [k * k] seconds. *)
Definition failed_attempt_kinds (n k : nat) : list Kind :=
  ([KHttp; KWarn (Z.of_nat k)]
   ++ (if (k <? n)%nat then [KSleep (Z.of_nat (k * k) * Second)] else []))%list.

(** What [n] failing attempts show, down to the final error line. *)
Definition all_failed_kinds (n : nat) : list Kind :=
  (flat_map (failed_attempt_kinds n) (seq 1 n) ++ [KError (Z.of_nat n)])%list.

(** A concatenation of sequences of [seqs]. *)
Inductive run_of (seqs : list string) : string -> Prop :=
| run_nil : run_of seqs ""
| run_cons : forall q rest,
    In q seqs -> run_of seqs rest -> run_of seqs (q ++ rest).

(** White space in the sense of [unicode.IsSpace]. *)
Definition Whitespace : string -> Prop := run_of space_seqs.

(** A running service with a queue of capacity 2. *)
Definition small_queue_service : Service :=
  state_of (Start (set_queue (make_chan 2)
                     (NewService (demo_config "https://example.com/webhook" 1)))).

(** The request that an attempt builds from [payload]. *)
Definition attempt_request (E : Env) (s : Service) (payload : WebhookPayload)
  : Request :=
  let '(processedBody, webhookURL, isTestMode) :=
    ProcessTestMessage E (testMode s) (Body (PMessage payload))
                       (URL (config s)) in
  mkRequest "POST" webhookURL
            (if isTestMode then set_payload_Body processedBody payload
             else payload)
            (request_headers (Timestamp payload) isTestMode).

(** ** The delivery queue seen from outside *)

(** What can happen to a service: a call of [Start], [Stop] or
    [SendMessage] that returns, or a step of one of its workers.  (A call
    that panics ends the process.  A [SendMessage] that returns after
    other goroutines ran between its check and its send acts like one
    placed at its check, when it found the service stopped, or at its
    send: a queue that is open at the send was never stopped.) *)
Inductive service_op (E : Env) : Service * World -> Service * World -> Prop :=
| op_Start : forall s w e s',
    Start s = Ret e s' -> service_op E (s, w) (s', w)
| op_Stop : forall s w e s',
    Stop s = Ret e s' -> service_op E (s, w) (s', w)
| op_SendMessage : forall s w msg e s',
    SendMessage s msg = Ret e s' -> service_op E (s, w) (s', w)
| op_worker : forall x y,
    worker_step E x y -> service_op E x y.

Inductive service_run (E : Env) : Service * World -> Service * World -> Prop :=
| service_run_refl : forall x, service_run E x x
| service_run_step : forall x y z,
    service_run E x y -> service_op E y z -> service_run E x z.

(** What a failed attempt shows when no URL is configured: the warning
    and, unless it is the last one, the sleep; no request. *)
Definition unconfigured_attempt_kinds (n k : nat) : list Kind :=
  (KWarn (Z.of_nat k)
   :: (if (k <? n)%nat then [KSleep (Z.of_nat (k * k) * Second)] else []))%list.

(** What holds of a service made by [NewService cfg] whatever is done
    with it: the queue is within its capacity of 1000, the configuration
    and the test-mode utilities are the ones it was made with, and as
    long as the queue channel is open there is one worker, watching the
    context of the stored cancel function, exactly when the service is
    running. *)
Definition service_invariant (cfg : WebhookConfig) (s : Service) : Prop :=
  (chan_len (messageQueue s) <= cap (messageQueue s))%nat
  /\ cap (messageQueue s) = 1000%nat
  /\ config s = cfg
  /\ testMode s = NewTestModeUtils (TestModeSuffix cfg)
  /\ (closed (messageQueue s) = false ->
      cancelled s = []
      /\ if running s
         then exists id, cancelFunc s = Some id /\ workers s = [id]
         else workers s = []).

(** The bytes that occur in the encodings of white space. *)
Fixpoint has_byte (c : ascii) (s : string) : bool :=
  match s with
  | EmptyString => false
  | String x s' => Ascii.eqb x c || has_byte c s'
  end.

Definition space_byte (c : ascii) : bool :=
  existsb (has_byte c) space_seqs.

Fixpoint all_bytes (p : ascii -> bool) (s : string) : bool :=
  match s with
  | EmptyString => true
  | String c s' => p c && all_bytes p s'
  end.

(** ** internal/webhook: the manager *)

Module WebhookManager.

(** The methods of [Service] that the manager calls. *)
Definition service_Start := Start.
Definition service_Stop := Stop.
Definition service_SendMessage := SendMessage.

(** A [Manager]: its service, and how many [processXMPPMessages]
    goroutines its [Start] has launched. *)
Record Manager := mkManager {
  webhookService : Service;
  processors : nat
}.

Definition NewManager (cfg : WebhookConfig) : Manager :=
  mkManager (NewService cfg) 0.

Definition with_service (m : Manager) (s : Service) : Manager :=
  mkManager s (processors m).

Definition Start (m : Manager) : result (option string) Manager :=
  match service_Start (webhookService m) with
  | Ret (Some err) s =>
      Ret (Some ("failed to start webhook service: " ++ err))
          (with_service m s)
  | Ret None s => Ret None (mkManager s (S (processors m)))
  | Panic msg s => Panic msg (with_service m s)
  | Block s => Block (with_service m s)
  end.

Definition Stop (m : Manager) : result (option string) Manager :=
  match service_Stop (webhookService m) with
  | Ret err s => Ret err (with_service m s)
  | Panic msg s => Panic msg (with_service m s)
  | Block s => Block (with_service m s)
  end.

(** The error line that [handleIncomingMessage] logs when the service
    refuses a message. *)
Record SendFailed := mkSendFailed {
  sf_error : string;
  sf_from : string;
  sf_to : string
}.

(** [handleIncomingMessage]; the result is what it logs at error level.
    As for the service's [SendMessage], the running check reads the
    service of [m] and the send runs on the service of [m'], what the
    other goroutines have made of it meanwhile. *)
Definition handleIncomingMessage_at (m m' : Manager) (msg : Message)
  : result (list SendFailed) Manager :=
  match SendMessage_at (webhookService m) (webhookService m') msg with
  | Ret (Some err) s =>
      Ret [mkSendFailed err (From msg) (To msg)] (with_service m' s)
  | Ret None s => Ret [] (with_service m' s)
  | Panic text s => Panic text (with_service m' s)
  | Block s => Block (with_service m' s)
  end.

(** The call during which no other goroutine runs. *)
Definition handleIncomingMessage (m : Manager) (msg : Message)
  : result (list SendFailed) Manager :=
  match service_SendMessage (webhookService m) msg with
  | Ret (Some err) s =>
      Ret [mkSendFailed err (From msg) (To msg)] (with_service m s)
  | Ret None s => Ret [] (with_service m s)
  | Panic text s => Panic text (with_service m s)
  | Block s => Block (with_service m s)
  end.

(** [processXMPPMessages] on the messages that arrive before the context
    is cancelled or the stream is closed, with no other goroutine running
    meanwhile. *)
Fixpoint processXMPPMessages (msgs : list Message) (m : Manager)
  : result (list SendFailed) Manager :=
  match msgs with
  | [] => Ret [] m
  | msg :: rest =>
      match handleIncomingMessage m msg with
      | Ret lines m' =>
          match processXMPPMessages rest m' with
          | Ret lines' m'' => Ret (lines ++ lines')%list m''
          | Panic text m'' => Panic text m''
          | Block m'' => Block m''
          end
      | Panic text m' => Panic text m'
      | Block m' => Block m'
      end
  end.

(** The line logged for a message refused with [err]. *)
Definition refused (err : string) (msg : Message) : SendFailed :=
  mkSendFailed err (From msg) (To msg).

End WebhookManager.

(** ** internal/xmpp: the client's other methods *)

Module XmppClientOps.
Import XmppClient.

(** The fields of the XMPP library's [stanza.Message] that the client
    reads or writes. *)
Record Stanza := mkStanza {
  st_Id : string;
  st_From : string;
  st_To : string;
  st_Type : string;
  st_Body : string;
  st_Subject : string;
  st_Thread : string
}.

(** What the router hands to the "message" handler. *)
Inductive Packet :=
| MessagePacket (msg : Stanza)
| OtherPacket.

(** [c.mu.RLock()]: waits while a writer holds the mutex.  (Readers are
    not counted: every read section of the client ends without blocking.) *)
Definition RLock : M unit :=
  fun c => if mu c then Block c else Ret tt c.

Definition isConnected : M bool :=
  bind RLock (fun _ c => Ret (connected c) c).

Definition IsConnected : M bool := isConnected.

(** [c.client.Send(msg)]: [session_Send] is the library's answer; on a
    nil [c.client] the call dereferences a nil pointer. *)
Definition session_send (session_Send : Stanza -> option string)
  (msg : Stanza) : M (option string) :=
  fun c => if client c then Ret (session_Send msg) c
           else Panic "invalid memory address or nil pointer dereference" c.

(** The result of a send: the error, and the stanzas handed to the
    session. *)
Definition SendMessage (session_Send : Stanza -> option string)
  (to body messageType : string) : M (option string * list Stanza) :=
  bind isConnected (fun ok =>
    if negb ok then ret (Some "XMPP client is not connected", [])
    else
      let messageType :=
        if String.eqb messageType "" then "chat" else messageType in
      let msg := mkStanza "" "" to messageType body "" "" in
      bind (session_send session_Send msg) (fun err =>
        match err with
        | Some e => ret (Some ("failed to send message: " ++ e), [msg])
        | None => ret (None, [msg])
        end)).

Definition SendMUCMessage (session_Send : Stanza -> option string)
  (room body subject : string) : M (option string * list Stanza) :=
  bind isConnected (fun ok =>
    if negb ok then ret (Some "XMPP client is not connected", [])
    else
      let msg := mkStanza "" "" room "groupchat" body "" "" in
      let msg :=
        if negb (String.eqb subject "")
        then mkStanza "" "" room "groupchat" body subject ""
        else msg in
      bind (session_send session_Send msg) (fun err =>
        match err with
        | Some e => ret (Some ("failed to send MUC message: " ++ e), [msg])
        | None => ret (None, [msg])
        end)).

(** The [models.Message] that the handler makes of a stanza. *)
Definition to_model (msg : Stanza) : Message :=
  mkMessage (st_Id msg) (st_From msg) (st_To msg) (st_Body msg)
            (st_Type msg) (st_Subject msg) (st_Thread msg) "".

(** The handler that [setupHandlers] registers for "message"; the result
    says whether the message was put on [messageChan]. *)
Definition handleMessage (p : Packet) : M bool :=
  match p with
  | OtherPacket => ret false
  | MessagePacket msg =>
      if String.eqb (st_Body msg) "" || String.eqb (st_From msg) ""
      then ret false
      else
        fun c =>
          match chan_try_send (messageChan c) (to_model msg) with
          | Sent q => Ret true (set_messageChan q c)
          | WouldBlock => Ret false c
          | SendOnClosed => Panic "send on closed channel" c
          end
  end.

(** The handler run on a sequence of packets. *)
Fixpoint handleMessages (ps : list Packet) : M (list bool) :=
  match ps with
  | [] => ret []
  | p :: ps' =>
      bind (handleMessage p) (fun queued =>
      bind (handleMessages ps') (fun rest => ret (queued :: rest)))
  end.

(** The messages that a sequence of packets offers to the channel. *)
Fixpoint offered (ps : list Packet) : list Message :=
  match ps with
  | [] => []
  | OtherPacket :: ps' => offered ps'
  | MessagePacket msg :: ps' =>
      if String.eqb (st_Body msg) "" || String.eqb (st_From msg) ""
      then offered ps'
      else to_model msg :: offered ps'
  end.

(** What [reconnect] does besides changing the client. *)
Inductive ReconnectEvent :=
| RSleep (d : Duration)     (* time.Sleep(c.config.Reconnection.Backoff) *)
| RConnect.                 (* c.client.Connect() *)

(** The loop of [reconnect] and the error after it.  [session_Connect]
    gives the error of the library's n-th [Connect]; [calls] counts the
    calls made so far; on a nil [c.client] the call dereferences a nil
    pointer.  One unit of fuel is one evaluation of the loop condition;
    [None] is fuel running out. *)
Fixpoint reconnect_loop (session_Connect : nat -> option string)
  (MaxAttempts : Z) (Backoff : Duration) (fuel : nat) (attempt : Z)
  (calls : nat) (c : Client)
  : option (result (option string * list ReconnectEvent) Client) :=
  match fuel with
  | O => None
  | S fuel' =>
      if attempt <=? MaxAttempts then
        if negb (client c) then
          Some (Panic "invalid memory address or nil pointer dereference" c)
        else
        match session_Connect calls with
        | Some _ =>
            match reconnect_loop session_Connect MaxAttempts Backoff fuel'
                                 (wrap64 (attempt + 1)) (S calls) c with
            | Some (Ret (err, evs) c') =>
                Some (Ret (err, RSleep Backoff :: RConnect :: evs) c')
            | other => other
            end
        | None =>
            match setConnected true c with
            | Ret _ c' => Some (Ret (None, [RSleep Backoff; RConnect]) c')
            | Panic text c' => Some (Panic text c')
            | Block c' => Some (Block c')
            end
        end
      else
        Some (Ret (Some ("failed to reconnect after " ++ itoa MaxAttempts
                         ++ " attempts"), []) c)
  end.

Definition reconnect (session_Connect : nat -> option string)
  (MaxAttempts : Z) (Backoff : Duration) (calls : nat) (c : Client)
  : option (result (option string * list ReconnectEvent) Client) :=
  reconnect_loop session_Connect MaxAttempts Backoff
                 (S (Z.to_nat MaxAttempts)) 1 calls c.

(** [k] rounds of sleeping and connecting. *)
Fixpoint rounds (Backoff : Duration) (k : nat) : list ReconnectEvent :=
  match k with
  | O => []
  | S k' => RSleep Backoff :: RConnect :: rounds Backoff k'
  end.

(** [Connect].  [os_CreateTemp] says whether the temporary file for the
    stream log could be created, [xmpp_NewClient] and [session_Connect]
    are the errors of the library's [NewClient] and [Connect].  (The
    goroutines it starts, the log monitor and [handleReconnection], run
    on their own.) *)
Definition set_cancelFunc (b : bool) (c : Client) : Client :=
  mkClient (connected c) (messageChan c) (mu c) b (client c)
           (streamLogger c) (effects c).
Definition set_client (b : bool) (c : Client) : Client :=
  mkClient (connected c) (messageChan c) (mu c) (cancelFunc c) b
           (streamLogger c) (effects c).

Definition Connect (os_CreateTemp : bool) (xmpp_NewClient : option string)
  (session_Connect : option string) : M (option string) :=
  bind (modify (set_cancelFunc true)) (fun _ =>
  bind (modify (set_streamLogger os_CreateTemp)) (fun _ =>
    match xmpp_NewClient with
    | Some e => ret (Some ("failed to create XMPP client: " ++ e))
    | None =>
        bind (modify (set_client true)) (fun _ =>
          match session_Connect with
          | Some e => ret (Some ("failed to connect to XMPP server: " ++ e))
          | None => bind (setConnected true) (fun _ => ret None)
          end)
    end)).

End XmppClientOps.

(** ** internal/xmpp: the manager *)

Module XmppManager.

(** [clients] is the map from client id to client, as an association
    list with distinct keys, in the order in which [range] visits it. *)
Record Manager := mkManager {
  clients : list (string * XmppClient.Client);
  mu : bool;
  webhookChan : chan Message;
  dispatchers : nat                 (* [dispatchWebhooks] goroutines started *)
}.

Definition NewManager : Manager := mkManager [] false (make_chan 1000) 0.

Definition set_clients (cs : list (string * XmppClient.Client))
  (m : Manager) : Manager :=
  mkManager cs (mu m) (webhookChan m) (dispatchers m).
Definition set_mu (b : bool) (m : Manager) : Manager :=
  mkManager (clients m) b (webhookChan m) (dispatchers m).
Definition set_webhookChan (q : chan Message) (m : Manager) : Manager :=
  mkManager (clients m) (mu m) q (dispatchers m).
Definition spawn_dispatcher (m : Manager) : Manager :=
  mkManager (clients m) (mu m) (webhookChan m) (S (dispatchers m)).

(** [m.clients[id]] and [m.clients[id] = c] *)
Fixpoint lookup (id : string) (cs : list (string * XmppClient.Client))
  : option XmppClient.Client :=
  match cs with
  | [] => None
  | (k, c) :: rest => if String.eqb k id then Some c else lookup id rest
  end.

Fixpoint store (id : string) (c : XmppClient.Client)
  (cs : list (string * XmppClient.Client))
  : list (string * XmppClient.Client) :=
  match cs with
  | [] => [(id, c)]
  | (k, c0) :: rest =>
      if String.eqb k id then (k, c) :: rest else (k, c0) :: store id c rest
  end.

(** Code of one goroutine running on a [Manager]. *)
Definition M (A : Type) : Type := Manager -> result A Manager.

Definition ret {A} (a : A) : M A := fun m => Ret a m.

Definition bind {A B} (x : M A) (k : A -> M B) : M B :=
  fun m => match x m with
           | Ret a m' => k a m'
           | Panic msg m' => Panic msg m'
           | Block m' => Block m'
           end.

Definition modify (f : Manager -> Manager) : M unit := fun m => Ret tt (f m).

Definition Lock : M unit :=
  fun m => if mu m then Block m else Ret tt (set_mu true m).

Definition RLock : M unit :=
  fun m => if mu m then Block m else Ret tt m.

Definition deferUnlock {A} (body : M A) : M A :=
  fun m => match body m with
           | Ret a m' => Ret a (set_mu false m')
           | Panic msg m' => Panic msg (set_mu false m')
           | Block m' => Block m'
           end.

(** A method of a client called through its pointer in the map. *)
Definition on_client {A} (id : string) (c : XmppClient.Client)
  (body : XmppClient.M A) : M A :=
  fun m => match body c with
           | Ret a c' => Ret a (set_clients (store id c' (clients m)) m)
           | Panic msg c' => Panic msg (set_clients (store id c' (clients m)) m)
           | Block c' => Block (set_clients (store id c' (clients m)) m)
           end.

(** [Start]: the client is connected before it is put in the map. *)
Definition Start (os_CreateTemp : bool) (xmpp_NewClient : option string)
  (session_Connect : option string) : M (option string) :=
  fun m =>
    match XmppClientOps.Connect os_CreateTemp xmpp_NewClient session_Connect
                                XmppClient.NewClient with
    | Ret (Some e) _ => Ret (Some e) m
    | Ret None c =>
        bind Lock (fun _ =>
        bind (modify (fun m => set_clients (store "default" c (clients m)) m))
             (fun _ =>
        bind (modify (set_mu false)) (fun _ =>
        bind (modify spawn_dispatcher) (fun _ => ret None)))) m
    | Panic msg _ => Panic msg m
    | Block _ => Block m
    end.

(** The loop of [Stop] over the clients still to visit. *)
Fixpoint disconnect_all (session_Disconnect : nat -> option string)
  (todo : list (string * XmppClient.Client)) : M unit :=
  match todo with
  | [] => ret tt
  | (id, c) :: rest =>
      bind (on_client id c (XmppClient.Disconnect session_Disconnect))
           (fun _ => disconnect_all session_Disconnect rest)
  end.

(** [close(m.webhookChan)] *)
Definition closeWebhookChan : M unit :=
  fun m => match chan_close (webhookChan m) with
           | None => Panic "close of closed channel" m
           | Some q => Ret tt (set_webhookChan q m)
           end.

Definition Stop (session_Disconnect : nat -> option string)
  : M (option string) :=
  bind Lock (fun _ =>
    deferUnlock
      (fun m =>
         bind (disconnect_all session_Disconnect (clients m)) (fun _ =>
         bind closeWebhookChan (fun _ =>
         bind (modify (set_clients [])) (fun _ => ret None))) m)).

Definition GetDefaultClient : M (option XmppClient.Client) :=
  bind RLock (fun _ m => Ret (lookup "default" (clients m)) m).

Definition ErrNoDefaultClient : string := "No default XMPP client available".

Definition SendMessage (session_Send : XmppClientOps.Stanza -> option string)
  (to body messageType : string)
  : M (option string * list XmppClientOps.Stanza) :=
  bind GetDefaultClient (fun client =>
    match client with
    | None => ret (Some ErrNoDefaultClient, [])
    | Some c =>
        on_client "default" c
          (XmppClientOps.SendMessage session_Send to body messageType)
    end).

Definition SendMUCMessage
  (session_Send : XmppClientOps.Stanza -> option string)
  (room body subject : string)
  : M (option string * list XmppClientOps.Stanza) :=
  bind GetDefaultClient (fun client =>
    match client with
    | None => ret (Some ErrNoDefaultClient, [])
    | Some c =>
        on_client "default" c
          (XmppClientOps.SendMUCMessage session_Send room body subject)
    end).

Definition IsConnected : M bool :=
  bind GetDefaultClient (fun client =>
    match client with
    | None => ret false
    | Some c => on_client "default" c XmppClientOps.IsConnected
    end).

Definition GetWebhookChannel (m : Manager) : chan Message := webhookChan m.

End XmppManager.

(** ** internal/config *)

Module ConfigPkg.

Record XMPPConfig := mkXMPPConfig {
  JID : string;
  Password : string;
  Server : string;
  Resource : string
}.

Record APIConfig := mkAPIConfig {
  Port : Z;
  Host : string;
  APIKey : string;
  Enabled : bool
}.

Record LoggingConfig := mkLoggingConfig {
  Level : string;
  Output : string;
  FilePath : string
}.

Record ReconnectionConfig := mkReconnectionConfig {
  ReconnectionEnabled : bool;       (* field [Enabled] *)
  MaxAttempts : Z;
  Backoff : Duration
}.

Record Config := mkConfig {
  XMPP : XMPPConfig;
  API : APIConfig;
  Webhook : WebhookConfig;
  Logging : LoggingConfig;
  Reconnection : ReconnectionConfig
}.

(** Assignments to one field of a nested struct. *)
Definition set_API (a : APIConfig) (c : Config) : Config :=
  mkConfig (XMPP c) a (Webhook c) (Logging c) (Reconnection c).
Definition set_Webhook (w : WebhookConfig) (c : Config) : Config :=
  mkConfig (XMPP c) (API c) w (Logging c) (Reconnection c).
Definition set_Logging (l : LoggingConfig) (c : Config) : Config :=
  mkConfig (XMPP c) (API c) (Webhook c) l (Reconnection c).
Definition set_Reconnection (r : ReconnectionConfig) (c : Config) : Config :=
  mkConfig (XMPP c) (API c) (Webhook c) (Logging c) r.

Definition set_Port (v : Z) (c : Config) : Config :=
  set_API (mkAPIConfig v (Host (API c)) (APIKey (API c)) (Enabled (API c))) c.
Definition set_Host (v : string) (c : Config) : Config :=
  set_API (mkAPIConfig (Port (API c)) v (APIKey (API c)) (Enabled (API c))) c.
Definition set_APIKey (v : string) (c : Config) : Config :=
  set_API (mkAPIConfig (Port (API c)) (Host (API c)) v (Enabled (API c))) c.
Definition set_Enabled (v : bool) (c : Config) : Config :=
  set_API (mkAPIConfig (Port (API c)) (Host (API c)) (APIKey (API c)) v) c.
Definition set_Timeout (v : Duration) (c : Config) : Config :=
  set_Webhook (mkWebhookConfig (URL (Webhook c)) v
                 (RetryAttempts (Webhook c)) (TestModeSuffix (Webhook c))) c.
Definition set_RetryAttempts (v : Z) (c : Config) : Config :=
  set_Webhook (mkWebhookConfig (URL (Webhook c)) (Timeout (Webhook c)) v
                 (TestModeSuffix (Webhook c))) c.
Definition set_Level (v : string) (c : Config) : Config :=
  set_Logging (mkLoggingConfig v (Output (Logging c)) (FilePath (Logging c))) c.
Definition set_Output (v : string) (c : Config) : Config :=
  set_Logging (mkLoggingConfig (Level (Logging c)) v (FilePath (Logging c))) c.
Definition set_MaxAttempts (v : Z) (c : Config) : Config :=
  set_Reconnection
    (mkReconnectionConfig (ReconnectionEnabled (Reconnection c)) v
                          (Backoff (Reconnection c))) c.
Definition set_Backoff (v : Duration) (c : Config) : Config :=
  set_Reconnection
    (mkReconnectionConfig (ReconnectionEnabled (Reconnection c))
                          (MaxAttempts (Reconnection c)) v) c.

(** [if cond { assignment }] *)
Definition when (cond : Config -> bool) (f : Config -> Config)
  (c : Config) : Config :=
  if cond c then f c else c.

(** The part of [Load] after [viper.Unmarshal]: the default values. *)
Definition defaults (config : Config) : Config :=
  let config := when (fun c => Port (API c) =? 0) (set_Port 8080) config in
  let config :=
    when (fun c => String.eqb (Host (API c)) "") (set_Host "0.0.0.0") config in
  let config :=
    when (fun c => String.eqb (APIKey (API c)) "")
         (fun c => set_Enabled false (set_APIKey "" c)) config in
  let config :=
    when (fun c => Timeout (Webhook c) =? 0) (set_Timeout (30 * Second))
         config in
  let config :=
    when (fun c => RetryAttempts (Webhook c) =? 0) (set_RetryAttempts 3)
         config in
  let config :=
    when (fun c => String.eqb (Level (Logging c)) "") (set_Level "info")
         config in
  let config :=
    when (fun c => String.eqb (Output (Logging c)) "") (set_Output "stdout")
         config in
  let config :=
    when (fun c => MaxAttempts (Reconnection c) =? 0) (set_MaxAttempts 5)
         config in
  let config :=
    when (fun c => Backoff (Reconnection c) =? 0) (set_Backoff (5 * Second))
         config in
  config.

(** [Load]: [viper_ReadInConfig] is the error of reading the file (and
    the environment), [viper_Unmarshal] the decoded struct or the error
    of decoding. *)
Definition Load (viper_ReadInConfig : option string)
  (viper_Unmarshal : Config + string) : Config + string :=
  match viper_ReadInConfig with
  | Some err => inr ("failed to read config file: " ++ err)
  | None =>
      match viper_Unmarshal with
      | inr err => inr ("failed to unmarshal config: " ++ err)
      | inl config => inl (defaults config)
      end
  end.

End ConfigPkg.

(** ** internal/api: authentication *)

Module Auth.

(** What [c.Get] answers for the two headers read; a header that is
    absent reads as the empty string. *)
Record Headers := mkHeaders {
  h_API_Key : string;          (* c.Get("API-Key") *)
  h_Authorization : string     (* c.Get("Authorization") *)
}.

(** What a handler does with the request: hand it to the next handler,
    with the value it has stored under "authenticated" if any, or answer
    with a status and the fields "success", "error" and "code". *)
Inductive Outcome :=
| Next (authenticated : option bool)
| Respond (status : Z) (success : bool) (error : string) (code : Z).

(** The key both handlers compare with the configured one. *)
Definition apiKey_of (h : Headers) : string :=
  let apiKey := h_API_Key h in
  if String.eqb apiKey "" then
    let authHeader := h_Authorization h in
    if HasPrefix authHeader "Bearer " then TrimPrefix authHeader "Bearer "
    else apiKey
  else apiKey.

Definition AuthMiddleware (api : ConfigPkg.APIConfig) (h : Headers)
  : Outcome :=
  if negb (ConfigPkg.Enabled api) then Next None
  else
    let apiKey := apiKey_of h in
    if negb (String.eqb apiKey (ConfigPkg.APIKey api)) then
      Respond 401 false "Unauthorized - valid API key required" 401
    else Next None.

Definition OptionalAuthMiddleware (api : ConfigPkg.APIConfig) (h : Headers)
  : Outcome :=
  if negb (ConfigPkg.Enabled api) then Next None
  else
    let apiKey := apiKey_of h in
    if String.eqb apiKey (ConfigPkg.APIKey api) then Next (Some true)
    else Next (Some false).

End Auth.

(** ** internal/api: the send handler *)

Module Api.

Record SendMessageRequest := mkSendMessageRequest {
  req_To : string;
  req_Body : string;
  req_Type : string
}.

(** What a handler gives back to the framework: an error made by
    [fiber.NewError], or a JSON body sent with a status. *)
Inductive Response :=
| FiberError (code : Z) (message : string)
| ErrorResponse (status : Z) (success : bool) (error : string) (code : Z)
| APIResponse (success : bool) (message : string)
              (to type : string) (body_length : Z)
              (sent_at request_id : string).

(** The status code the client sees. *)
Definition status_of (r : Response) : Z :=
  match r with
  | FiberError code _ => code
  | ErrorResponse status _ _ _ => status
  | APIResponse _ _ _ _ _ _ _ => 200
  end.

(** [len(s)] of a string, in bytes. *)
Definition len (s : string) : Z := Z.of_nat (String.length s).

Definition validateSendMessageRequest (req : SendMessageRequest)
  : option Response :=
  if String.eqb (TrimSpace (req_To req)) "" then
    Some (FiberError 400 "to field is required")
  else if String.eqb (TrimSpace (req_Body req)) "" then
    Some (FiberError 400 "body field is required")
  else if len (req_Body req) >? 10000 then
    Some (FiberError 400 "body field too long (max 10000 characters)")
  else if negb (Contains (req_To req) "@") then
    Some (FiberError 400 "invalid JID format")
  else None.

(** [err.Error()] of a [*fiber.Error] *)
Definition error_text (r : Response) : string :=
  match r with
  | FiberError _ message => message
  | ErrorResponse _ _ error _ => error
  | APIResponse _ message _ _ _ _ _ => message
  end.

(** [handleSendMessage] on the repository's XMPP manager.  [BodyParser]
    is the decoded request, [None] when decoding fails; [sent_at] and
    [request_id] are the formatted clock reading and the response header
    that go into the answer.  The result carries the stanzas handed to
    the XMPP session. *)
Definition handleSendMessage
  (session_Send : XmppClientOps.Stanza -> option string)
  (BodyParser : option SendMessageRequest) (sent_at request_id : string)
  : XmppManager.M (Response * list XmppClientOps.Stanza) :=
  match BodyParser with
  | None => XmppManager.ret (FiberError 400 "Invalid request body", [])
  | Some req =>
      match validateSendMessageRequest req with
      | Some err => XmppManager.ret (FiberError 400 (error_text err), [])
      | None =>
          XmppManager.bind
            (XmppManager.SendMessage session_Send (req_To req) (req_Body req)
                                     (req_Type req))
            (fun r =>
               match fst r with
               | Some e =>
                   XmppManager.ret
                     (ErrorResponse 500 false
                        ("Failed to send message: " ++ e) 500, snd r)
               | None =>
                   XmppManager.ret
                     (APIResponse true "Message sent successfully"
                        (req_To req) (req_Type req) (len (req_Body req))
                        sent_at request_id, snd r)
               end)
      end
  end.

(** [handleHealth]: the status and the "status" field of the answer. *)
Definition handleHealth : XmppManager.M (Z * string) :=
  XmppManager.bind XmppManager.IsConnected (fun connected =>
    let healthy := true in
    let healthy := if negb connected then false else healthy in
    if negb healthy then XmppManager.ret (503, "error")
    else XmppManager.ret (200, "ok")).

End Api.

(* ================================================================== *)
(** * Part II: properties                                              *)
(* ================================================================== *)

(** ** Byte strings *)

Lemma append_nil_r (s : string) : s ++ "" = s.
Proof. induction s as [|c s IH]; simpl; [reflexivity | now rewrite IH]. Qed.

Lemma append_assoc (a b c : string) : (a ++ b) ++ c = a ++ (b ++ c).
Proof. induction a as [|x a IH]; simpl; [reflexivity | now rewrite IH]. Qed.

Lemma length_append (a b : string) :
  String.length (a ++ b) = (String.length a + String.length b)%nat.
Proof. induction a as [|x a IH]; simpl; [reflexivity | now rewrite IH]. Qed.

Lemma skip_append (p r : string) : skip (String.length p) (p ++ r) = r.
Proof. induction p as [|x p IH]; simpl; [reflexivity | exact IH]. Qed.

Lemma HasPrefix_append (p r : string) : HasPrefix (p ++ r) p = true.
Proof.
  induction p as [|x p IH]; simpl; [reflexivity|].
  now rewrite Ascii.eqb_refl, IH.
Qed.

Lemma HasPrefix_split (s p : string) :
  HasPrefix s p = true -> s = p ++ skip (String.length p) s.
Proof.
  revert s; induction p as [|x p IH]; intros s H; simpl in *; [reflexivity|].
  destruct s as [|c s]; [discriminate|].
  apply andb_true_iff in H as [Hc Hp].
  apply Ascii.eqb_eq in Hc; subst c.
  now rewrite <- (IH s Hp).
Qed.

Lemma HasPrefix_append_l (a b p : string) :
  HasPrefix a p = true -> HasPrefix (a ++ b) p = true.
Proof.
  intros H. rewrite (HasPrefix_split a p H), append_assoc.
  apply HasPrefix_append.
Qed.

Lemma srev_append (a b : string) : srev (a ++ b) = srev b ++ srev a.
Proof.
  induction a as [|x a IH]; simpl.
  - now rewrite append_nil_r.
  - now rewrite IH, append_assoc.
Qed.

Lemma srev_involutive (s : string) : srev (srev s) = s.
Proof.
  induction s as [|c s IH]; simpl; [reflexivity|].
  now rewrite srev_append, IH.
Qed.

Lemma length_srev (s : string) : String.length (srev s) = String.length s.
Proof.
  induction s as [|c s IH]; simpl; [reflexivity|].
  rewrite length_append, IH; simpl; lia.
Qed.

(** ** Trimming *)

Lemma strip_one_Some (seqs : list string) (s s' : string) :
  strip_one seqs s = Some s' -> exists q, In q seqs /\ s = q ++ s'.
Proof.
  induction seqs as [|q seqs IH]; simpl; [discriminate|].
  destruct (HasPrefix s q) eqn:Hq.
  - intros [= <-]. exists q. split; [now left|]. now apply HasPrefix_split.
  - intros H. destruct (IH H) as (q' & Hin & Heq). exists q'; auto.
Qed.

Lemma strip_one_None (seqs : list string) (s : string) :
  strip_one seqs s = None <-> forall q, In q seqs -> HasPrefix s q = false.
Proof.
  induction seqs as [|q seqs IH]; simpl.
  - split; [intros _ q [] | reflexivity].
  - destruct (HasPrefix s q) eqn:Hq.
    + split; [discriminate|]. intros H.
      rewrite (H q (or_introl eq_refl)) in Hq. discriminate.
    + rewrite IH. split.
      * intros H q' [<-|Hin]; auto.
      * intros H q' Hin. apply H; auto.
Qed.

Lemma strip_one_None_append (seqs : list string) (a b : string) :
  strip_one seqs (a ++ b) = None -> strip_one seqs a = None.
Proof.
  rewrite !strip_one_None. intros H q Hin.
  destruct (HasPrefix a q) eqn:Hq; [|reflexivity].
  rewrite <- (H q Hin). symmetry. now apply HasPrefix_append_l.
Qed.

Lemma trim_seqs_fixed (seqs : list string) (n : nat) (s : string) :
  strip_one seqs s = None -> trim_seqs seqs n s = s.
Proof. intros H. destruct n; simpl; [reflexivity | now rewrite H]. Qed.

Lemma trim_seqs_split (seqs : list string) (n : nat) (s : string) :
  exists ws, run_of seqs ws /\ s = ws ++ trim_seqs seqs n s.
Proof.
  revert s; induction n as [|n IH]; intros s; simpl.
  - exists "". split; [constructor | reflexivity].
  - destruct (strip_one seqs s) as [s'|] eqn:Hs.
    + destruct (strip_one_Some _ _ _ Hs) as (q & Hin & ->).
      destruct (IH s') as (ws & Hws & Heq).
      exists (q ++ ws). split; [now constructor|].
      rewrite append_assoc. now rewrite <- Heq.
    + exists "". split; [constructor | reflexivity].
Qed.

Lemma trim_seqs_done (seqs : list string) (n : nat) (s : string) :
  (forall q, In q seqs -> q <> "") ->
  (String.length s <= n)%nat ->
  strip_one seqs (trim_seqs seqs n s) = None.
Proof.
  intros Hne. revert s; induction n as [|n IH]; intros s Hlen; simpl.
  - destruct s; [|simpl in Hlen; lia].
    apply strip_one_None. intros q Hin.
    destruct q as [|c q]; [now elim (Hne _ Hin) | reflexivity].
  - destruct (strip_one seqs s) as [s'|] eqn:Hs; [|exact Hs].
    apply IH.
    destruct (strip_one_Some _ _ _ Hs) as (q & Hin & ->).
    rewrite length_append in Hlen.
    destruct q as [|c q]; [now elim (Hne _ Hin)|]. simpl in Hlen. lia.
Qed.

Lemma space_seqs_nonempty (q : string) : In q space_seqs -> q <> "".
Proof.
  intros Hin ->. revert Hin. unfold space_seqs.
  repeat (intros [H|H]; [discriminate H | revert H]). intros [].
Qed.

Lemma rev_space_seqs_nonempty (q : string) :
  In q (map srev space_seqs) -> q <> "".
Proof.
  intros Hin ->. revert Hin. unfold space_seqs.
  repeat (intros [H|H]; [discriminate H | revert H]). intros [].
Qed.

(** What [TrimSpace] returns does not end in white space, and neither
    does any of its suffixes. *)
Lemma TrimSpace_suffix_no_trailing (s p x : string) :
  TrimSpace s = p ++ x -> TrimRightSpace x = x.
Proof.
  unfold TrimSpace. intros H.
  assert (Hnone : strip_one (map srev space_seqs) (srev (p ++ x)) = None).
  { rewrite <- H. unfold TrimRightSpace. rewrite srev_involutive.
    apply trim_seqs_done; [exact rev_space_seqs_nonempty|].
    now rewrite length_srev. }
  rewrite srev_append in Hnone. apply strip_one_None_append in Hnone.
  unfold TrimRightSpace. rewrite trim_seqs_fixed by exact Hnone.
  apply srev_involutive.
Qed.

Lemma TrimLeftSpace_split (s : string) :
  exists ws, Whitespace ws /\ s = ws ++ TrimLeftSpace s.
Proof. apply trim_seqs_split. Qed.

Lemma TrimLeftSpace_no_leading (s : string) (q : string) :
  In q space_seqs -> HasPrefix (TrimLeftSpace s) q = false.
Proof.
  revert q. apply strip_one_None. apply trim_seqs_done.
  - exact space_seqs_nonempty.
  - lia.
Qed.

(** ** Test-mode processing *)

Lemma removeTestPrefix_test (t : TestModeUtils) (body : string) :
  HasPrefix (TrimSpace body) "[test]" = true ->
  exists ws,
    Whitespace ws
    /\ TrimSpace body = "[test]" ++ ws ++ removeTestPrefix t body
    /\ removeTestPrefix t body
       = TrimLeftSpace (skip 6 (TrimSpace body)).
Proof.
  intros H. unfold removeTestPrefix, TrimPrefix. rewrite H.
  change (String.length "[test]") with 6%nat.
  set (r := skip 6 (TrimSpace body)).
  assert (Ht : TrimSpace body = "[test]" ++ r) by exact (HasPrefix_split _ _ H).
  destruct (TrimLeftSpace_split r) as (ws & Hws & Hr).
  assert (Hx : TrimRightSpace (TrimLeftSpace r) = TrimLeftSpace r).
  { apply (TrimSpace_suffix_no_trailing body ("[test]" ++ ws)).
    rewrite append_assoc, <- Hr. exact Ht. }
  exists ws. unfold TrimSpace at 2 3. rewrite Hx.
  repeat split; [exact Hws|]. rewrite <- Hr. exact Ht.
Qed.

(** [strings.Replace(s, old, new, 1)] cuts [s] at the leftmost occurrence
    of [old]. *)
Lemma Replace1_leftmost (s old new : string) :
  Contains s old = true ->
  exists a b,
    s = a ++ old ++ b
    /\ Replace1 s old new = a ++ new ++ b
    /\ forall a1 a2, a = a1 ++ a2 -> a2 <> "" ->
                     HasPrefix (a2 ++ old ++ b) old = false.
Proof.
  induction s as [|c s IH]; intros H.
  - simpl in H. rewrite orb_false_r in H.
    exists "", "". destruct old; [|discriminate H].
    repeat split.
    intros [|x a1] a2 Ha Hne; simpl in Ha; [now subst a2 | discriminate].
  - simpl Replace1. destruct (HasPrefix (String c s) old) eqn:Hp.
    + exists "", (skip (String.length old) (String c s)).
      split; [now apply HasPrefix_split|]. split; [reflexivity|].
      intros [|x a1] a2 Ha Hne; simpl in Ha; [now subst a2 | discriminate].
    + simpl in H. simpl in Hp. rewrite Hp in H. simpl in H.
      destruct (IH H) as (a & b & Hs & Hr & Hleft).
      exists (String c a), b. split; [simpl; now rewrite <- Hs|].
      split; [simpl; now rewrite Hr|].
      intros [|x a1] a2 Ha Hne; simpl in Ha.
      * subst a2. simpl. rewrite <- Hs. exact Hp.
      * injection Ha as _ Ha. now apply (Hleft a1 a2).
Qed.

Lemma Replace1_inserted (s x ins : string) :
  Contains s x = true ->
  inserted_after_first x ins s (Replace1 s x (x ++ ins)).
Proof.
  intros H.
  destruct (Replace1_leftmost s x (x ++ ins) H) as (a & b & Hs & Hr & Hleft).
  exists a, b. split; [exact Hs|]. split; [exact Hleft|].
  rewrite Hr. f_equal. apply append_assoc.
Qed.

(** What [getTestWebhookURL] returns, case by case. *)
Lemma getTestWebhookURL_cases (E : Env) (t : TestModeUtils) (url : string) :
  (url = "" -> getTestWebhookURL E t url = "")
  /\ (forall u, url <> "" -> url_Parse E url = Some u ->
        (Contains (Path u) "webhook" = true ->
         Contains (Path u) "webhook-test" = false ->
         exists path',
           inserted_after_first "webhook" (testModeSuffix t) (Path u) path'
           /\ getTestWebhookURL E t url
              = url_String E (mkURL (Scheme u) (Host u) path' (RawQuery u)
                                    (Fragment u)))
        /\ (Contains (Path u) "webhook" = false
            \/ Contains (Path u) "webhook-test" = true ->
            getTestWebhookURL E t url = url))
  /\ (url <> "" -> url_Parse E url = None ->
      (Contains url "webhook" = true ->
       Contains url "webhook-test" = false ->
       inserted_after_first "webhook" (testModeSuffix t) url
                            (getTestWebhookURL E t url))
      /\ (Contains url "webhook" = false
          \/ Contains url "webhook-test" = true ->
          getTestWebhookURL E t url = url)).
Proof.
  unfold getTestWebhookURL. split; [|split].
  - intros ->. reflexivity.
  - intros u Hne Hparse. apply String.eqb_neq in Hne. rewrite Hne, Hparse.
    split.
    + intros Hc Hn. rewrite Hc, Hn. cbn [negb andb].
      exists (Replace1 (Path u) "webhook" ("webhook" ++ testModeSuffix t)).
      split; [now apply Replace1_inserted | reflexivity].
    + intros [Hc | Hn]; [now rewrite Hc|].
      rewrite Hn. cbn [negb]. now rewrite andb_false_r.
  - intros Hne Hparse. apply String.eqb_neq in Hne. rewrite Hne, Hparse.
    unfold simpleURLModification. split.
    + intros Hc Hn. rewrite Hc, Hn. cbn [negb andb].
      now apply Replace1_inserted.
    + intros [Hc | Hn]; [now rewrite Hc|].
      rewrite Hn. cbn [negb]. now rewrite andb_false_r.
Qed.

(** C1. For a body whose trimmed form starts with the literal [[test]],
    [ProcessTestMessage] returns the trimmed body without the prefix and
    without the white space that follows it (the trimmed body is the
    prefix, then white space, then the returned text, which does not start
    with white space), the rewritten URL and [true]; for every other body
    it returns the body and the URL unchanged and [false].  The rewritten
    URL is the empty one when the URL is empty.  When net/url parses the
    URL and its path contains "webhook" but not "webhook-test", it is the
    parsed URL printed again with the suffix (the configured one, "-test"
    when none is) put in right after the first "webhook" of the path; for
    a string that net/url refuses the same is done on the raw string.  In
    all other cases it is the URL as given. *)
Theorem C1_ProcessTestMessage_spec (E : Env) (suffix body url : string) :
  let t := NewTestModeUtils suffix in
  (HasPrefix (TrimSpace body) "[test]" = true ->
   exists ws result url',
     Whitespace ws
     /\ TrimSpace body = "[test]" ++ ws ++ result
     /\ (forall q, In q space_seqs -> HasPrefix result q = false)
     /\ ProcessTestMessage E t body url = (result, url', true)
     /\ url' = getTestWebhookURL E t url
     /\ testModeSuffix t = (if String.eqb suffix "" then "-test" else suffix)
     /\ (url = "" -> url' = "")
     /\ (forall u, url <> "" -> url_Parse E url = Some u ->
           (Contains (Path u) "webhook" = true ->
            Contains (Path u) "webhook-test" = false ->
            exists path',
              inserted_after_first "webhook" (testModeSuffix t) (Path u)
                                   path'
              /\ url' = url_String E (mkURL (Scheme u) (Host u) path'
                                            (RawQuery u) (Fragment u)))
           /\ (Contains (Path u) "webhook" = false
               \/ Contains (Path u) "webhook-test" = true ->
               url' = url))
     /\ (url <> "" -> url_Parse E url = None ->
         (Contains url "webhook" = true ->
          Contains url "webhook-test" = false ->
          inserted_after_first "webhook" (testModeSuffix t) url url')
         /\ (Contains url "webhook" = false
             \/ Contains url "webhook-test" = true ->
             url' = url)))
  /\ (HasPrefix (TrimSpace body) "[test]" = false ->
      ProcessTestMessage E t body url = (body, url, false)).
Proof.
  intros t. unfold ProcessTestMessage, isTestMessage. split; intros H.
  - rewrite H; simpl.
    destruct (removeTestPrefix_test t body H) as (ws & Hws & Hsplit & Hres).
    destruct (getTestWebhookURL_cases E t url) as (Hempty & Hparsed & Hraw).
    exists ws, (removeTestPrefix t body), (getTestWebhookURL E t url).
    split; [exact Hws|]. split; [exact Hsplit|].
    split; [intros q Hq; rewrite Hres; now apply TrimLeftSpace_no_leading|].
    split; [reflexivity|]. split; [reflexivity|].
    split; [subst t; unfold NewTestModeUtils;
            destruct (String.eqb suffix ""); reflexivity|].
    split; [exact Hempty|]. split; [exact Hparsed | exact Hraw].
  - rewrite H; reflexivity.
Qed.

(** The theorem at the URL of scenario A, where it fixes the rewritten
    URL, and at the body of scenario B. *)
Lemma C1_ProcessTestMessage_spec_witness :
  (exists result,
      ProcessTestMessage (demo_Env 200) (NewTestModeUtils "-test")
        "  [test]   hello world " "https://example.com/webhook"
      = (result, "https://example.com/webhook-test", true))
  /\ ProcessTestMessage (demo_Env 200) (NewTestModeUtils "-test")
       "hello [test] world" "https://example.com/webhook"
     = ("hello [test] world", "https://example.com/webhook", false).
Proof.
  split.
  - destruct (proj1 (C1_ProcessTestMessage_spec (demo_Env 200) "-test"
                       "  [test]   hello world "
                       "https://example.com/webhook") eq_refl)
      as (ws & result & url' & _ & _ & _ & Hcall & _ & _ & _ & Hparsed & _).
    destruct (proj1 (Hparsed (mkURL "https" "example.com" "/webhook" "" "")
                       ltac:(discriminate) eq_refl) eq_refl eq_refl)
      as (path' & (a & b & Hpath & _ & ->) & ->).
    exists result. rewrite Hcall. do 2 f_equal.
    cbn [Path] in Hpath.
    assert (Hlen : (String.length a + (7 + String.length b) = 8)%nat).
    { apply (f_equal String.length) in Hpath.
      rewrite !length_append in Hpath. simpl in Hpath. lia. }
    destruct a as [|c0 [|c1 a]]; simpl in Hlen, Hpath.
    + discriminate Hpath.
    + injection Hpath as <- <-. reflexivity.
    + lia.
  - apply (proj2 (C1_ProcessTestMessage_spec (demo_Env 200) "-test"
                    "hello [test] world" "https://example.com/webhook")).
    reflexivity.
Defined.

(** Scenario A of the specification, and scenario B. *)
Example scenario_A :
  ProcessTestMessage (demo_Env 200) (NewTestModeUtils "-test")
    "[test] hello world" "https://example.com/webhook"
  = ("hello world", "https://example.com/webhook-test", true).
Proof. reflexivity. Qed.

Example scenario_B :
  ProcessTestMessage (demo_Env 200) (NewTestModeUtils "-test")
    "hello [test] world" "https://example.com/webhook"
  = ("hello [test] world", "https://example.com/webhook", false).
Proof. reflexivity. Qed.

(** Leading white space before the prefix and trailing white space after
    the text are removed with it. *)
Example removeTestPrefix_surrounding_space :
  removeTestPrefix (NewTestModeUtils "") "  [test] hello world  "
  = "hello world".
Proof. reflexivity. Qed.

(** ** URL rewriting *)

Lemma Contains_HasPrefix (s x : string) :
  HasPrefix s x = true -> Contains s x = true.
Proof. intros H. destruct s; simpl; simpl in H; rewrite H; reflexivity. Qed.

Lemma Contains_Replace1 (s old new x : string) :
  HasPrefix new x = true ->
  Contains s old = true ->
  Contains (Replace1 s old new) x = true.
Proof.
  intros Hnew. induction s as [|c s IH]; intros H.
  - simpl in *. rewrite orb_false_r in H. rewrite H.
    apply Contains_HasPrefix. now apply HasPrefix_append_l.
  - simpl in H. simpl Replace1.
    destruct (HasPrefix (String c s) old) eqn:Hp.
    + apply Contains_HasPrefix. now apply HasPrefix_append_l.
    + simpl in H. simpl. rewrite (IH H). apply orb_true_r.
Qed.

Lemma simpleURLModification_idempotent (t : TestModeUtils)
  (baseURL : string) :
  testModeSuffix t = "-test" ->
  simpleURLModification t (simpleURLModification t baseURL)
  = simpleURLModification t baseURL.
Proof.
  intros Ht. unfold simpleURLModification at 2 3.
  destruct (Contains baseURL "webhook" && negb (Contains baseURL "webhook-test"))
    eqn:Hc.
  - apply andb_true_iff in Hc as [Hc _].
    unfold simpleURLModification.
    rewrite (Contains_Replace1 baseURL "webhook"
               ("webhook" ++ testModeSuffix t) "webhook-test").
    + now rewrite andb_false_r.
    + rewrite Ht. reflexivity.
    + exact Hc.
  - unfold simpleURLModification. now rewrite Hc.
Qed.



(** With another suffix the rewrite is not idempotent: the guard looks for
    the literal "webhook-test" whatever the suffix is. *)
Example getTestWebhookURL_custom_suffix_twice :
  let E := demo_Env 200 in
  let t := NewTestModeUtils "-staging" in
  getTestWebhookURL E t "https://example.com/webhook"
  = "https://example.com/webhook-staging"
  /\ getTestWebhookURL E t "https://example.com/webhook-staging"
     = "https://example.com/webhook-staging-staging".
Proof. split; reflexivity. Qed.

(** ** The delivery queue: [Start], [Stop], [SendMessage] *)

Arguments updateStats : simpl never.

(** C4. A call of [SendMessage] whose running check reads the state [s]
    and whose [select] runs on [s'] returns the not-running error when
    [s] is not running.  When [s] is running and the queue channel is
    open at the [select], it enqueues without blocking: [nil] and the
    message at the back of the buffer when there is room, the queue-full
    error and an unchanged queue when there is none.  It never blocks,
    and the queue made by [NewService] has capacity 1000.  But when the
    queue channel is closed at the [select] the call panics instead of
    returning, which is what the claim excludes.  Two ways lead there:
    a service started, stopped and started again reports running on the
    channel that [Stop] closed, and a [Stop] that runs between the
    check and the [select] closes the channel under the sender. *)
Theorem C4_SendMessage_closed_queue_panics (s s' : Service) (msg : Message) :
  (isRunning s = false ->
   SendMessage_at s s' msg = Ret (Some "webhook service is not running") s)
  /\ (isRunning s = true -> closed (messageQueue s') = false ->
      (chan_len (messageQueue s') < cap (messageQueue s'))%nat ->
      SendMessage_at s s' msg
      = Ret None (set_queue (mkChan (buf (messageQueue s') ++ [msg])%list
                                    (cap (messageQueue s')) false) s'))
  /\ (isRunning s = true -> closed (messageQueue s') = false ->
      (cap (messageQueue s') <= chan_len (messageQueue s'))%nat ->
      SendMessage_at s s' msg = Ret (Some "webhook queue is full") s')
  /\ (forall x, SendMessage_at s s' msg <> Block x)
  /\ (forall cfg, cap (messageQueue (NewService cfg)) = 1000%nat)
  /\ (isRunning s = true -> closed (messageQueue s') = true ->
      SendMessage_at s s' msg = Panic "send on closed channel" s')
  /\ (isRunning s = true -> closed (messageQueue s) = true ->
      SendMessage s msg = Panic "send on closed channel" s
      /\ ~ SendMessage_as_specified s msg)
  /\ (forall cfg,
        isRunning (restarted_service cfg) = true
        /\ SendMessage (restarted_service cfg) msg
           = Panic "send on closed channel" (restarted_service cfg))
  /\ (isRunning s = true -> closed (messageQueue s) = false ->
      exists s1,
        Stop s = Ret None s1
        /\ isRunning s1 = false
        /\ SendMessage_at s s1 msg = Panic "send on closed channel" s1).
Proof.
  assert (Hclosed : forall a b : Service,
             isRunning a = true -> closed (messageQueue b) = true ->
             SendMessage_at a b msg = Panic "send on closed channel" b).
  { intros a b Ha Hb.
    unfold SendMessage_at, SendMessage_select, chan_try_send.
    now rewrite Ha, Hb. }
  split; [|split; [|split; [|split; [|split; [|split; [|split; [|split]]]]]]].
  - unfold SendMessage_at. intros ->. reflexivity.
  - unfold SendMessage_at, SendMessage_select, chan_try_send.
    intros -> -> Hlen. simpl. apply Nat.ltb_lt in Hlen. now rewrite Hlen.
  - unfold SendMessage_at, SendMessage_select, chan_try_send.
    intros -> -> Hlen. simpl. apply Nat.ltb_ge in Hlen. now rewrite Hlen.
  - unfold SendMessage_at, SendMessage_select, chan_try_send.
    intros x. destruct (isRunning s); simpl; [|discriminate].
    destruct (closed (messageQueue s')); [discriminate|].
    destruct (chan_len (messageQueue s') <? cap (messageQueue s'))%nat;
      discriminate.
  - reflexivity.
  - apply Hclosed.
  - intros Hrun Hcl.
    assert (Hpanic := Hclosed s s Hrun Hcl). fold (SendMessage s msg) in Hpanic.
    split; [exact Hpanic|].
    intros (_ & Hroom & Hfull).
    destruct (Nat.lt_ge_cases (chan_len (messageQueue s))
                              (cap (messageQueue s))) as [Hlt | Hge].
    + destruct (Hroom Hrun Hlt) as (x & Hx). congruence.
    + destruct (Hfull Hrun Hge) as (x & Hx). congruence.
  - intros cfg. split; [reflexivity|].
    apply (Hclosed (restarted_service cfg) (restarted_service cfg));
      reflexivity.
  - intros Hrun Hopen. unfold Stop. unfold isRunning in Hrun.
    rewrite Hrun. cbn [negb].
    assert (Hq : chan_close
                   (messageQueue
                      match cancelFunc s with
                      | Some id => cancel_ctx id s
                      | None => s
                      end)
                 = Some (mkChan (buf (messageQueue s)) (cap (messageQueue s))
                                true)).
    { unfold chan_close. destruct (cancelFunc s); cbn [messageQueue cancel_ctx];
        now rewrite Hopen. }
    rewrite Hq. eexists. split; [reflexivity|]. split; [reflexivity|].
    apply Hclosed; [exact Hrun | reflexivity].
Qed.

(** Scenario C (a running service with a queue of capacity 2), the
    restarted service, and a [Stop] between the check and the send. *)
Lemma C4_SendMessage_closed_queue_panics_witness :
  let m := demo_message "hello" in
  let s0 := small_queue_service in
  let s1 := state_of (SendMessage s0 m) in
  let s2 := state_of (SendMessage s1 m) in
  let r := restarted_service (demo_config "https://example.com/webhook" 3) in
  SendMessage_at s0 s0 m = Ret None (set_queue (mkChan [m] 2 false) s0)
  /\ SendMessage_at s1 s1 m = Ret None (set_queue (mkChan [m; m] 2 false) s1)
  /\ SendMessage_at s2 s2 m = Ret (Some "webhook queue is full") s2
  /\ (isRunning r = true
      /\ SendMessage r m = Panic "send on closed channel" r)
  /\ (SendMessage r m = Panic "send on closed channel" r
      /\ ~ SendMessage_as_specified r m)
  /\ exists s3,
       Stop s0 = Ret None s3
       /\ isRunning s3 = false
       /\ SendMessage_at s0 s3 m = Panic "send on closed channel" s3.
Proof.
  intros m s0 s1 s2 r.
  split; [|split; [|split; [|split; [|split]]]].
  - apply (proj1 (proj2 (C4_SendMessage_closed_queue_panics s0 s0 m)));
      [reflexivity | reflexivity | vm_compute; lia].
  - apply (proj1 (proj2 (C4_SendMessage_closed_queue_panics s1 s1 m)));
      [reflexivity | reflexivity | vm_compute; lia].
  - apply (proj1 (proj2 (proj2 (C4_SendMessage_closed_queue_panics s2 s2 m))));
      [reflexivity | reflexivity | vm_compute; lia].
  - apply (proj1 (proj2 (proj2 (proj2 (proj2 (proj2 (proj2 (proj2
             (C4_SendMessage_closed_queue_panics s0 s0 m))))))))).
  - apply (proj1 (proj2 (proj2 (proj2 (proj2 (proj2 (proj2
             (C4_SendMessage_closed_queue_panics r r m))))))));
      reflexivity.
  - apply (proj2 (proj2 (proj2 (proj2 (proj2 (proj2 (proj2 (proj2
             (C4_SendMessage_closed_queue_panics s0 s0 m)))))))));
      reflexivity.
Defined.

(** A worker changes neither the running flag nor the queue's capacity
    nor whether it is closed: [sendWebhook] writes the statistics only. *)
Lemma sendWebhook_loop_service (E : Env) (fuel : nat) :
  forall attempt payload lastErr s w r,
    sendWebhook_loop E fuel attempt payload lastErr s w = Some r ->
    exists now success err, sr_service r = updateStats now success err s.
Proof.
  induction fuel as [|fuel IH]; intros attempt payload lastErr s w r;
    simpl; [discriminate|].
  destruct (attempt <=? RetryAttempts (config s)).
  - destruct (ar_err (sendWebhookAttempt E s payload w)) as [err|].
    + destruct (sendWebhook_loop E fuel _ payload (Some err) s _) as [r'|]
        eqn:Hloop; simpl; [|discriminate].
      intros [= <-]. simpl. eapply IH. exact Hloop.
    + intros [= <-]. simpl. eauto.
  - intros [= <-]. simpl. eauto.
Qed.

Lemma sendWebhook_service (E : Env) (s : Service) (msg : Message)
  (w : World) (r : SendResult) :
  sendWebhook E s msg w = Some r ->
  exists now success err, sr_service r = updateStats now success err s.
Proof. apply sendWebhook_loop_service. Qed.

Lemma updateStats_frame (now : Time) (success : bool) (err : string)
  (s : Service) :
  running (updateStats now success err s) = running s
  /\ messageQueue (updateStats now success err s) = messageQueue s
  /\ config (updateStats now success err s) = config s
  /\ testMode (updateStats now success err s) = testMode s.
Proof. unfold updateStats. destruct success; repeat split. Qed.

Lemma worker_step_frame (E : Env) (x y : Service * World) :
  worker_step E x y ->
  running (fst y) = running (fst x)
  /\ closed (messageQueue (fst y)) = closed (messageQueue (fst x))
  /\ cap (messageQueue (fst y)) = cap (messageQueue (fst x)).
Proof.
  destruct 1 as [s w id _ _ | s w id _ _ _ | s w id msg rest r _ _ Hsend];
    simpl; auto.
  destruct (sendWebhook_service _ _ _ _ _ Hsend) as (now & b & e & ->).
  destruct (updateStats_frame now b e
              (set_queue (mkChan rest (cap (messageQueue s))
                                 (closed (messageQueue s))) s))
    as (-> & -> & _).
  simpl. auto.
Qed.

Lemma worker_steps_frame (E : Env) (x y : Service * World) :
  worker_steps E x y ->
  running (fst y) = running (fst x)
  /\ closed (messageQueue (fst y)) = closed (messageQueue (fst x))
  /\ cap (messageQueue (fst y)) = cap (messageQueue (fst x)).
Proof.
  induction 1 as [x | x y z Hstep _ IH]; [auto|].
  destruct (worker_step_frame _ _ _ Hstep) as (<- & <- & <-). exact IH.
Qed.

(** C10. After [Start], [Stop], [Start], all returning [nil] and with the
    workers doing whatever they do in between, the service reports
    running, its queue channel is still the closed one, and [SendMessage]
    panics with a send on a closed channel. *)
Theorem C10_restart_then_send_panics (E : Env)
  (s0 s1 s1' s2 s2' s3 s3' : Service) (w1 w2 w3 w4 : World) (msg : Message) :
  Start s0 = Ret None s1 ->
  worker_steps E (s1, w1) (s1', w2) ->
  Stop s1' = Ret None s2 ->
  worker_steps E (s2, w2) (s2', w3) ->
  Start s2' = Ret None s3 ->
  worker_steps E (s3, w3) (s3', w4) ->
  isRunning s3' = true
  /\ closed (messageQueue s3') = true
  /\ SendMessage s3' msg = Panic "send on closed channel" s3'.
Proof.
  intros Hstart1 Hw1 Hstop Hw2 Hstart2 Hw3.
  apply worker_steps_frame in Hw1 as (Hr1 & _ & _).
  apply worker_steps_frame in Hw2 as (_ & Hc2 & _).
  apply worker_steps_frame in Hw3 as (Hr3 & Hc3 & _).
  simpl in *.
  assert (Hs1 : running s1 = true).
  { unfold Start in Hstart1. destruct (running s0); [discriminate|].
    injection Hstart1 as <-. reflexivity. }
  assert (Hs2 : closed (messageQueue s2) = true).
  { unfold Stop in Hstop. rewrite Hr1, Hs1 in Hstop. simpl in Hstop.
    destruct (chan_close (messageQueue _)) as [q|] eqn:Hq; [|discriminate].
    injection Hstop as <-. simpl.
    unfold chan_close in Hq. destruct (closed (messageQueue _)); [discriminate|].
    injection Hq as <-. reflexivity. }
  assert (Hs3 : running s3 = true /\ messageQueue s3 = messageQueue s2').
  { unfold Start in Hstart2. destruct (running s2'); [discriminate|].
    injection Hstart2 as <-. split; reflexivity. }
  destruct Hs3 as (Hrun3 & Hq3).
  assert (Hclosed : closed (messageQueue s3') = true)
    by now rewrite Hc3, Hq3, Hc2.
  unfold SendMessage, SendMessage_at, SendMessage_select, isRunning,
    chan_try_send.
  rewrite Hr3, Hrun3, Hclosed. auto.
Qed.

Lemma C10_restart_then_send_panics_witness :
  let cfg := demo_config "https://example.com/webhook" 3 in
  let s := restarted_service cfg in
  isRunning s = true
  /\ closed (messageQueue s) = true
  /\ SendMessage s (demo_message "hello") = Panic "send on closed channel" s.
Proof.
  intros cfg s.
  apply (C10_restart_then_send_panics (demo_Env 200)
           (NewService cfg)
           (state_of (Start (NewService cfg)))
           (state_of (Start (NewService cfg)))
           (state_of (Stop (state_of (Start (NewService cfg)))))
           (state_of (Stop (state_of (Start (NewService cfg)))))
           s s
           (mkWorld 0 0) (mkWorld 0 0) (mkWorld 0 0) (mkWorld 0 0));
    try reflexivity; apply worker_steps_refl.
Defined.

(** ** Statistics and health *)

Lemma wrap64_small (z : Z) : - 2 ^ 63 <= z <= MaxInt64 -> wrap64 z = z.
Proof.
  unfold wrap64, MaxInt64.
  change (2 ^ 63) with 9223372036854775808.
  change (2 ^ 64) with 18446744073709551616.
  intros H. rewrite Z.mod_small; lia.
Qed.

Lemma record_failures_frame (failures : list (Time * string)) :
  forall s,
    running (record_failures failures s) = running s
    /\ config (record_failures failures s) = config s
    /\ TotalSent (stats (record_failures failures s)) = TotalSent (stats s)
    /\ LastSent (stats (record_failures failures s)) = LastSent (stats s).
Proof.
  induction failures as [|[now err] rest IH]; intros s; simpl; [auto|].
  destruct (IH (updateStats now false err s)) as (-> & -> & -> & ->).
  repeat split.
Qed.

Lemma record_failures_count (failures : list (Time * string)) :
  forall s,
    0 <= TotalFailed (stats s) ->
    TotalFailed (stats s) + Z.of_nat (List.length failures) <= MaxInt64 ->
    TotalFailed (stats (record_failures failures s))
    = TotalFailed (stats s) + Z.of_nat (List.length failures).
Proof.
  induction failures as [|[now err] rest IH]; intros s H0 Hmax.
  - simpl. lia.
  - cbn [record_failures]. cbn [List.length] in Hmax |- *.
    assert (Hstep : TotalFailed (stats (updateStats now false err s))
                    = TotalFailed (stats s) + 1).
    { unfold updateStats. simpl. apply wrap64_small.
      unfold MaxInt64 in *. change (2 ^ 63) with 9223372036854775808. lia. }
    rewrite IH; rewrite Hstep; lia.
Qed.

Lemma record_failures_last (bound : Time) (failures : list (Time * string)) :
  forall s,
    (failures = [] -> bound < LastFailure (stats s)) ->
    (forall now err, In (now, err) failures -> bound < now) ->
    bound < LastFailure (stats (record_failures failures s)).
Proof.
  induction failures as [|[now err] rest IH]; intros s Hnil Hin.
  - simpl. auto.
  - cbn [record_failures]. apply IH.
    + intros _. unfold updateStats. simpl. apply (Hin now err). now left.
    + intros now' err' H. apply (Hin now' err'). now right.
Qed.

(** C5. [IsHealthy] is false when the service is not running, false when
    no URL is configured, false when more than ten failures were counted
    and the last success is before the last failure, and true otherwise.
    In particular, on a running service with a URL, it is false after
    eleven failures recorded later than the last success, and true again
    after a success recorded no earlier than the last of them. *)
Theorem C5_IsHealthy_spec (s : Service) :
  (isRunning s = false -> IsHealthy s = false)
  /\ (URL (config s) = "" -> IsHealthy s = false)
  /\ (TotalFailed (stats s) > 10 ->
      LastSent (stats s) < LastFailure (stats s) ->
      IsHealthy s = false)
  /\ (isRunning s = true -> URL (config s) <> "" ->
      TotalFailed (stats s) <= 10
      \/ LastFailure (stats s) <= LastSent (stats s) ->
      IsHealthy s = true)
  /\ (forall (failures : list (Time * string)) (success_time : Time),
        isRunning s = true -> URL (config s) <> "" ->
        List.length failures = 11%nat ->
        0 <= TotalFailed (stats s) <= MaxInt64 - 11 ->
        (forall now err, In (now, err) failures -> LastSent (stats s) < now) ->
        let s' := record_failures failures s in
        IsHealthy s' = false
        /\ (LastFailure (stats s') <= success_time ->
            IsHealthy (updateStats success_time true "" s') = true)).
Proof.
  split; [|split; [|split; [|split]]].
  - intros H. unfold IsHealthy. now rewrite H.
  - intros H. unfold IsHealthy. rewrite H. now destruct (isRunning s).
  - intros Hf Hl. unfold IsHealthy, GetStats, Before. simpl.
    destruct (isRunning s); simpl; [|reflexivity].
    destruct (String.eqb (URL (config s)) ""); [reflexivity|].
    apply Z.gtb_gt in Hf. apply Z.ltb_lt in Hl. now rewrite Hf, Hl.
  - intros Hrun Hurl H. unfold IsHealthy, GetStats, Before. simpl.
    apply String.eqb_neq in Hurl. rewrite Hrun, Hurl. simpl.
    destruct H as [H|H].
    + destruct (TotalFailed (stats s) >? 10) eqn:Hf; [|reflexivity].
      apply Z.gtb_gt in Hf. lia.
    + apply Z.ltb_ge in H. rewrite H. now rewrite andb_false_r.
  - intros failures success_time Hrun Hurl Hlen Hrange Hlater s'.
    destruct (record_failures_frame failures s) as (Hr & Hc & _ & Hls).
    assert (Hcount := record_failures_count failures s (proj1 Hrange)).
    rewrite Hlen in Hcount. specialize (Hcount ltac:(lia)).
    assert (Hlast : LastSent (stats s) < LastFailure (stats s')).
    { apply record_failures_last; [|exact Hlater].
      intros ->. discriminate Hlen. }
    apply String.eqb_neq in Hurl. unfold isRunning in Hrun.
    fold s' in Hr, Hc, Hls, Hcount.
    split.
    + unfold IsHealthy, isRunning, GetStats, Before. simpl.
      rewrite Hr, Hc, Hrun, Hurl, Hls, Hcount. simpl.
      assert (Hgt : (TotalFailed (stats s) + 11 >? 10) = true)
        by (apply Z.gtb_gt; lia).
      apply Z.ltb_lt in Hlast. now rewrite Hgt, Hlast.
    + intros Hafter.
      unfold IsHealthy, isRunning, GetStats, Before. simpl.
      rewrite Hr, Hc, Hrun, Hurl. simpl.
      apply Z.ltb_ge in Hafter. rewrite Hafter. now rewrite andb_false_r.
Qed.

(** Scenario D on a freshly started service: eleven failures, then one
    success. *)
Lemma C5_IsHealthy_spec_witness :
  let cfg := demo_config "https://example.com/webhook" 3 in
  let s := state_of (Start (NewService cfg)) in
  let failures : list (Time * string) :=
    map (fun i => (1000 + Z.of_nat i, "boom")) (seq 0 11) in
  IsHealthy (NewService cfg) = false
  /\ IsHealthy (state_of (Start (NewService (demo_config "" 3)))) = false
  /\ IsHealthy (set_stats (mkStats 0 11 5 6 "boom") s) = false
  /\ IsHealthy s = true
  /\ IsHealthy (record_failures failures s) = false
  /\ IsHealthy (updateStats 1010 true "" (record_failures failures s)) = true.
Proof.
  intros cfg s failures.
  split; [|split; [|split; [|split]]].
  - apply (proj1 (C5_IsHealthy_spec (NewService cfg))). reflexivity.
  - apply (proj1 (proj2 (C5_IsHealthy_spec
                           (state_of (Start (NewService (demo_config "" 3))))))).
    reflexivity.
  - apply (proj1 (proj2 (proj2 (C5_IsHealthy_spec
                                  (set_stats (mkStats 0 11 5 6 "boom") s)))));
      vm_compute; reflexivity.
  - apply (proj1 (proj2 (proj2 (proj2 (C5_IsHealthy_spec s)))));
      [reflexivity | discriminate | left; vm_compute; discriminate].
  - assert (H : IsHealthy (record_failures failures s) = false
                /\ (LastFailure (stats (record_failures failures s)) <= 1010 ->
                    IsHealthy (updateStats 1010 true ""
                                 (record_failures failures s)) = true)).
    { apply (proj2 (proj2 (proj2 (proj2 (C5_IsHealthy_spec s))))
               failures 1010).
      - reflexivity.
      - discriminate.
      - reflexivity.
      - vm_compute. split; discriminate.
      - intros now err Hin. subst failures.
        apply in_map_iff in Hin as (i & Heq & _).
        assert (Hnow : now = 1000 + Z.of_nat i) by congruence.
        change (LastSent (stats s)) with 0. lia. }
    destruct H as (H1 & H2). split; [exact H1|].
    apply H2. vm_compute. discriminate.
Defined.

(** ** Counters *)

Lemma updateStats_counters (now : Time) (success : bool) (err : string)
  (s : Service) :
  0 <= TotalSent (stats s) < MaxInt64 ->
  0 <= TotalFailed (stats s) < MaxInt64 ->
  let s' := updateStats now success err s in
  TotalSent (stats s') + TotalFailed (stats s')
  = TotalSent (stats s) + TotalFailed (stats s) + 1
  /\ TotalSent (stats s) <= TotalSent (stats s')
  /\ TotalFailed (stats s) <= TotalFailed (stats s').
Proof.
  intros Hs Hf. unfold updateStats.
  destruct success; simpl; rewrite wrap64_small;
    try (unfold MaxInt64 in *; change (2 ^ 63) with 9223372036854775808; lia).
Qed.

(** With fewer than [MaxInt64] attempts configured, the loop variable does
    not overflow and [sendWebhook] returns. *)
Lemma sendWebhook_loop_total (E : Env) (s : Service) (fuel : nat) :
  RetryAttempts (config s) < MaxInt64 ->
  forall attempt payload lastErr w,
    1 <= attempt ->
    (Z.to_nat (RetryAttempts (config s) + 1 - attempt) < fuel)%nat ->
    exists r, sendWebhook_loop E fuel attempt payload lastErr s w = Some r.
Proof.
  intros Hmax. induction fuel as [|fuel IH];
    intros attempt payload lastErr w H1 Hfuel; [lia|].
  simpl. destruct (attempt <=? RetryAttempts (config s)) eqn:Hle.
  - apply Z.leb_le in Hle.
    destruct (ar_err (sendWebhookAttempt E s payload w)) as [err|];
      [|eauto].
    rewrite wrap64_small
      by (unfold MaxInt64 in *; change (2 ^ 63) with 9223372036854775808; lia).
    destruct (IH (attempt + 1) payload (Some err)
                 (ar_world (sendWebhookAttempt E s payload w)))
      as (r & ->); [lia | lia |].
    simpl. eauto.
  - eauto.
Qed.

Lemma sendWebhook_total (E : Env) (s : Service) (msg : Message) (w : World) :
  RetryAttempts (config s) < MaxInt64 ->
  exists r, sendWebhook E s msg w = Some r.
Proof.
  intros Hmax. unfold sendWebhook, sendWebhook_fuel.
  apply sendWebhook_loop_total; [exact Hmax | lia |].
  replace (RetryAttempts (config s) + 1 - 1) with (RetryAttempts (config s))
    by lia.
  lia.
Qed.

(** C6. Processing one dequeued message to the end, by a successful
    attempt or by running out of attempts, raises [TotalSent +
    TotalFailed] by exactly one and lowers neither counter (the counters
    being below the largest [int64]); and the processing does come to an
    end when fewer than [MaxInt64] attempts are configured. *)
Theorem C6_stats_monotone (E : Env) (s : Service) (msg : Message)
  (w : World) :
  0 <= TotalSent (stats s) < MaxInt64 ->
  0 <= TotalFailed (stats s) < MaxInt64 ->
  (forall r, sendWebhook E s msg w = Some r ->
     let s' := sr_service r in
     TotalSent (stats s') + TotalFailed (stats s')
     = TotalSent (stats s) + TotalFailed (stats s) + 1
     /\ TotalSent (stats s) <= TotalSent (stats s')
     /\ TotalFailed (stats s) <= TotalFailed (stats s'))
  /\ (RetryAttempts (config s) < MaxInt64 ->
      exists r, sendWebhook E s msg w = Some r).
Proof.
  intros Hs Hf. split.
  - intros r Hr.
    destruct (sendWebhook_service _ _ _ _ _ Hr) as (now & b & e & ->).
    now apply updateStats_counters.
  - apply sendWebhook_total.
Qed.

Lemma C6_stats_monotone_witness :
  let s := NewService (demo_config "https://example.com/webhook" 3) in
  let m := demo_message "hello" in
  let w := mkWorld 0 0 in
  (forall E r, sendWebhook E s m w = Some r ->
     TotalSent (stats (sr_service r)) + TotalFailed (stats (sr_service r)) = 1
     /\ 0 <= TotalSent (stats (sr_service r))
     /\ 0 <= TotalFailed (stats (sr_service r)))
  /\ (exists r, sendWebhook (demo_Env 200) s m w = Some r)
  /\ (exists r, sendWebhook (demo_Env 500) s m w = Some r).
Proof.
  intros s m w.
  assert (H : forall E,
             (forall r, sendWebhook E s m w = Some r ->
                let s' := sr_service r in
                TotalSent (stats s') + TotalFailed (stats s')
                = TotalSent (stats s) + TotalFailed (stats s) + 1
                /\ TotalSent (stats s) <= TotalSent (stats s')
                /\ TotalFailed (stats s) <= TotalFailed (stats s'))
             /\ (RetryAttempts (config s) < MaxInt64 ->
                 exists r, sendWebhook E s m w = Some r)).
  { intros E. apply (C6_stats_monotone E s m w);
      (vm_compute; split; [discriminate | reflexivity]). }
  split; [|split].
  - intros E r Hr. exact (proj1 (H E) r Hr).
  - apply (proj2 (H (demo_Env 200))). reflexivity.
  - apply (proj2 (H (demo_Env 500))). reflexivity.
Defined.

(** ** The retry loop *)

Lemma requests_app (a b : list Event) :
  requests (a ++ b) = (requests a ++ requests b)%list.
Proof.
  induction a as [|e a IH]; simpl; [reflexivity|].
  destruct e; simpl; now rewrite IH.
Qed.

Lemma ProcessTestMessage_url (E : Env) (t : TestModeUtils)
  (body url processedBody webhookURL : string) (isTestMode : bool) :
  ProcessTestMessage E t body url = (processedBody, webhookURL, isTestMode) ->
  (if isTestMode then webhookURL else url) = webhookURL.
Proof.
  unfold ProcessTestMessage. destruct (negb (isTestMessage t body));
    intros [= _ <- <-]; reflexivity.
Qed.

(** An attempt issues at most one request, the one of [attempt_request]. *)
Lemma sendWebhookAttempt_trace (E : Env) (s : Service)
  (payload : WebhookPayload) (w : World) :
  ar_trace (sendWebhookAttempt E s payload w) = []
  \/ ar_trace (sendWebhookAttempt E s payload w)
     = [EvHTTP (attempt_request E s payload)].
Proof.
  unfold sendWebhookAttempt, attempt_request.
  destruct (String.eqb (URL (config s)) ""); [now left|].
  destruct (ProcessTestMessage E (testMode s) (Body (PMessage payload))
              (URL (config s))) as [[processedBody webhookURL] isTestMode].
  destruct (url_Parse E webhookURL); [|now left].
  assert (Hts : Timestamp (if isTestMode
                           then set_payload_Body processedBody payload
                           else payload) = Timestamp payload)
    by now destruct isTestMode.
  rewrite Hts.
  destruct (http_Do E (w_http w) _) as [e|status];
    [|destruct ((status <? 200) || (status >=? 300))]; now right.
Qed.

(** A failing endpoint: the attempt issues its request and reports an
    error. *)
Lemma sendWebhookAttempt_fails (E : Env) (s : Service)
  (payload : WebhookPayload) (w : World) :
  URL (config s) <> "" ->
  url_Parse E (target_url E s (Body (PMessage payload))) <> None ->
  (forall i req, delivered (http_Do E i req) = false) ->
  exists err req,
    ar_err (sendWebhookAttempt E s payload w) = Some err
    /\ ar_trace (sendWebhookAttempt E s payload w) = [EvHTTP req].
Proof.
  intros Hurl Hparse Hfail. unfold sendWebhookAttempt.
  apply String.eqb_neq in Hurl. rewrite Hurl.
  unfold target_url in Hparse.
  destruct (ProcessTestMessage E (testMode s) (Body (PMessage payload))
              (URL (config s))) as [[processedBody webhookURL] isTestMode]
    eqn:Hproc.
  rewrite (ProcessTestMessage_url _ _ _ _ _ _ _ Hproc) in Hparse.
  destruct (url_Parse E webhookURL); [|now elim Hparse].
  match goal with |- context [http_Do E ?i ?r] =>
    specialize (Hfail i r); destruct (http_Do E i r) as [e|status] end.
  - do 2 eexists. split; reflexivity.
  - simpl in Hfail. apply negb_false_iff in Hfail. rewrite Hfail.
    do 2 eexists. split; reflexivity.
Qed.

Lemma backoff_small (k : nat) :
  Z.of_nat k <= 96038 -> backoff (Z.of_nat k) = Z.of_nat (k * k) * Second.
Proof.
  intros Hk. unfold backoff, Second. rewrite Nat2Z.inj_mul.
  assert (H : 0 <= Z.of_nat k * Z.of_nat k <= 96038 * 96038) by nia.
  rewrite (wrap64_small (Z.of_nat k * Z.of_nat k))
    by (unfold MaxInt64; change (2 ^ 63) with 9223372036854775808; lia).
  apply wrap64_small.
  unfold MaxInt64; change (2 ^ 63) with 9223372036854775808; lia.
Qed.

(** The bound is sharp: at attempt 96039 the product wraps around and
    the duration handed to [time.Sleep] is negative. *)
Example backoff_wraps_at_96039 :
  backoff 96038 = 9223297444 * Second /\ backoff 96039 < 0.
Proof. split; [reflexivity | vm_compute; reflexivity]. Qed.

Lemma updateStats_failure (now : Time) (err : string) (s : Service) :
  one_failure_recorded now err s (updateStats now false err s).
Proof.
  unfold one_failure_recorded, updateStats. cbn.
  repeat split. intros H. apply wrap64_small.
  unfold MaxInt64 in *. change (2 ^ 63) with 9223372036854775808. lia.
Qed.

Lemma updateStats_success (now : Time) (err : string) (s : Service) :
  one_success_recorded now s (updateStats now true err s).
Proof.
  unfold one_success_recorded, updateStats. cbn.
  repeat split. intros H. apply wrap64_small.
  unfold MaxInt64 in *. change (2 ^ 63) with 9223372036854775808. lia.
Qed.

Lemma all_attempts_fail (E : Env) (s : Service) (n : nat) (body : string) :
  RetryAttempts (config s) = Z.of_nat n ->
  RetryAttempts (config s) <= 96039 ->
  URL (config s) <> "" ->
  url_Parse E (target_url E s body) <> None ->
  (forall i req, delivered (http_Do E i req) = false) ->
  forall (d k fuel : nat) payload lastErr w,
    Body (PMessage payload) = body ->
    (1 <= k)%nat -> (k + d = n + 1)%nat -> (d < fuel)%nat ->
    exists r,
      sendWebhook_loop E fuel (Z.of_nat k) payload lastErr s w = Some r
      /\ map kind_of (sr_trace r)
         = (flat_map (failed_attempt_kinds n) (seq k d)
            ++ [KError (Z.of_nat n)])%list
      /\ List.length (requests (sr_trace r)) = d
      /\ exists now err, sr_service r = updateStats now false err s.
Proof.
  intros Hn Hbound Hurl Hparse Hfail. rewrite Hn in Hbound.
  induction d as [|d IH]; intros k fuel payload lastErr w Hbody Hk Hkd Hfuel;
    (destruct fuel as [|fuel]; [lia|]); simpl sendWebhook_loop; rewrite Hn.
  - assert (Hle : (Z.of_nat k <=? Z.of_nat n) = false)
      by (apply Z.leb_gt; lia).
    rewrite Hle. eexists. split; [reflexivity|]. simpl. eauto.
  - assert (Hle : (Z.of_nat k <=? Z.of_nat n) = true)
      by (apply Z.leb_le; lia).
    rewrite Hle.
    rewrite <- Hbody in Hparse.
    destruct (sendWebhookAttempt_fails E s payload w Hurl Hparse Hfail)
      as (err & req & -> & ->).
    rewrite wrap64_small
      by (unfold MaxInt64; change (2 ^ 63) with 9223372036854775808; lia).
    replace (Z.of_nat k + 1) with (Z.of_nat (S k)) by lia.
    destruct (IH (S k) fuel payload (Some err)
                 (ar_world (sendWebhookAttempt E s payload w)))
      as (r & -> & Hkinds & Hreqs & Hstats); [rewrite Hbody; auto | lia..|].
    eexists. split; [reflexivity|]. simpl.
    rewrite !map_app, requests_app, !length_app, Hkinds, Hreqs.
    split; [|split; [|exact Hstats]].
    + unfold failed_attempt_kinds at 2. simpl. do 2 f_equal.
      destruct (k <? n)%nat eqn:Hlt.
      * apply Nat.ltb_lt in Hlt.
        assert (Hz : (Z.of_nat k <? Z.of_nat n) = true)
          by (apply Z.ltb_lt; lia).
        rewrite Hz. simpl. rewrite backoff_small by lia. reflexivity.
      * apply Nat.ltb_ge in Hlt.
        assert (Hz : (Z.of_nat k <? Z.of_nat n) = false)
          by (apply Z.ltb_ge; lia).
        rewrite Hz. reflexivity.
    + destruct (Z.of_nat k <? Z.of_nat n); simpl; lia.
Qed.

(** C3. Against an endpoint where every attempt fails (a URL is
    configured, [http.NewRequest] accepts the target URL, and every round
    trip ends in a transport error or a status outside 200..299), the
    loop issues exactly [retry_attempts] requests, sleeps [k * k] seconds
    after failed attempt [k] unless it was the last one, and then records
    exactly one failure: [TotalFailed] goes up by one (as an [int64]),
    [LastFailure] and [LastError] are set, and [TotalSent], [LastSent]
    and the rest of the service stay as they were.
    ([retry_attempts <= 96039] keeps [k * k] seconds inside a
    [time.Duration].) *)
Theorem C3_retry_exhaustion (E : Env) (s : Service) (msg : Message)
  (w : World) (n : nat) :
  RetryAttempts (config s) = Z.of_nat n ->
  RetryAttempts (config s) <= 96039 ->
  URL (config s) <> "" ->
  url_Parse E (target_url E s (Body msg)) <> None ->
  (forall i req, delivered (http_Do E i req) = false) ->
  exists r,
    sendWebhook E s msg w = Some r
    /\ map kind_of (sr_trace r) = all_failed_kinds n
    /\ List.length (requests (sr_trace r)) = n
    /\ exists now err,
         sr_service r = updateStats now false err s
         /\ one_failure_recorded now err s (sr_service r).
Proof.
  intros Hn Hbound Hurl Hparse Hfail.
  unfold sendWebhook, sendWebhook_fuel, all_failed_kinds.
  rewrite Hn, Nat2Z.id.
  destruct (all_attempts_fail E s n (Body msg) Hn Hbound Hurl Hparse Hfail
              n 1%nat (S n)
              (mkPayload msg (time_Format E (time_Now E (w_clock w)))
                         "jabber-bot") None (tick w))
    as (r & Hr & Hkinds & Hreqs & now & err & Hstats);
    [reflexivity | lia | lia | lia |].
  exists r. split; [exact Hr|]. split; [exact Hkinds|]. split; [exact Hreqs|].
  exists now, err. split; [exact Hstats|].
  rewrite Hstats. apply updateStats_failure.
Qed.

Lemma C3_retry_exhaustion_witness :
  let s := NewService (demo_config "https://example.com/webhook" 3) in
  exists r,
    sendWebhook (demo_Env 500) s (demo_message "hello") (mkWorld 0 0) = Some r
    /\ map kind_of (sr_trace r)
       = [KHttp; KWarn 1; KSleep (1 * Second);
          KHttp; KWarn 2; KSleep (4 * Second);
          KHttp; KWarn 3;
          KError 3]
    /\ List.length (requests (sr_trace r)) = 3%nat
    /\ TotalFailed (stats (sr_service r)) = 1
    /\ TotalSent (stats (sr_service r)) = 0.
Proof.
  intros s.
  destruct (C3_retry_exhaustion (demo_Env 500) s (demo_message "hello")
              (mkWorld 0 0) 3)
    as (r & Hr & Hkinds & Hreqs & now & err & _ & Hrec).
  - reflexivity.
  - vm_compute. discriminate.
  - discriminate.
  - vm_compute. discriminate.
  - intros i req. reflexivity.
  - exists r. split; [exact Hr|]. split; [exact Hkinds|].
    split; [exact Hreqs|].
    destruct Hrec as (_ & Hone & Hsent & _).
    split; [apply Hone; vm_compute; split; [discriminate | reflexivity]
           | exact Hsent].
Defined.

(** ** The payload across attempts *)

Lemma requests_failed_attempt (tr : list Event) (attempt : Z)
  (err url : string) (c : bool) (d : Duration) :
  requests (tr ++ EvWarnAttemptFailed attempt err url
                  :: (if c then [EvSleep d] else []))
  = requests tr.
Proof.
  rewrite requests_app. simpl. destruct c; simpl; apply app_nil_r.
Qed.

Lemma sendWebhookAttempt_requests (E : Env) (s : Service)
  (payload : WebhookPayload) (w : World) (req : Request) :
  In req (requests (ar_trace (sendWebhookAttempt E s payload w))) ->
  req = attempt_request E s payload.
Proof.
  destruct (sendWebhookAttempt_trace E s payload w) as [Ht|Ht];
    rewrite Ht; simpl; intuition.
Qed.

Lemma sendWebhook_loop_payload (E : Env) (s : Service) (fuel : nat) :
  forall attempt payload lastErr w r,
    sendWebhook_loop E fuel attempt payload lastErr s w = Some r ->
    sr_payload r = payload
    /\ forall req, In req (requests (sr_trace r)) ->
                   req = attempt_request E s payload.
Proof.
  induction fuel as [|fuel IH]; intros attempt payload lastErr w r;
    simpl; [discriminate|].
  destruct (attempt <=? RetryAttempts (config s)).
  - destruct (ar_err (sendWebhookAttempt E s payload w)) as [err|].
    + destruct (sendWebhook_loop E fuel _ payload (Some err) s _) as [r'|]
        eqn:Hloop; simpl; [|discriminate].
      intros [= <-]. destruct (IH _ _ _ _ _ Hloop) as (Hp & Hreqs).
      unfold prepend. cbn [sr_payload sr_trace]. split; [exact Hp|].
      intros req. rewrite requests_app, requests_failed_attempt, in_app_iff.
      intros [Hin | Hin]; [|now apply Hreqs].
      now apply sendWebhookAttempt_requests in Hin.
    + intros [= <-]. cbn [sr_payload sr_trace]. split; [reflexivity|].
      intros req. rewrite requests_app, in_app_iff. simpl.
      intros [Hin | []].
      now apply sendWebhookAttempt_requests in Hin.
  - intros [= <-]. simpl. split; [reflexivity | intros req []].
Qed.

(** What an attempt does to its own copy of the payload. *)
Lemma sendWebhookAttempt_local_copy (E : Env) (s : Service)
  (payload : WebhookPayload) (w : World) :
  URL (config s) <> "" ->
  isTestMessage (testMode s) (Body (PMessage payload)) = true ->
  Body (PMessage (ar_payload (sendWebhookAttempt E s payload w)))
  = removeTestPrefix (testMode s) (Body (PMessage payload)).
Proof.
  intros Hurl Htest. unfold sendWebhookAttempt.
  apply String.eqb_neq in Hurl. rewrite Hurl.
  unfold ProcessTestMessage. rewrite Htest. simpl.
  destruct (url_Parse E _); [|reflexivity].
  destruct (http_Do E _ _) as [e|status];
    [|destruct ((status <? 200) || (status >=? 300))]; reflexivity.
Qed.

(** C2, as amended. The stripping done inside an attempt changes the
    attempt's own by-value copy of the payload only: for a test-mode
    message the copy leaves the attempt with the stripped body, while the
    payload held by [sendWebhook] is, at the end, still the one built from
    the message, and every request of the retry loop is the one built
    from that original payload (test URL, stripped body, test-mode
    header). *)
Theorem C2_payload_copied_per_attempt (E : Env) (s : Service) (msg : Message)
  (w : World) :
  let payload :=
    mkPayload msg (time_Format E (time_Now E (w_clock w))) "jabber-bot" in
  (forall r, sendWebhook E s msg w = Some r ->
     sr_payload r = payload
     /\ forall req, In req (requests (sr_trace r)) ->
                    req = attempt_request E s payload)
  /\ (URL (config s) <> "" ->
      isTestMessage (testMode s) (Body msg) = true ->
      forall w',
        Body (PMessage (ar_payload (sendWebhookAttempt E s payload w')))
        = removeTestPrefix (testMode s) (Body msg)).
Proof.
  intros payload. split.
  - intros r Hr. exact (sendWebhook_loop_payload E s _ _ _ _ _ _ Hr).
  - intros Hurl Htest w'.
    now apply (sendWebhookAttempt_local_copy E s payload w').
Qed.

Lemma C2_payload_copied_per_attempt_witness :
  let E := demo_Env 500 in
  let s := NewService (demo_config "https://example.com/webhook" 2) in
  let msg := demo_message "[test] hello" in
  let payload := mkPayload msg "1700000000000000000" "jabber-bot" in
  (forall r, sendWebhook E s msg (mkWorld 0 0) = Some r ->
     sr_payload r = payload
     /\ forall req, In req (requests (sr_trace r)) ->
                    req = attempt_request E s payload)
  /\ Body (PMessage (ar_payload (sendWebhookAttempt E s payload (mkWorld 1 0))))
     = "hello".
Proof.
  intros E s msg payload. split.
  - exact (proj1 (C2_payload_copied_per_attempt E s msg (mkWorld 0 0))).
  - apply (proj2 (C2_payload_copied_per_attempt E s msg (mkWorld 0 0)));
      [discriminate | reflexivity].
Defined.

(** C2 as stated fails: after two failed attempts on "[test] hello" the
    payload of [sendWebhook] still has the unstripped body, and the second
    request goes to the test URL with the stripped body again; under the
    shared-payload reading the second attempt would have seen "hello", not
    detected test mode, and posted to the production URL. *)
Lemma C2_counterexample :
  let E := demo_Env 500 in
  let s := NewService (demo_config "https://example.com/webhook" 2) in
  let msg := demo_message "[test] hello" in
  let w := mkWorld 0 0 in
  ~ payload_mutation_persists E s msg w
  /\ option_map (fun r => Body (PMessage (sr_payload r)))
       (sendWebhook E s msg w) = Some "[test] hello"
  /\ option_map (fun r => map req_url (requests (sr_trace r)))
       (sendWebhook E s msg w)
     = Some ["https://example.com/webhook-test";
             "https://example.com/webhook-test"]
  /\ option_map (fun r => map req_url (requests (sr_trace r)))
       (spec_shared_sendWebhook E s msg w)
     = Some ["https://example.com/webhook-test";
             "https://example.com/webhook"].
Proof.
  intros E s msg w. split; [|split; [|split]]; try (vm_compute; reflexivity).
  intros H. unfold payload_mutation_persists in H.
  destruct (sendWebhook E s msg w) as [r|] eqn:Hr; [|vm_compute in Hr; discriminate].
  specialize (H r eq_refl).
  assert (Hbody : option_map (fun r => Body (PMessage (sr_payload r)))
                    (sendWebhook E s msg w) = Some "[test] hello")
    by (vm_compute; reflexivity).
  rewrite Hr in Hbody. simpl in Hbody. injection Hbody as Hbody.
  rewrite Hbody in H. vm_compute in H. discriminate H.
Qed.

(** ** [Client.Disconnect] *)

Section ClientProperties.
Import XmppClient.

(** C8. Two calls of [Disconnect], on any client: neither panics, and
    over the two the monitor is cancelled at most once, and so for the
    session's [Disconnect] and the close of the message channel, which
    are in fact not performed at all.  No explicit guard does this: the
    first call to get [c.mu] keeps it for ever, blocked in
    [setConnected], which locks [c.mu] again, and every other call blocks
    at its first [Lock]. *)
Theorem C8_Disconnect_twice_no_panic
  (session_Disconnect : nat -> option string) (c : Client) :
  let r1 := Disconnect session_Disconnect c in
  let r2 := Disconnect session_Disconnect (state_of r1) in
  let c2 := state_of r2 in
  (forall text x, r1 <> Panic text x)
  /\ (forall text x, r2 <> Panic text x)
  /\ (count_effect CancelMonitor c2 <= S (count_effect CancelMonitor c))%nat
  /\ (count_effect SessionDisconnect c2
      <= S (count_effect SessionDisconnect c))%nat
  /\ (count_effect CloseMessageChan c2
      <= S (count_effect CloseMessageChan c))%nat
  /\ count_effect SessionDisconnect c2 = count_effect SessionDisconnect c
  /\ count_effect CloseMessageChan c2 = count_effect CloseMessageChan c
  /\ messageChan c2 = messageChan c
  /\ r1 = Block (state_of r1)
  /\ r2 = Block c2.
Proof.
  destruct c as [conn q held cf cli sl eff].
  unfold Disconnect, bind, Lock, deferUnlock, when, modify, setConnected,
    count_effect.
  destruct held, cf; cbn;
    rewrite ?filter_app, ?length_app; cbn;
    repeat split; try discriminate; lia.
Qed.

(** Nothing in the code after [setConnected] keeps a second run from
    closing the message channel again: run twice with a session that
    disconnects cleanly, it panics the second time. *)
Lemma Disconnect_cleanup_twice_panics
  (session_Disconnect : nat -> option string) (c : Client) :
  (forall n, session_Disconnect n = None) ->
  closed (messageChan c) = false ->
  exists c1 c2,
    Disconnect_cleanup session_Disconnect c = Ret None c1
    /\ count_effect CloseMessageChan c1
       = S (count_effect CloseMessageChan c)
    /\ Disconnect_cleanup session_Disconnect c1
       = Panic "close of closed channel" c2.
Proof.
  intros Hsd Hopen.
  exists (state_of (Disconnect_cleanup session_Disconnect c)).
  exists (state_of (Disconnect_cleanup session_Disconnect
                      (state_of (Disconnect_cleanup session_Disconnect c)))).
  destruct c as [conn [b cp cl] m cf cli sl eff]. simpl in Hopen. subst cl.
  unfold Disconnect_cleanup, bind, when, modify, closeMessageChan, ret,
    chan_close, count_effect.
  destruct cli, sl; repeat (cbn; rewrite ?Hsd);
    (split; [reflexivity|]); (split; [|reflexivity]);
    rewrite ?filter_app, ?length_app; cbn; lia.
Qed.

End ClientProperties.

(** ** [mergeChannels] *)

Section FanInProperties.
Import FanIn.

Lemma count_live_app (l1 l2 : list (forwarder * list Message))
  (g : forwarder * list Message) :
  count_live (l1 ++ g :: l2)
  = (count_live l1 + (if is_live g then 1 else 0) + count_live l2)%nat.
Proof.
  unfold count_live. rewrite filter_app, length_app. simpl.
  destruct (is_live g); simpl; lia.
Qed.

Lemma pending_app (l1 l2 : list (forwarder * list Message))
  (g : forwarder * list Message) :
  pending (l1 ++ g :: l2) = (pending l1 ++ pending_of g ++ pending l2)%list.
Proof. unfold pending. now rewrite flat_map_app. Qed.

Lemma weight_app (l1 l2 : list (forwarder * list Message))
  (g : forwarder * list Message) :
  list_sum (map weight (l1 ++ g :: l2))
  = (list_sum (map weight l1) + weight g + list_sum (map weight l2))%nat.
Proof. rewrite map_app, list_sum_app. simpl. lia. Qed.

Lemma invariant_init (channels : list (list Message)) :
  invariant channels (mergeChannels channels).
Proof.
  unfold invariant, mergeChannels. simpl.
  split; [reflexivity|]. split; [|split; [discriminate|split]].
  - f_equal. induction channels as [|c cs IH]; simpl; [reflexivity|].
    unfold count_live in *. simpl. now rewrite IH.
  - apply Forall_forall. intros g Hin.
    apply in_map_iff in Hin as (c & <- & _). discriminate.
  - induction channels as [|c cs IH]; simpl; [constructor|].
    unfold pending in *. simpl. now apply Permutation_app_head.
Qed.

Lemma invariant_step (channels : list (list Message)) (m m' : Merge) :
  invariant channels m -> step m m' -> invariant channels m'.
Proof.
  intros Hinv Hstep.
  destruct Hstep as [l1 l2 msg rest n cl rcv | l1 l2 msg rest n rcv
                     | l1 l2 msg rest n rcv | l1 l2 n cl rcv | l rcv];
    unfold invariant in *; simpl in *;
    destruct Hinv as (_ & Hwg & Hcl & Hex & Hperm);
    rewrite ?count_live_app, ?pending_app in *; simpl in *.
  - repeat split; auto.
    apply Forall_app in Hex as (H1 & H2). inversion H2; subst.
    apply Forall_app. split; [exact H1|]. constructor; [discriminate | auto].
  - repeat split; auto; try discriminate.
    + apply Forall_app in Hex as (H1 & H2). inversion H2; subst.
      apply Forall_app. split; [exact H1|]. constructor; [discriminate | auto].
    + rewrite <- Hperm, <- app_assoc. apply Permutation_app_head. simpl.
      apply Permutation_middle.
  - specialize (Hcl eq_refl). lia.
  - assert (Hopen : cl = false) by (destruct cl; [specialize (Hcl eq_refl); lia | reflexivity]).
    subst cl. repeat split; auto; try discriminate.
    + apply Z.ltb_ge. lia.
    + lia.
    + apply Forall_app in Hex as (H1 & H2). inversion H2; subst.
      apply Forall_app. split; [exact H1|]. constructor; auto.
  - repeat split; auto.
Qed.

Lemma invariant_steps (channels : list (list Message)) (m : Merge) :
  steps (mergeChannels channels) m -> invariant channels m.
Proof.
  remember (mergeChannels channels) as m0 eqn:Hm0.
  induction 1 as [m | m1 m2 m3 _ IH Hstep]; subst.
  - apply invariant_init.
  - eapply invariant_step; [apply IH; reflexivity | exact Hstep].
Qed.

Lemma none_live_all_exited (l : list (forwarder * list Message)) :
  count_live l = 0%nat -> Forall (fun g => fst g = Exited) l.
Proof.
  induction l as [|[f r] l IH]; [constructor|].
  unfold count_live in *. simpl.
  destruct f; simpl; try discriminate. intros H. constructor; auto.
Qed.

Lemma exited_nothing_pending (l : list (forwarder * list Message)) :
  Forall (fun g => fst g = Exited) l ->
  Forall (fun g => fst g = Exited -> snd g = []) l ->
  pending l = [].
Proof.
  induction 1 as [|[f r] l Hf _ IH]; intros Hex; [reflexivity|].
  inversion Hex; subst. simpl in *. subst f.
  unfold pending in *. simpl. unfold pending_of at 1. simpl.
  rewrite (H1 eq_refl). simpl. now apply IH.
Qed.

Lemma find_live (l : list (forwarder * list Message)) :
  count_live l = 0%nat
  \/ exists l1 g l2, l = (l1 ++ g :: l2)%list /\ is_live g = true.
Proof.
  induction l as [|g l IH]; [now left|].
  destruct (is_live g) eqn:Hg.
  - right. exists [], g, l. auto.
  - destruct IH as [IH | (l1 & g' & l2 & -> & Hg')].
    + left. unfold count_live in *. simpl. now rewrite Hg.
    + right. exists (g :: l1), g', l2. auto.
Qed.

Lemma step_measure (m m' : Merge) :
  step m m' -> (measure m' < measure m)%nat.
Proof.
  destruct 1; unfold measure; simpl; rewrite ?weight_app;
    unfold weight; simpl; try lia.
  destruct (_ <? 0); lia.
Qed.

Lemma merge_progress (channels : list (list Message)) (m : Merge) :
  invariant channels m -> output_closed m = false -> exists m', step m m'.
Proof.
  intros (Hp & Hwg & _ & _ & _) Hopen.
  destruct m as [l n cl rcv p]. simpl in *. subst cl p.
  destruct (find_live l) as [Hnone | (l1 & [f r] & l2 & -> & Hlive)].
  - rewrite Hnone in Hwg. simpl in Hwg. subst n.
    eexists. apply step_close.
  - destruct f as [|msg|]; [destruct r as [|msg rest]| |discriminate].
    + eexists. apply step_source_closed.
    + eexists. apply step_receive.
    + eexists. apply step_send.
Qed.

Lemma closed_is_final (channels : list (list Message)) (m m' : Merge) :
  invariant channels m -> output_closed m = true -> ~ step m m'.
Proof.
  intros (_ & Hwg & Hcl & _ & _) Hclosed Hstep.
  specialize (Hcl Hclosed). rewrite Hcl in Hwg.
  destruct Hstep; simpl in *; try discriminate;
    rewrite count_live_app in Hwg; simpl in Hwg; lia.
Qed.

(** C9. In every state that the goroutines of [mergeChannels] can reach,
    whatever the interleaving: nothing has panicked; if [output] is
    closed then every forwarding goroutine has exited, the reader has
    received exactly the messages of all sources (as a multiset), and
    nothing more happens; if [output] is not closed yet some goroutine
    can take a step; and every step lowers [measure], so every run comes
    to its end, which is the closed state. *)
Theorem C9_mergeChannels_fan_in (channels : list (list Message))
  (m : Merge) :
  steps (mergeChannels channels) m ->
  panicked m = false
  /\ (output_closed m = true ->
      Forall (fun g => fst g = Exited) (goroutines m)
      /\ Permutation (received m) (List.concat channels)
      /\ forall m', ~ step m m')
  /\ (output_closed m = false -> exists m', step m m')
  /\ (forall m', step m m' -> (measure m' < measure m)%nat).
Proof.
  intros Hsteps. apply invariant_steps in Hsteps as Hinv.
  split; [exact (proj1 Hinv)|]. split; [|split].
  - intros Hclosed.
    assert (Hex : Forall (fun g => fst g = Exited) (goroutines m)).
    { destruct Hinv as (_ & Hwg & Hcl & _ & _).
      apply none_live_all_exited. specialize (Hcl Hclosed). lia. }
    split; [exact Hex|]. split.
    + destruct Hinv as (_ & _ & _ & Hnil & Hperm).
      rewrite (exited_nothing_pending _ Hex Hnil), app_nil_r in Hperm.
      exact Hperm.
    + intros m'. now apply (closed_is_final channels).
  - now apply (merge_progress channels).
  - intros m'. apply step_measure.
Qed.

(** Two sources with one message each, run to the end: the second
    source is served first. *)
Lemma C9_mergeChannels_fan_in_witness :
  let a := demo_message "a" in
  let b := demo_message "b" in
  let final := mkMerge [(Exited, []); (Exited, [])] 0 true [b; a] false in
  steps (mergeChannels [[a]; [b]]) final
  /\ panicked final = false
  /\ Forall (fun g => fst g = Exited) (goroutines final)
  /\ Permutation [b; a] [a; b]
  /\ forall m', ~ step final m'.
Proof.
  intros a b final.
  assert (Hrun : steps (mergeChannels [[a]; [b]]) final).
  { apply (steps_step _ (mkMerge [(Exited, []); (Exited, [])] 0 false [b; a] false));
      [|exact (step_close _ _)].
    apply (steps_step _ (mkMerge [(Exited, []); (Receiving, [])] 1 false [b; a] false));
      [|exact (step_source_closed [(Exited, [])] [] 1 false [b; a])].
    apply (steps_step _ (mkMerge [(Receiving, []); (Receiving, [])] 2 false [b; a] false));
      [|exact (step_source_closed [] [(Receiving, [])] 2 false [b; a])].
    apply (steps_step _ (mkMerge [(Sending a, []); (Receiving, [])] 2 false [b] false));
      [|exact (step_send [] [(Receiving, [])] a [] 2 [b])].
    apply (steps_step _ (mkMerge [(Sending a, []); (Sending b, [])] 2 false [] false));
      [|exact (step_send [(Sending a, [])] [] b [] 2 [])].
    apply (steps_step _ (mkMerge [(Receiving, [a]); (Sending b, [])] 2 false [] false));
      [|exact (step_receive [] [(Sending b, [])] a [] 2 false [])].
    apply (steps_step _ (mergeChannels [[a]; [b]]));
      [apply steps_refl
      |exact (step_receive [(Receiving, [a])] [] b [] 2 false [])]. }
  split; [exact Hrun|].
  destruct (C9_mergeChannels_fan_in [[a]; [b]] final Hrun)
    as (Hpanic & Hclosed & _ & _).
  destruct (Hclosed eq_refl) as (Hexited & Hperm & Hfinal).
  auto.
Defined.

End FanInProperties.

(* ================================================================== *)
(** * Part III: further properties of the code                         *)
(* ================================================================== *)

(** ** Delivery: first success, missing URL *)

(** With a URL that [http.NewRequest] accepts, an attempt makes exactly
    one round trip, with the request of [attempt_request], and fails or
    not as the round trip does. *)
Lemma sendWebhookAttempt_round_trip (E : Env) (s : Service)
  (payload : WebhookPayload) (w : World) :
  URL (config s) <> "" ->
  url_Parse E (target_url E s (Body (PMessage payload))) <> None ->
  let a := sendWebhookAttempt E s payload w in
  let req := attempt_request E s payload in
  ar_trace a = [EvHTTP req]
  /\ ar_world a = sent_request w
  /\ (delivered (http_Do E (w_http w) req) = true -> ar_err a = None)
  /\ (delivered (http_Do E (w_http w) req) = false ->
      exists err, ar_err a = Some err).
Proof.
  intros Hurl Hparse. unfold sendWebhookAttempt, attempt_request.
  apply String.eqb_neq in Hurl. rewrite Hurl.
  unfold target_url in Hparse.
  destruct (ProcessTestMessage E (testMode s) (Body (PMessage payload))
              (URL (config s))) as [[processedBody webhookURL] isTestMode]
    eqn:Hproc.
  rewrite (ProcessTestMessage_url _ _ _ _ _ _ _ Hproc) in Hparse.
  destruct (url_Parse E webhookURL); [|now elim Hparse].
  assert (Hts : Timestamp (if isTestMode
                           then set_payload_Body processedBody payload
                           else payload) = Timestamp payload)
    by now destruct isTestMode.
  rewrite Hts.
  destruct (http_Do E (w_http w) _) as [e|status]; simpl.
  - repeat split; [discriminate | eauto].
  - destruct ((status <? 200) || (status >=? 300)); simpl;
      repeat split; try discriminate; eauto.
Qed.

Lemma retry_until_success_loop (E : Env) (s : Service) (n : nat)
  (payload : WebhookPayload) :
  RetryAttempts (config s) = Z.of_nat n ->
  RetryAttempts (config s) <= 96039 ->
  URL (config s) <> "" ->
  url_Parse E (target_url E s (Body (PMessage payload))) <> None ->
  forall (d k fuel : nat) lastErr w,
    (1 <= k)%nat -> (k + d <= n)%nat -> (d < fuel)%nat ->
    (forall i, (i < d)%nat ->
       delivered (http_Do E (w_http w + i) (attempt_request E s payload))
       = false) ->
    delivered (http_Do E (w_http w + d) (attempt_request E s payload))
    = true ->
    exists r,
      sendWebhook_loop E fuel (Z.of_nat k) payload lastErr s w = Some r
      /\ map kind_of (sr_trace r)
         = (flat_map (failed_attempt_kinds n) (seq k d)
            ++ [KHttp; KInfo (Z.of_nat (k + d))])%list
      /\ sr_service r = updateStats (time_Now E (w_clock w)) true "" s
      /\ sr_world r = mkWorld (S (w_clock w)) (w_http w + S d).
Proof.
  intros Hn Hbound Hurl Hparse. rewrite Hn in Hbound.
  induction d as [|d IH]; intros k fuel lastErr w Hk Hkd Hfuel Hfail Hok;
    (destruct fuel as [|fuel]; [lia|]); simpl sendWebhook_loop; rewrite Hn;
    assert (Hle : (Z.of_nat k <=? Z.of_nat n) = true)
      by (apply Z.leb_le; lia);
    rewrite Hle;
    destruct (sendWebhookAttempt_round_trip E s payload w Hurl Hparse)
      as (Htrace & Hworld & Hgood & Hbad).
  - rewrite Nat.add_0_r in Hok. rewrite (Hgood Hok), Htrace, Hworld.
    eexists. split; [reflexivity|]. simpl.
    rewrite Nat.add_0_r. repeat split.
    unfold tick, sent_request. simpl. f_equal. lia.
  - assert (Hfirst := Hfail 0%nat ltac:(lia)).
    rewrite Nat.add_0_r in Hfirst.
    destruct (Hbad Hfirst) as (err & Herr). rewrite Herr, Htrace, Hworld.
    rewrite wrap64_small
      by (unfold MaxInt64; change (2 ^ 63) with 9223372036854775808; lia).
    replace (Z.of_nat k + 1) with (Z.of_nat (S k)) by lia.
    destruct (IH (S k) fuel (Some err) (sent_request w))
      as (r & -> & Hkinds & Hstats & Hw); [lia | lia | lia | | |].
    + intros i Hi. simpl. rewrite <- (Hfail (S i)) by lia.
      repeat f_equal. lia.
    + simpl. rewrite <- Hok. repeat f_equal. lia.
    + assert (Hlt : (k <? n)%nat = true) by (apply Nat.ltb_lt; lia).
      assert (Hz : (Z.of_nat k <? Z.of_nat n) = true)
        by (apply Z.ltb_lt; lia).
      rewrite Hz, backoff_small by lia.
      eexists. split; [reflexivity|]. simpl.
      rewrite Hkinds, Hstats, Hw. simpl.
      split; [|split; [reflexivity | f_equal; lia]].
      unfold failed_attempt_kinds at 2. rewrite Hlt. simpl.
      replace (k + S d)%nat with (S (k + d)) by lia. reflexivity.
Qed.

(** X1. The retry loop stops at the first success: when the first
    [k - 1] round trips fail and round trip [k] is delivered ([k] within
    the configured attempts), [sendWebhook] issues exactly [k] requests,
    sleeps [j * j] seconds after each failed attempt [j], logs the
    success for attempt [k], counts one success stamped with the next
    clock reading ([TotalSent] goes up by one, as an [int64], and
    [LastSent] is set) and leaves the failure statistics alone. *)
Theorem X1_retry_until_first_success (E : Env) (s : Service) (msg : Message)
  (w : World) (n k : nat) :
  RetryAttempts (config s) = Z.of_nat n ->
  RetryAttempts (config s) <= 96039 ->
  URL (config s) <> "" ->
  url_Parse E (target_url E s (Body msg)) <> None ->
  (1 <= k <= n)%nat ->
  let payload :=
    mkPayload msg (time_Format E (time_Now E (w_clock w))) "jabber-bot" in
  (forall i, (i < k - 1)%nat ->
     delivered (http_Do E (w_http w + i) (attempt_request E s payload))
     = false) ->
  delivered (http_Do E (w_http w + (k - 1)) (attempt_request E s payload))
  = true ->
  exists r,
    sendWebhook E s msg w = Some r
    /\ map kind_of (sr_trace r)
       = (flat_map (failed_attempt_kinds n) (seq 1 (k - 1))
          ++ [KHttp; KInfo (Z.of_nat k)])%list
    /\ List.length (requests (sr_trace r)) = k
    /\ sr_service r = updateStats (time_Now E (S (w_clock w))) true "" s
    /\ one_success_recorded (time_Now E (S (w_clock w))) s (sr_service r)
    /\ TotalFailed (stats (sr_service r)) = TotalFailed (stats s)
    /\ LastError (stats (sr_service r)) = LastError (stats s)
    /\ w_http (sr_world r) = (w_http w + k)%nat.
Proof.
  intros Hn Hbound Hurl Hparse Hk payload Hfail Hok.
  unfold sendWebhook, sendWebhook_fuel. rewrite Hn, Nat2Z.id.
  destruct (retry_until_success_loop E s n payload Hn Hbound Hurl Hparse
              (k - 1) 1%nat (S n) None (tick w))
    as (r & Hr & Hkinds & Hstats & Hw); [lia | lia | lia | exact Hfail
                                        | exact Hok |].
  exists r. fold payload. change (Z.of_nat 1) with 1 in Hr.
  split; [exact Hr|].
  replace (1 + (k - 1))%nat with k in Hkinds by lia.
  split; [exact Hkinds|].
  split; [|split; [exact Hstats|
           split; [rewrite Hstats; apply updateStats_success|]]].
  - assert (Hcount : forall tr,
               List.length (requests tr)
               = List.length (filter (fun q => match q with KHttp => true
                                                        | _ => false end)
                                (map kind_of tr))).
    { induction tr as [|e tr IH]; [reflexivity|].
      destruct e; simpl; now rewrite IH. }
    rewrite Hcount, Hkinds, filter_app, length_app. simpl.
    assert (Hlen : forall a c,
               List.length
                 (filter (fun q => match q with KHttp => true | _ => false end)
                    (flat_map (failed_attempt_kinds n) (seq a c))) = c).
    { intros a c. revert a. induction c as [|c IH]; intros a; [reflexivity|].
      simpl. rewrite filter_app, length_app, IH.
      unfold failed_attempt_kinds. simpl.
      destruct (a <? n)%nat; simpl; lia. }
    rewrite Hlen. lia.
  - rewrite Hstats, Hw. unfold updateStats. simpl.
    repeat split. lia.
Qed.

Lemma X1_retry_until_first_success_witness :
  let E := mkEnv demo_url_Parse demo_url_String (fun _ => "bad URL")
             (fun i _ => if (i <? 2)%nat then DoResponse 503
                         else DoResponse 204)
             (fun i => 1000 + Z.of_nat i) itoa in
  let s := NewService (demo_config "https://example.com/webhook" 5) in
  exists r,
    sendWebhook E s (demo_message "hello") (mkWorld 0 0) = Some r
    /\ map kind_of (sr_trace r)
       = [KHttp; KWarn 1; KSleep (1 * Second);
          KHttp; KWarn 2; KSleep (4 * Second);
          KHttp; KInfo 3]
    /\ List.length (requests (sr_trace r)) = 3%nat
    /\ TotalSent (stats (sr_service r)) = 1
    /\ LastSent (stats (sr_service r)) = 1001
    /\ TotalFailed (stats (sr_service r)) = 0
    /\ LastError (stats (sr_service r)) = ""
    /\ w_http (sr_world r) = 3%nat.
Proof.
  intros E s.
  destruct (X1_retry_until_first_success E s (demo_message "hello")
              (mkWorld 0 0) 5 3)
    as (r & Hr & Hkinds & Hreqs & _ & Hrec & Hfailed & Herr & Hw).
  - reflexivity.
  - vm_compute. discriminate.
  - discriminate.
  - vm_compute. discriminate.
  - lia.
  - intros i Hi. simpl in Hi.
    destruct i as [|[|i]]; [reflexivity | reflexivity | lia].
  - reflexivity.
  - exists r. split; [exact Hr|]. split; [exact Hkinds|].
    split; [exact Hreqs|].
    destruct Hrec as (_ & Hone & _ & Hlast & _).
    split; [apply Hone; vm_compute; split; [discriminate | reflexivity]|].
    split; [exact Hlast|].
    split; [exact Hfailed|]. split; [exact Herr | exact Hw].
Defined.

Lemma unconfigured_loop (E : Env) (s : Service) (n : nat)
  (payload : WebhookPayload) :
  RetryAttempts (config s) = Z.of_nat n ->
  RetryAttempts (config s) <= 96039 ->
  URL (config s) = "" ->
  forall (d k fuel : nat) lastErr w,
    (1 <= k)%nat -> (k + d = n + 1)%nat -> (d < fuel)%nat ->
    exists r,
      sendWebhook_loop E fuel (Z.of_nat k) payload lastErr s w = Some r
      /\ map kind_of (sr_trace r)
         = (flat_map (unconfigured_attempt_kinds n) (seq k d)
            ++ [KError (Z.of_nat n)])%list
      /\ requests (sr_trace r) = []
      /\ sr_service r
         = updateStats (time_Now E (w_clock w)) false
             match d, lastErr with
             | S _, _ => "webhook URL is not configured"
             | O, Some e => e
             | O, None => "unknown error"
             end s
      /\ sr_world r = tick w.
Proof.
  intros Hn Hbound Hurl. rewrite Hn in Hbound.
  induction d as [|d IH]; intros k fuel lastErr w Hk Hkd Hfuel;
    (destruct fuel as [|fuel]; [lia|]); simpl sendWebhook_loop; rewrite Hn.
  - assert (Hle : (Z.of_nat k <=? Z.of_nat n) = false)
      by (apply Z.leb_gt; lia).
    rewrite Hle. eexists. split; [reflexivity|]. simpl.
    repeat split.
  - assert (Hle : (Z.of_nat k <=? Z.of_nat n) = true)
      by (apply Z.leb_le; lia).
    rewrite Hle. unfold sendWebhookAttempt. rewrite Hurl. simpl.
    rewrite wrap64_small
      by (unfold MaxInt64; change (2 ^ 63) with 9223372036854775808; lia).
    replace (Z.of_nat k + 1) with (Z.of_nat (S k)) by lia.
    destruct (IH (S k) fuel (Some "webhook URL is not configured") w)
      as (r & -> & Hkinds & Hreqs & Hstats & Hw); [lia..|].
    eexists. split; [reflexivity|]. simpl.
    rewrite Hstats, Hw.
    split; [|split; [|split; [destruct d; reflexivity | reflexivity]]].
    + f_equal. rewrite map_app, Hkinds, <- app_assoc. f_equal.
      destruct (k <? n)%nat eqn:Hlt.
      * apply Nat.ltb_lt in Hlt.
        assert (Hz : (Z.of_nat k <? Z.of_nat n) = true)
          by (apply Z.ltb_lt; lia).
        rewrite Hz. simpl. rewrite backoff_small by lia. reflexivity.
      * apply Nat.ltb_ge in Hlt.
        assert (Hz : (Z.of_nat k <? Z.of_nat n) = false)
          by (apply Z.ltb_ge; lia).
        rewrite Hz. reflexivity.
    + destruct (Z.of_nat k <? Z.of_nat n); simpl; exact Hreqs.
Qed.

(** X2. Without a configured URL no request is ever issued, yet the loop
    runs as usual: every attempt fails at once, the loop still sleeps
    [k * k] seconds between attempts, and one failure is recorded
    ([TotalFailed] goes up by one, as an [int64], and [LastFailure] is
    set), with the text "webhook URL is not configured" in [LastError]
    (or "unknown error" when no attempt is configured at all). *)
Theorem X2_missing_url_no_request (E : Env) (s : Service) (msg : Message)
  (w : World) (n : nat) :
  RetryAttempts (config s) = Z.of_nat n ->
  RetryAttempts (config s) <= 96039 ->
  URL (config s) = "" ->
  exists r,
    sendWebhook E s msg w = Some r
    /\ requests (sr_trace r) = []
    /\ map kind_of (sr_trace r)
       = (flat_map (unconfigured_attempt_kinds n) (seq 1 n)
          ++ [KError (Z.of_nat n)])%list
    /\ sr_service r
       = updateStats (time_Now E (S (w_clock w))) false
           (if (n =? 0)%nat then "unknown error"
            else "webhook URL is not configured") s
    /\ one_failure_recorded (time_Now E (S (w_clock w)))
         (if (n =? 0)%nat then "unknown error"
          else "webhook URL is not configured") s (sr_service r)
    /\ w_http (sr_world r) = w_http w.
Proof.
  intros Hn Hbound Hurl.
  unfold sendWebhook, sendWebhook_fuel. rewrite Hn, Nat2Z.id.
  destruct (unconfigured_loop E s n
              (mkPayload msg (time_Format E (time_Now E (w_clock w)))
                         "jabber-bot")
              Hn Hbound Hurl n 1%nat (S n) None (tick w))
    as (r & Hr & Hkinds & Hreqs & Hstats & Hw); [lia..|].
  exists r. change (Z.of_nat 1) with 1 in Hr.
  split; [exact Hr|]. split; [exact Hreqs|]. split; [exact Hkinds|].
  assert (Hsvc : sr_service r
                 = updateStats (time_Now E (S (w_clock w))) false
                     (if (n =? 0)%nat then "unknown error"
                      else "webhook URL is not configured") s).
  { rewrite Hstats. destruct n; reflexivity. }
  split; [exact Hsvc|].
  split; [rewrite Hsvc; apply updateStats_failure | now rewrite Hw].
Qed.

Lemma X2_missing_url_no_request_witness :
  let s := NewService (demo_config "" 3) in
  exists r,
    sendWebhook (demo_Env 200) s (demo_message "hello") (mkWorld 0 0) = Some r
    /\ requests (sr_trace r) = []
    /\ map kind_of (sr_trace r)
       = [KWarn 1; KSleep (1 * Second); KWarn 2; KSleep (4 * Second);
          KWarn 3; KError 3]
    /\ TotalFailed (stats (sr_service r)) = 1
    /\ LastError (stats (sr_service r)) = "webhook URL is not configured"
    /\ TotalSent (stats (sr_service r)) = 0
    /\ w_http (sr_world r) = 0%nat.
Proof.
  intros s.
  destruct (X2_missing_url_no_request (demo_Env 200) s (demo_message "hello")
              (mkWorld 0 0) 3)
    as (r & Hr & Hreqs & Hkinds & _ & Hrec & Hw);
    [reflexivity | vm_compute; discriminate | reflexivity |].
  exists r. split; [exact Hr|]. split; [exact Hreqs|]. split; [exact Hkinds|].
  destruct Hrec as (_ & Hone & Hsent & _ & _ & Herr & _).
  split; [apply Hone; vm_compute; split; [discriminate | reflexivity]|].
  split; [exact Herr|]. split; [exact Hsent | exact Hw].
Defined.

(** ** The queue under its workers *)

Lemma updateStats_frame_workers (now : Time) (success : bool) (err : string)
  (s : Service) :
  workers (updateStats now success err s) = workers s
  /\ cancelled (updateStats now success err s) = cancelled s
  /\ cancelFunc (updateStats now success err s) = cancelFunc s
  /\ ctx_count (updateStats now success err s) = ctx_count s.
Proof. unfold updateStats. destruct success; repeat split. Qed.

(** What one delivery by a worker does to the service. *)
Lemma worker_delivers_effect (E : Env) (s : Service) (w : World)
  (msg : Message) (rest : list Message) (r : SendResult) :
  sendWebhook E
    (set_queue (mkChan rest (cap (messageQueue s))
                       (closed (messageQueue s))) s) msg w = Some r ->
  exists now success err,
    sr_service r
    = updateStats now success err
        (set_queue (mkChan rest (cap (messageQueue s))
                           (closed (messageQueue s))) s).
Proof. apply sendWebhook_service. Qed.

Lemma worker_step_conservation (E : Env) (x y : Service * World) :
  worker_step E x y ->
  0 <= TotalSent (stats (fst x)) < MaxInt64 ->
  0 <= TotalFailed (stats (fst x)) < MaxInt64 ->
  TotalSent (stats (fst y)) + TotalFailed (stats (fst y))
  + Z.of_nat (chan_len (messageQueue (fst y)))
  = TotalSent (stats (fst x)) + TotalFailed (stats (fst x))
    + Z.of_nat (chan_len (messageQueue (fst x)))
  /\ TotalSent (stats (fst x)) <= TotalSent (stats (fst y))
  /\ TotalFailed (stats (fst x)) <= TotalFailed (stats (fst y))
  /\ exists taken,
      buf (messageQueue (fst x)) = (taken ++ buf (messageQueue (fst y)))%list.
Proof.
  destruct 1 as [s w id _ _ | s w id _ _ _ | s w id msg rest r _ Hbuf Hsend];
    simpl; intros Hs Hf.
  - repeat split; try lia. now exists [].
  - repeat split; try lia. now exists [].
  - destruct (worker_delivers_effect _ _ _ _ _ _ Hsend) as (now & b & e & ->).
    set (s1 := set_queue _ s).
    destruct (updateStats_counters now b e s1 Hs Hf) as (Hsum & H1 & H2).
    destruct (updateStats_frame now b e s1) as (_ & -> & _ & _).
    unfold chan_len. rewrite Hbuf. subst s1. simpl in *.
    repeat split; try lia. exists [msg]. reflexivity.
Qed.

(** X3. Whatever the workers do, [TotalSent + TotalFailed] plus the
    number of buffered messages stays the same: every message a worker
    takes is counted exactly once, as sent or as failed.  Workers take
    messages from the front of the buffer only, and no counter drops.
    (The counters are taken to stay below the largest [int64].) *)
Theorem X3_workers_count_every_message (E : Env) (x y : Service * World) :
  worker_steps E x y ->
  0 <= TotalSent (stats (fst x)) ->
  0 <= TotalFailed (stats (fst x)) ->
  TotalSent (stats (fst x)) + TotalFailed (stats (fst x))
  + Z.of_nat (chan_len (messageQueue (fst x))) < MaxInt64 ->
  TotalSent (stats (fst y)) + TotalFailed (stats (fst y))
  + Z.of_nat (chan_len (messageQueue (fst y)))
  = TotalSent (stats (fst x)) + TotalFailed (stats (fst x))
    + Z.of_nat (chan_len (messageQueue (fst x)))
  /\ TotalSent (stats (fst x)) <= TotalSent (stats (fst y))
  /\ TotalFailed (stats (fst x)) <= TotalFailed (stats (fst y))
  /\ exists taken,
      buf (messageQueue (fst x)) = (taken ++ buf (messageQueue (fst y)))%list.
Proof.
  induction 1 as [x | x y z Hstep _ IH]; intros Hs Hf Hsum.
  - repeat split; try lia. now exists [].
  - destruct (worker_step_conservation E x y Hstep) as (Heq & H1 & H2 & t1 & Ht1);
      [lia | lia |].
    destruct IH as (Heq' & H1' & H2' & t2 & Ht2); [lia | lia | lia |].
    repeat split; try lia.
    exists (t1 ++ t2)%list. now rewrite <- app_assoc, <- Ht2.
Qed.

Lemma X3_workers_count_every_message_witness :
  let E := demo_Env 200 in
  let m1 := demo_message "one" in
  let m2 := demo_message "two" in
  let s0 := state_of (SendMessage (state_of (SendMessage small_queue_service m1)) m2) in
  exists s w,
    worker_steps E (s0, mkWorld 0 0) (s, w)
    /\ buf (messageQueue s) = [m2]
    /\ TotalSent (stats s) + TotalFailed (stats s) + 1 = 0 + 0 + 2.
Proof.
  intros E m1 m2 s0.
  destruct (sendWebhook E (set_queue (mkChan [m2] 2 false) s0) m1 (mkWorld 0 0))
    as [r|] eqn:Hr; [|vm_compute in Hr; discriminate].
  assert (Hrun : worker_steps E (s0, mkWorld 0 0) (sr_service r, sr_world r)).
  { eapply worker_steps_step; [|apply worker_steps_refl].
    apply (worker_delivers E s0 (mkWorld 0 0) 0%nat m1 [m2] r);
      [now left | reflexivity | exact Hr]. }
  exists (sr_service r), (sr_world r).
  destruct (X3_workers_count_every_message E _ _ Hrun)
    as (Hsum & _ & _ & taken & Htaken);
    [vm_compute; discriminate | vm_compute; discriminate
     | vm_compute; reflexivity |].
  assert (Hbuf : buf (messageQueue (sr_service r)) = [m2]).
  { destruct (worker_delivers_effect E s0 (mkWorld 0 0) m1 [m2] r Hr)
      as (now & b & e & ->).
    match goal with
    | |- buf (messageQueue (updateStats ?t ?ok ?msg ?s1)) = _ =>
        destruct (updateStats_frame t ok msg s1) as (_ & -> & _)
    end.
    reflexivity. }
  split; [exact Hrun|]. split; [exact Hbuf|].
  simpl fst in Hsum. unfold chan_len in Hsum. rewrite Hbuf in Hsum.
  exact Hsum.
Defined.

(** ** Invariants of the delivery queue *)

Lemma service_invariant_init (cfg : WebhookConfig) :
  service_invariant cfg (NewService cfg).
Proof.
  unfold service_invariant, NewService, chan_len. simpl.
  split; [lia|]. repeat split.
Qed.

Lemma service_invariant_op (E : Env) (cfg : WebhookConfig)
  (x y : Service * World) :
  service_op E x y ->
  service_invariant cfg (fst x) -> service_invariant cfg (fst y).
Proof.
  unfold service_invariant.
  destruct 1 as [s w e s' Hop | s w e s' Hop | s w msg e s' Hop | x y Hstep];
    cbn [fst]; intros (Hlen & Hcap & Hcfg & Htm & Hopen).
  - unfold Start in Hop. destruct (running s) eqn:Hrun.
    + injection Hop as _ <-. rewrite Hrun. auto.
    + injection Hop as _ <-. simpl. repeat split; auto.
      * now apply Hopen.
      * destruct (Hopen H) as (_ & Hw). rewrite Hw. eauto.
  - unfold Stop in Hop. destruct (running s) eqn:Hrun; simpl in Hop.
    + destruct (chan_close _) as [q|] eqn:Hq; [|discriminate].
      injection Hop as _ <-.
      unfold chan_close in Hq.
      destruct (cancelFunc s); simpl in *;
        (destruct (closed (messageQueue s)); [discriminate|]);
        injection Hq as <-; simpl; repeat split; auto; discriminate.
    + injection Hop as _ <-. rewrite Hrun. auto.
  - unfold SendMessage, SendMessage_at, SendMessage_select, isRunning in Hop.
    destruct (running s) eqn:Hrun; simpl in Hop.
    + unfold chan_try_send in Hop.
      destruct (closed (messageQueue s)) eqn:Hcl; [discriminate|].
      destruct (chan_len (messageQueue s) <? cap (messageQueue s))%nat eqn:Hroom.
      * injection Hop as _ <-. simpl. rewrite Hrun.
        specialize (Hopen eq_refl).
        apply Nat.ltb_lt in Hroom. unfold chan_len in *. simpl.
        rewrite length_app. simpl.
        split; [lia|]. repeat split; auto; apply Hopen.
      * injection Hop as _ <-. rewrite Hrun, Hcl. auto.
    + injection Hop as _ <-. rewrite Hrun. auto.
  - destruct Hstep as [s w id Hin Hc | s w id Hin Hc Hb
                       | s w id msg rest r Hin Hb Hsend]; cbn [fst] in *.
    + simpl. do 4 (split; [assumption|]). intros Ho.
      destruct (Hopen Ho) as (Hnil & _). rewrite Hnil in Hc. destruct Hc.
    + simpl. do 4 (split; [assumption|]). intros Ho. congruence.
    + destruct (worker_delivers_effect _ _ _ _ _ _ Hsend) as (now & b & e & ->).
      set (s1 := set_queue _ s).
      destruct (updateStats_frame now b e s1) as (-> & -> & -> & ->).
      destruct (updateStats_frame_workers now b e s1) as (-> & -> & -> & _).
      subst s1. unfold chan_len in *. simpl. rewrite Hb in Hlen. simpl in Hlen.
      repeat split; auto; try lia; now apply Hopen.
Qed.

(** X4. A service made by [NewService] never holds more than 1000
    messages, never changes its configuration, and has exactly one worker
    while it is running with its queue channel open (none while it is
    not running): this holds after any sequence of returning [Start],
    [Stop] and [SendMessage] calls and worker steps. *)
Theorem X4_service_invariants (E : Env) (cfg : WebhookConfig)
  (w0 w : World) (s : Service) :
  service_run E (NewService cfg, w0) (s, w) ->
  (GetQueueLength s <= 1000)%nat
  /\ config s = cfg
  /\ testMode s = NewTestModeUtils (TestModeSuffix cfg)
  /\ (closed (messageQueue s) = false ->
      List.length (workers s) = if running s then 1%nat else 0%nat).
Proof.
  intros Hrun.
  assert (Hinv : service_invariant cfg s).
  { remember (NewService cfg, w0) as x eqn:Hx.
    remember (s, w) as y eqn:Hy.
    revert s w Hy. induction Hrun as [x | x y z _ IH Hop]; intros s w Hy.
    - subst. injection Hy as <- _. apply service_invariant_init.
    - subst. destruct y as [s1 w1].
      apply (service_invariant_op E cfg _ _ Hop). simpl.
      now apply (IH eq_refl s1 w1). }
  destruct Hinv as (Hlen & Hcap & Hcfg & Htm & Hopen).
  unfold GetQueueLength. repeat split; auto; try lia.
  intros Ho. destruct (Hopen Ho) as (_ & Hw).
  destruct (running s); [destruct Hw as (id & _ & ->) | rewrite Hw];
    reflexivity.
Qed.

Lemma X4_service_invariants_witness :
  let cfg := demo_config "https://example.com/webhook" 3 in
  let s1 := state_of (Start (NewService cfg)) in
  let s2 := state_of (SendMessage s1 (demo_message "hello")) in
  (GetQueueLength s2 <= 1000)%nat
  /\ config s2 = cfg
  /\ testMode s2 = NewTestModeUtils ""
  /\ (closed (messageQueue s2) = false ->
      List.length (workers s2) = 1%nat).
Proof.
  intros cfg s1 s2.
  apply (X4_service_invariants (demo_Env 200) cfg (mkWorld 0 0) (mkWorld 0 0)).
  eapply service_run_step; [eapply service_run_step; [apply service_run_refl|]|].
  - apply (op_Start _ (NewService cfg) (mkWorld 0 0) None s1). reflexivity.
  - apply (op_SendMessage _ s1 (mkWorld 0 0) (demo_message "hello") None s2).
    reflexivity.
Defined.

Lemma no_worker_no_step (E : Env) (s : Service) (w : World)
  (y : Service * World) :
  worker_step E (s, w) y -> workers s <> [].
Proof.
  intros H Hnil. inversion H; subst;
    match goal with Hin : In _ (workers _) |- _ =>
      rewrite Hnil in Hin; destruct Hin end.
Qed.

(** X5. [Stop] does not wait for the worker and [Start] does not look
    for one, so how many workers a restarted service has depends on the
    schedule.  On a running service with its one worker, after [Stop]:
    if [Start] comes before the cancelled worker has run, the service has
    two workers, the old one with a cancelled context; if the cancelled
    worker leaves first, it has one.  Either way the restarted service
    reports running on the closed queue.  With an empty buffer the new
    worker has a step, and every step it has is to leave: the service then
    reports running with no worker at all. *)
Theorem X5_restart_workers (E : Env) (s : Service) (w : World) (id : nat) :
  running s = true ->
  cancelFunc s = Some id ->
  workers s = [id] ->
  cancelled s = [] ->
  (id < ctx_count s)%nat ->
  closed (messageQueue s) = false ->
  exists s2,
    Stop s = Ret None s2
    /\ (exists s3,
          Start s2 = Ret None s3
          /\ workers s3 = [ctx_count s; id]
          /\ cancelled s3 = [id]
          /\ running s3 = true
          /\ closed (messageQueue s3) = true)
    /\ (exists s2' s3',
          worker_step E (s2, w) (s2', w)
          /\ Start s2' = Ret None s3'
          /\ workers s3' = [ctx_count s]
          /\ running s3' = true
          /\ closed (messageQueue s3') = true
          /\ buf (messageQueue s3') = buf (messageQueue s)
          /\ (buf (messageQueue s) = [] ->
              (exists y, worker_step E (s3', w) y)
              /\ forall y, worker_step E (s3', w) y ->
                           workers (fst y) = []
                           /\ running (fst y) = true
                           /\ forall z, ~ worker_step E y z)).
Proof.
  intros Hrun Hcf Hw Hcan Hid Hopen.
  destruct s as [cfg [b c cl] run cf st tm cc can ws]. simpl in *. subst.
  assert (Hrm : forall k : nat, remove Nat.eq_dec k [k] = []).
  { intros k. simpl. destruct (Nat.eq_dec k k); [reflexivity | congruence]. }
  eexists. split; [reflexivity|]. split.
  - eexists. split; [reflexivity|]. repeat split.
  - eexists. eexists. split.
    + apply (worker_cancelled E _ w id); simpl; now left.
    + cbn [workers set_workers cancel_ctx set_running set_queue].
      rewrite Hrm. split; [reflexivity|]. split; [reflexivity|].
      split; [reflexivity|]. split; [reflexivity|]. split; [reflexivity|].
      intros ->. split.
      * eexists. apply (worker_queue_closed E _ w cc);
          [simpl; now left | reflexivity | reflexivity].
      * intros y Hstep.
        assert (Hy : y = (set_workers []
                            (mkService cfg (mkChan [] c true) true (Some cc)
                               st tm (S cc) [id] [cc]), w)).
        { inversion Hstep; subst; simpl in *.
          - match goal with H : _ \/ False |- _ => destruct H as [<- | []] end.
            match goal with H : _ \/ False |- _ => destruct H as [-> | []] end.
            lia.
          - match goal with H : _ \/ False |- _ => destruct H as [<- | []] end.
            unfold set_workers. simpl. now rewrite Hrm.
          - discriminate. }
        subst y. cbn [fst workers running set_workers].
        split; [reflexivity|]. split; [reflexivity|].
        intros z Hz. apply no_worker_no_step in Hz. now apply Hz.
Qed.

Lemma X5_restart_workers_witness :
  let E := demo_Env 200 in
  let s := small_queue_service in
  let w := mkWorld 0 0 in
  exists s2,
    Stop s = Ret None s2
    /\ (exists s3, Start s2 = Ret None s3 /\ workers s3 = [1; 0]%nat)
    /\ (exists s2' s3',
          worker_step E (s2, w) (s2', w)
          /\ Start s2' = Ret None s3'
          /\ workers s3' = [1%nat]
          /\ running s3' = true
          /\ closed (messageQueue s3') = true
          /\ (exists y, worker_step E (s3', w) y)
          /\ forall y, worker_step E (s3', w) y ->
                       workers (fst y) = [] /\ running (fst y) = true).
Proof.
  intros E s w.
  destruct (X5_restart_workers E s w 0%nat)
    as (s2 & HStop & (s3 & HStart & Hws & _) & (s2' & s3' & Hexit & HStart'
        & Hws' & Hrun' & Hclosed' & _ & Hlast));
    [reflexivity | reflexivity | reflexivity | reflexivity
     | vm_compute; lia | reflexivity |].
  exists s2. split; [exact HStop|]. split.
  - exists s3. split; [exact HStart | exact Hws].
  - exists s2', s3'. split; [exact Hexit|]. split; [exact HStart'|].
    split; [exact Hws'|]. split; [exact Hrun'|]. split; [exact Hclosed'|].
    destruct (Hlast eq_refl) as (Hsome & Hall).
    split; [exact Hsome|].
    intros y Hy. destruct (Hall y Hy) as (H1 & H2 & _). now split.
Defined.

(** X6. [Stop] does not make the worker drain the queue.  On a running
    service with its one worker, [Stop] returns [nil] and keeps the
    buffered messages; the worker, whose context is now cancelled, may
    leave at once; after that no worker step is possible, so what is
    still buffered is never delivered. *)
Theorem X6_stop_may_strand_messages (E : Env) (s : Service) (w : World)
  (id : nat) :
  running s = true ->
  cancelFunc s = Some id ->
  workers s = [id] ->
  closed (messageQueue s) = false ->
  exists s2 s3,
    Stop s = Ret None s2
    /\ buf (messageQueue s2) = buf (messageQueue s)
    /\ worker_step E (s2, w) (s3, w)
    /\ workers s3 = []
    /\ buf (messageQueue s3) = buf (messageQueue s)
    /\ forall y, ~ worker_step E (s3, w) y.
Proof.
  intros Hrun Hcf Hw Hopen.
  destruct s as [cfg [b c cl] run cf st tm cc can ws]. simpl in *. subst.
  assert (Hrm : remove Nat.eq_dec id [id] = []).
  { simpl. destruct (Nat.eq_dec id id); [reflexivity | congruence]. }
  eexists. eexists. split; [reflexivity|]. split; [reflexivity|].
  split; [|split; [|split]].
  - apply (worker_cancelled E _ w id); simpl; now left.
  - cbn [workers set_workers cancel_ctx set_running set_queue]. exact Hrm.
  - reflexivity.
  - intros y Hstep.
    assert (Hnone : forall s' w' y',
               worker_step E (s', w') y' -> workers s' = [] -> False).
    { intros s' w' y' H. inversion H; subst; intros Hnil;
        match goal with Hin : In _ (workers _) |- _ =>
          rewrite Hnil in Hin; destruct Hin end. }
    apply (Hnone _ _ _ Hstep).
    cbn [workers set_workers cancel_ctx set_running set_queue]. exact Hrm.
Qed.

Lemma X6_stop_may_strand_messages_witness :
  let E := demo_Env 200 in
  let m := demo_message "hello" in
  let s := state_of (SendMessage small_queue_service m) in
  exists s2 s3,
    Stop s = Ret None s2
    /\ buf (messageQueue s2) = [m]
    /\ worker_step E (s2, mkWorld 0 0) (s3, mkWorld 0 0)
    /\ workers s3 = []
    /\ buf (messageQueue s3) = [m]
    /\ forall y, ~ worker_step E (s3, mkWorld 0 0) y.
Proof.
  intros E m s.
  exact (X6_stop_may_strand_messages E s (mkWorld 0 0) 0%nat
           eq_refl eq_refl eq_refl eq_refl).
Defined.

(** ** Test-mode utilities: what is rewritten, what is a test message *)

(** X7. When the parsed path holds "webhook" but not "webhook-test",
    [getTestWebhookURL] prints the URL with the suffix put right after the
    leftmost "webhook" of the path and with scheme, host, query and
    fragment as parsed.  The suffix of [NewTestModeUtils] is never empty,
    so the new path is longer than the old one. *)
Theorem X7_rewrite_inserts_suffix (E : Env) (suffix baseURL : string)
  (u : url_URL) :
  let t := NewTestModeUtils suffix in
  baseURL <> "" ->
  url_Parse E baseURL = Some u ->
  Contains (Path u) "webhook" = true ->
  Contains (Path u) "webhook-test" = false ->
  exists a b,
    Path u = a ++ "webhook" ++ b
    /\ (forall a1 a2, a = a1 ++ a2 -> a2 <> "" ->
                      HasPrefix (a2 ++ "webhook" ++ b) "webhook" = false)
    /\ getTestWebhookURL E t baseURL
       = url_String E
           (mkURL (Scheme u) (Host u)
                  (a ++ "webhook" ++ testModeSuffix t ++ b)
                  (RawQuery u) (Fragment u))
    /\ testModeSuffix t <> ""
    /\ (String.length (Path u)
        < String.length (a ++ "webhook" ++ testModeSuffix t ++ b))%nat.
Proof.
  intros t Hne Hu Hc Hnc.
  destruct (Replace1_leftmost (Path u) "webhook"
              ("webhook" ++ testModeSuffix t) Hc) as (a & b & Hp & Hr & Hleft).
  exists a, b. split; [exact Hp|]. split; [exact Hleft|].
  assert (Hsfx : testModeSuffix t <> "").
  { subst t. unfold NewTestModeUtils.
    destruct (String.eqb suffix "") eqn:He; simpl; [discriminate|].
    now apply String.eqb_neq. }
  split; [|split; [exact Hsfx|]].
  - unfold getTestWebhookURL.
    apply String.eqb_neq in Hne. rewrite Hne, Hu, Hc, Hnc. simpl negb.
    cbn [andb]. rewrite Hr. unfold set_Path.
    now rewrite append_assoc.
  - rewrite Hp, !length_append.
    destruct (testModeSuffix t); [now elim Hsfx|]. simpl. lia.
Qed.

Lemma X7_rewrite_inserts_suffix_witness :
  let E := demo_Env 200 in
  exists a b,
    "/hooks/webhook/webhook/v1" = a ++ "webhook" ++ b
    /\ (forall a1 a2, a = a1 ++ a2 -> a2 <> "" ->
                      HasPrefix (a2 ++ "webhook" ++ b) "webhook" = false)
    /\ getTestWebhookURL E (NewTestModeUtils "-staging")
         "https://example.com/hooks/webhook/webhook/v1?x=1"
       = url_String E
           (mkURL "https" "example.com"
                  (a ++ "webhook" ++ "-staging" ++ b) "x=1" "")
    /\ "-staging" <> ""
    /\ (25 < String.length (a ++ "webhook" ++ "-staging" ++ b))%nat.
Proof.
  intros E.
  exact (X7_rewrite_inserts_suffix E "-staging"
           "https://example.com/hooks/webhook/webhook/v1?x=1"
           (mkURL "https" "example.com" "/hooks/webhook/webhook/v1" "x=1" "")
           ltac:(discriminate) eq_refl eq_refl eq_refl).
Defined.

Lemma strip_one_space_seq (q r : string) :
  In q space_seqs -> strip_one space_seqs (q ++ r) = Some r.
Proof.
  unfold space_seqs.
  repeat (intros [<-|H]; [reflexivity | revert H]). intros [].
Qed.

Lemma trim_whitespace_run (ws x : string) :
  Whitespace ws ->
  strip_one space_seqs x = None ->
  forall n, (String.length (ws ++ x) <= n)%nat ->
            trim_seqs space_seqs n (ws ++ x) = x.
Proof.
  intros Hws Hx. induction Hws as [|q rest Hq _ IH]; intros n Hn.
  - now apply trim_seqs_fixed.
  - rewrite append_assoc in *.
    assert (Hq' := space_seqs_nonempty q Hq).
    destruct q as [|c q]; [now elim Hq'|].
    destruct n as [|n]; [simpl in Hn; lia|].
    cbn [trim_seqs]. rewrite (strip_one_space_seq _ _ Hq).
    apply IH. simpl in Hn. rewrite length_append in Hn. lia.
Qed.

Lemma all_bytes_append (p : ascii -> bool) (a b : string) :
  all_bytes p (a ++ b) = all_bytes p a && all_bytes p b.
Proof.
  induction a as [|c a IH]; simpl; [reflexivity|].
  now rewrite IH, andb_assoc.
Qed.

Lemma all_bytes_srev (p : ascii -> bool) (s : string) :
  all_bytes p (srev s) = all_bytes p s.
Proof.
  induction s as [|c s IH]; simpl; [reflexivity|].
  rewrite all_bytes_append, IH. simpl.
  rewrite andb_true_r. apply andb_comm.
Qed.

Lemma space_seq_bytes (q : string) :
  In q space_seqs -> all_bytes space_byte q = true.
Proof.
  unfold space_seqs.
  repeat (intros [<-|H]; [reflexivity | revert H]). intros [].
Qed.

Lemma reversed_run_bytes (w : string) :
  run_of (map srev space_seqs) w -> all_bytes space_byte w = true.
Proof.
  induction 1 as [|q rest Hq _ IH]; [reflexivity|].
  rewrite all_bytes_append, IH, andb_true_r.
  apply in_map_iff in Hq as (q0 & <- & Hq0).
  rewrite all_bytes_srev. now apply space_seq_bytes.
Qed.

(** [TrimRightSpace] cuts a tail made of white-space bytes. *)
Lemma TrimRightSpace_split (y : string) :
  exists tail, all_bytes space_byte tail = true
               /\ y = TrimRightSpace y ++ tail.
Proof.
  unfold TrimRightSpace.
  destruct (trim_seqs_split (map srev space_seqs) (String.length y) (srev y))
    as (wsr & Hrun & Heq).
  exists (srev wsr). split.
  - rewrite all_bytes_srev. now apply reversed_run_bytes.
  - rewrite <- srev_append, <- Heq. symmetry. apply srev_involutive.
Qed.

(** A prefix without white-space bytes survives the cutting of a
    white-space tail. *)
Lemma prefix_survives (p : string) :
  all_bytes (fun c => negb (space_byte c)) p = true ->
  forall kept rest tail,
    p ++ rest = kept ++ tail ->
    all_bytes space_byte tail = true ->
    HasPrefix kept p = true.
Proof.
  induction p as [|c p IH]; intros Hp kept rest tail Heq Htail;
    [reflexivity|].
  simpl in Hp. apply andb_true_iff in Hp as (Hc & Hp).
  destruct kept as [|k kept]; simpl in Heq.
  - subst tail. simpl in Htail. apply andb_true_iff in Htail as (Hsp & _).
    rewrite Hsp in Hc. discriminate.
  - injection Heq as <- Heq. simpl. rewrite Ascii.eqb_refl. simpl.
    now apply (IH Hp kept rest tail).
Qed.

(** X8. [isTestMessage] holds exactly of the bodies that are white space
    (in the sense of [unicode.IsSpace], possibly none) followed by the
    literal "[test]"; what comes after the token does not matter. *)
Theorem X8_isTestMessage_iff (t : TestModeUtils) (body : string) :
  isTestMessage t body = true
  <-> exists ws rest, Whitespace ws /\ body = ws ++ "[test]" ++ rest.
Proof.
  unfold isTestMessage, TrimSpace. split.
  - intros H. apply HasPrefix_split in H.
    destruct (TrimLeftSpace_split body) as (ws & Hws & Hbody).
    destruct (TrimRightSpace_split (TrimLeftSpace body)) as (tail & _ & Htail).
    remember (TrimLeftSpace body) as kept eqn:Hkept.
    remember (TrimRightSpace kept) as core eqn:Hcore.
    exists ws, (skip (String.length "[test]") core ++ tail).
    split; [exact Hws|].
    rewrite Hbody. f_equal. rewrite Htail, <- append_assoc. f_equal.
    exact H.
  - intros (ws & rest & Hws & ->).
    assert (Hleft : TrimLeftSpace (ws ++ "[test]" ++ rest) = "[test]" ++ rest).
    { unfold TrimLeftSpace. apply trim_whitespace_run; [exact Hws | reflexivity | lia]. }
    rewrite Hleft.
    destruct (TrimRightSpace_split ("[test]" ++ rest)) as (tail & Hbytes & Htail).
    apply (prefix_survives "[test]" eq_refl _ rest tail); assumption.
Qed.

Lemma X8_isTestMessage_iff_witness :
  isTestMessage (NewTestModeUtils "") (String "009" "  [test]hello") = true
  /\ ~ (exists ws rest, Whitespace ws /\ "[TEST] hello" = ws ++ "[test]" ++ rest).
Proof.
  split.
  - apply (proj2 (X8_isTestMessage_iff (NewTestModeUtils "")
                    (String "009" "  [test]hello"))).
    exists (String "009" "  "), "hello". split; [|reflexivity].
    apply (run_cons space_seqs (byte1 "009") "  "); [now left|].
    apply (run_cons space_seqs " " " "); [simpl; tauto|].
    apply (run_cons space_seqs " " ""); [simpl; tauto | constructor].
  - intros H.
    apply (proj2 (X8_isTestMessage_iff (NewTestModeUtils "") "[TEST] hello")) in H.
    discriminate H.
Defined.

(** ** The webhook manager's forwarding loop *)

Section WebhookManagerProperties.
Import WebhookManager.

Lemma set_queue_twice (q q' : chan Message) (s : Service) :
  set_queue q (set_queue q' s) = set_queue q s.
Proof. reflexivity. Qed.

Lemma forwarding_open_queue (msgs : list Message) :
  forall m,
    let s := webhookService m in
    isRunning s = true ->
    closed (messageQueue s) = false ->
    let room := (cap (messageQueue s) - chan_len (messageQueue s))%nat in
    processXMPPMessages msgs m
    = Ret (map (refused "webhook queue is full") (skipn room msgs))
          (with_service m
             (set_queue (mkChan (buf (messageQueue s) ++ firstn room msgs)%list
                                (cap (messageQueue s)) false) s)).
Proof.
  induction msgs as [|msg rest IH]; intros m s Hrun Hopen room.
  - subst room. rewrite skipn_nil, firstn_nil, app_nil_r. simpl.
    destruct m as [[cfg [b c cl] run cf st tm cc can ws] p].
    simpl in *. subst. reflexivity.
  - cbn [processXMPPMessages]. unfold handleIncomingMessage,
      service_SendMessage, SendMessage, SendMessage_at, SendMessage_select,
      chan_try_send.
    fold s. rewrite Hrun, Hopen. cbn [negb].
    destruct (chan_len (messageQueue s) <? cap (messageQueue s))%nat eqn:Hroom.
    + apply Nat.ltb_lt in Hroom.
      set (s1 := set_queue _ s).
      assert (IH1 := IH (with_service m s1) Hrun eq_refl).
      cbv zeta in IH1. rewrite IH1.
      cbn [webhookService with_service]. subst s1.
      cbn [messageQueue set_queue buf cap]. unfold chan_len in *.
      cbn [buf]. rewrite length_app. cbn [List.length].
      destruct room as [|room'] eqn:Hr; [subst room; lia|].
      replace (cap (messageQueue s)
               - (List.length (buf (messageQueue s)) + 1))%nat
        with room' by (subst room; lia).
      cbn [skipn firstn app]. rewrite set_queue_twice, <- app_assoc.
      reflexivity.
    + apply Nat.ltb_ge in Hroom.
      assert (Hzero : room = 0%nat) by (subst room; lia).
      rewrite Hzero. cbn [skipn firstn map].
      assert (Hsame : with_service m s = m) by (now destruct m).
      assert (IH1 := IH m Hrun Hopen). cbv zeta in IH1.
      rewrite Hsame, IH1. fold s. fold room. rewrite Hzero.
      reflexivity.
Qed.

Lemma forwarding_not_running (msgs : list Message) :
  forall m,
    isRunning (webhookService m) = false ->
    processXMPPMessages msgs m
    = Ret (map (refused "webhook service is not running") msgs) m.
Proof.
  induction msgs as [|msg rest IH]; intros m Hrun; [reflexivity|].
  cbn [processXMPPMessages]. unfold handleIncomingMessage,
    service_SendMessage, SendMessage, SendMessage_at.
  rewrite Hrun. cbn [negb].
  assert (Hsame : with_service m (webhookService m) = m) by (now destruct m).
  rewrite Hsame, IH by assumption. reflexivity.
Qed.

Lemma Stop_closes_queue (s : Service) :
  isRunning s = true ->
  closed (messageQueue s) = false ->
  exists s1, service_Stop s = Ret None s1 /\ closed (messageQueue s1) = true.
Proof.
  destruct s as [cfg [b c cl] run cf st tm cc can ws]. simpl.
  intros -> ->. unfold service_Stop.
  destruct cf; (eexists; split; reflexivity).
Qed.

(** X9. The forwarding loop never stops on a refusal.  While no other
    goroutine runs (no worker takes from the queue, no [Stop]): on a
    running service with an open queue it queues the first messages, in
    order, up to the room left in the queue and logs one "queue is full"
    error for each of the others; on a service that is not running, as
    after the manager's [Stop], it still consumes every message, logs
    "not running" for each and changes nothing.  With other goroutines
    running, a message that passed the running check is decided by the
    queue as it is at the send: queued at the back when it is open and
    has room (as after a worker took a message from a full queue),
    refused when it is open and full, and when it has been closed since
    the check the loop panics; the manager's [Stop] between the check and
    the send does that. *)
Theorem X9_forwarding_loop (m m' : Manager) (msgs : list Message)
  (msg : Message) :
  let s := webhookService m in
  let s' := webhookService m' in
  let room := (cap (messageQueue s) - chan_len (messageQueue s))%nat in
  (isRunning s = true -> closed (messageQueue s) = false ->
   processXMPPMessages msgs m
   = Ret (map (refused "webhook queue is full") (skipn room msgs))
         (with_service m
            (set_queue (mkChan (buf (messageQueue s) ++ firstn room msgs)%list
                               (cap (messageQueue s)) false) s)))
  /\ (isRunning s = false ->
      processXMPPMessages msgs m
      = Ret (map (refused "webhook service is not running") msgs) m)
  /\ handleIncomingMessage_at m m msg = handleIncomingMessage m msg
  /\ (isRunning s = true -> closed (messageQueue s') = false ->
      (chan_len (messageQueue s') < cap (messageQueue s'))%nat ->
      handleIncomingMessage_at m m' msg
      = Ret [] (with_service m'
                  (set_queue (mkChan (buf (messageQueue s') ++ [msg])%list
                                     (cap (messageQueue s')) false) s')))
  /\ (isRunning s = true -> closed (messageQueue s') = false ->
      (cap (messageQueue s') <= chan_len (messageQueue s'))%nat ->
      handleIncomingMessage_at m m' msg
      = Ret [refused "webhook queue is full" msg] m')
  /\ (isRunning s = true -> closed (messageQueue s') = true ->
      handleIncomingMessage_at m m' msg = Panic "send on closed channel" m')
  /\ (isRunning s = true -> closed (messageQueue s) = false ->
      exists m1,
        WebhookManager.Stop m = Ret None m1
        /\ handleIncomingMessage_at m m1 msg
           = Panic "send on closed channel" m1).
Proof.
  intros s s' room.
  assert (Hsame : forall x : Manager, with_service x (webhookService x) = x)
    by (now intros []).
  assert (Hclosed : forall x : Manager,
             isRunning s = true ->
             closed (messageQueue (webhookService x)) = true ->
             handleIncomingMessage_at m x msg
             = Panic "send on closed channel" x).
  { intros x Hrun Hcl.
    unfold handleIncomingMessage_at, SendMessage_at, SendMessage_select,
      chan_try_send.
    fold s. rewrite Hrun, Hcl. cbn [negb]. now rewrite Hsame. }
  split; [|split; [|split; [|split; [|split; [|split]]]]].
  - intros Hrun Hopen. now apply forwarding_open_queue.
  - now apply forwarding_not_running.
  - reflexivity.
  - intros Hrun Hopen Hroom.
    unfold handleIncomingMessage_at, SendMessage_at, SendMessage_select,
      chan_try_send.
    fold s s'. rewrite Hrun, Hopen. cbn [negb].
    apply Nat.ltb_lt in Hroom. now rewrite Hroom.
  - intros Hrun Hopen Hfull.
    unfold handleIncomingMessage_at, SendMessage_at, SendMessage_select,
      chan_try_send.
    fold s s'. rewrite Hrun, Hopen. cbn [negb].
    apply Nat.ltb_ge in Hfull. rewrite Hfull. subst s'. now rewrite Hsame.
  - apply Hclosed.
  - intros Hrun Hopen.
    destruct (Stop_closes_queue s Hrun Hopen) as (s1 & HStop & Hcl).
    exists (with_service m s1). split.
    + unfold WebhookManager.Stop. fold s. now rewrite HStop.
    + apply Hclosed; [exact Hrun | exact Hcl].
Qed.

Lemma X9_forwarding_loop_witness :
  let a := demo_message "a" in
  let b := demo_message "b" in
  let c := demo_message "c" in
  let m := mkManager small_queue_service 1 in
  let full := mkManager (set_queue (mkChan [a; b] 2 false)
                                   small_queue_service) 1 in
  let drained := mkManager (set_queue (mkChan [b] 2 false)
                                      small_queue_service) 1 in
  processXMPPMessages [a; b; c] m = Ret [refused "webhook queue is full" c] full
  /\ processXMPPMessages [a; b]
       (state_of (WebhookManager.Stop m))
     = Ret [refused "webhook service is not running" a;
            refused "webhook service is not running" b]
           (state_of (WebhookManager.Stop m))
  /\ handleIncomingMessage_at full drained c
     = Ret [] (mkManager (set_queue (mkChan [b; c] 2 false)
                                    small_queue_service) 1)
  /\ exists m1,
       WebhookManager.Stop full = Ret None m1
       /\ handleIncomingMessage_at full m1 c
          = Panic "send on closed channel" m1.
Proof.
  intros a b c m full drained. split; [|split; [|split]].
  - exact (proj1 (X9_forwarding_loop m m [a; b; c] a) eq_refl eq_refl).
  - exact (proj1 (proj2 (X9_forwarding_loop (state_of (WebhookManager.Stop m))
                           m [a; b] a)) eq_refl).
  - apply (proj1 (proj2 (proj2 (proj2
             (X9_forwarding_loop full drained [] c)))));
      [reflexivity | reflexivity | vm_compute; lia].
  - apply (proj2 (proj2 (proj2 (proj2 (proj2 (proj2
             (X9_forwarding_loop full full [] c)))))));
      reflexivity.
Defined.

End WebhookManagerProperties.

(** ** The XMPP client: after [Disconnect], inbound messages, reconnecting *)

Section ClientOpsProperties.
Import XmppClient.
Import XmppClientOps.

Lemma Disconnect_holds_mu (session_Disconnect : nat -> option string)
  (c : Client) :
  mu c = false ->
  Disconnect session_Disconnect c
  = Block (state_of (Disconnect session_Disconnect c))
  /\ mu (state_of (Disconnect session_Disconnect c)) = true.
Proof.
  intros Hmu.
  unfold Disconnect, bind, Lock, deferUnlock, when, modify, setConnected.
  rewrite Hmu. cbn [mu set_mu].
  destruct (cancelFunc c) eqn:Hcf; cbn; rewrite ?Hcf, ?Hmu; cbn; now split.
Qed.

(** X10. Once [Disconnect] has been called on a client, no later call
    on that client returns: [Disconnect] blocks holding [c.mu], and
    [IsConnected], [SendMessage], [SendMUCMessage] and [setConnected],
    which all start by taking [c.mu], block behind it without sending
    anything. *)
Theorem X10_client_unusable_after_Disconnect
  (session_Disconnect : nat -> option string)
  (session_Send : Stanza -> option string) (c : Client) :
  mu c = false ->
  let c1 := state_of (Disconnect session_Disconnect c) in
  Disconnect session_Disconnect c = Block c1
  /\ IsConnected c1 = Block c1
  /\ (forall to body messageType,
        SendMessage session_Send to body messageType c1 = Block c1)
  /\ (forall room body subject,
        SendMUCMessage session_Send room body subject c1 = Block c1)
  /\ (forall b, setConnected b c1 = Block c1).
Proof.
  intros Hmu c1.
  destruct (Disconnect_holds_mu session_Disconnect c Hmu) as (Hblock & Hheld).
  fold c1 in Hblock, Hheld.
  split; [exact Hblock|].
  unfold IsConnected, SendMessage, SendMUCMessage, isConnected, setConnected,
    bind, RLock, Lock.
  rewrite Hheld. repeat split.
Qed.

Lemma X10_client_unusable_after_Disconnect_witness :
  let c1 := state_of (Disconnect (fun _ => None) connected_client) in
  Disconnect (fun _ => None) connected_client = Block c1
  /\ IsConnected c1 = Block c1
  /\ (forall to body messageType,
        SendMessage (fun _ => None) to body messageType c1 = Block c1)
  /\ (forall room body subject,
        SendMUCMessage (fun _ => None) room body subject c1 = Block c1)
  /\ (forall b, setConnected b c1 = Block c1).
Proof.
  exact (X10_client_unusable_after_Disconnect (fun _ => None) (fun _ => None)
           connected_client eq_refl).
Defined.

Lemma set_messageChan_same (c : Client) :
  closed (messageChan c) = false ->
  set_messageChan (mkChan (buf (messageChan c)) (cap (messageChan c)) false) c
  = c.
Proof.
  destruct c as [conn [b cp cl] m cf cli sl eff]. simpl. now intros ->.
Qed.

Lemma handleMessages_open (ps : list Packet) :
  forall c,
    closed (messageChan c) = false ->
    let room := (cap (messageChan c) - chan_len (messageChan c))%nat in
    exists flags,
      handleMessages ps c
      = Ret flags
          (set_messageChan
             (mkChan (buf (messageChan c) ++ firstn room (offered ps))%list
                     (cap (messageChan c)) false) c)
      /\ List.length flags = List.length ps.
Proof.
  induction ps as [|p ps IH]; intros c Hopen room.
  - exists []. cbn [offered]. rewrite firstn_nil, app_nil_r.
    rewrite set_messageChan_same by exact Hopen. split; reflexivity.
  - destruct (IH c Hopen) as (flags & Hrest & Hlen). fold room in Hrest.
    cbn [handleMessages offered]. unfold bind at 1.
    destruct p as [msg|]; cbn [handleMessage].
    + destruct (String.eqb (st_Body msg) "" || String.eqb (st_From msg) "").
      * unfold ret at 1. unfold bind. rewrite Hrest.
        exists (false :: flags). split; [reflexivity | simpl; now rewrite Hlen].
      * unfold chan_try_send. rewrite Hopen.
        destruct (chan_len (messageChan c) <? cap (messageChan c))%nat eqn:Hroom.
        -- apply Nat.ltb_lt in Hroom.
           set (c1 := set_messageChan _ c).
           destruct (IH c1 eq_refl) as (flags1 & Hrest1 & Hlen1).
           unfold bind. rewrite Hrest1.
           exists (true :: flags1).
           split; [|simpl; now rewrite Hlen1].
           unfold ret. f_equal. subst c1. unfold chan_len in *.
           cbn [messageChan set_messageChan buf cap].
           rewrite length_app. cbn [List.length].
           destruct room as [|room'] eqn:Hr; [subst room; lia|].
           replace (cap (messageChan c)
                    - (List.length (buf (messageChan c)) + 1))%nat
             with room' by (subst room; lia).
           cbn [firstn]. rewrite <- app_assoc. reflexivity.
        -- apply Nat.ltb_ge in Hroom.
           assert (Hzero : room = 0%nat) by (subst room; lia).
           unfold bind. rewrite Hrest, Hzero.
           exists (false :: flags). split; [reflexivity | simpl; now rewrite Hlen].
    + unfold ret at 1. unfold bind. rewrite Hrest.
      exists (false :: flags). split; [reflexivity | simpl; now rewrite Hlen].
Qed.

Lemma firstn_subset {A : Type} (n : nat) (l : list A) (x : A) :
  In x (firstn n l) -> In x l.
Proof.
  revert l; induction n as [|n IH]; intros l; simpl.
  - intros [].
  - destruct l as [|y l]; simpl; [intros [] |].
    intros [H|H]; [now left | right; now apply IH].
Qed.

Lemma offered_well_formed (ps : list Packet) :
  Forall (fun m => Body m <> "" /\ From m <> "" /\ Stamp m = "") (offered ps).
Proof.
  induction ps as [|[msg|] ps IH]; simpl; auto.
  destruct (String.eqb (st_Body msg) "") eqn:Hb; simpl; auto.
  destruct (String.eqb (st_From msg) "") eqn:Hf; simpl; auto.
  constructor; auto. simpl.
  apply String.eqb_neq in Hb. apply String.eqb_neq in Hf. auto.
Qed.

(** X11. The inbound handler never blocks and never panics while the
    message channel is open.  Over any sequence of packets it puts on the
    channel, in order, the stanzas that are messages with a body and a
    sender, up to the room left, and drops all others; what it queues has
    a non-empty body and sender and an empty stamp, and the rest of the
    client is untouched. *)
Theorem X11_inbound_handler (ps : list Packet) (c : Client) :
  closed (messageChan c) = false ->
  let room := (cap (messageChan c) - chan_len (messageChan c))%nat in
  (exists flags,
     handleMessages ps c
     = Ret flags
         (set_messageChan
            (mkChan (buf (messageChan c) ++ firstn room (offered ps))%list
                    (cap (messageChan c)) false) c)
     /\ List.length flags = List.length ps)
  /\ Forall (fun m => Body m <> "" /\ From m <> "" /\ Stamp m = "")
            (firstn room (offered ps)).
Proof.
  intros Hopen room. split.
  - now apply handleMessages_open.
  - apply Forall_forall. intros m Hin. apply firstn_subset in Hin.
    revert m Hin. apply Forall_forall, offered_well_formed.
Qed.

Lemma X11_inbound_handler_witness :
  let hello := mkStanza "1" "alice@example.com" "bot@example.com" "chat"
                        "hello" "" "" in
  let empty := mkStanza "2" "alice@example.com" "bot@example.com" "chat"
                        "" "" "" in
  let ps := [MessagePacket hello; OtherPacket; MessagePacket empty;
             MessagePacket hello] in
  (exists flags,
     handleMessages ps NewClient
     = Ret flags
         (set_messageChan (mkChan [to_model hello; to_model hello] 100 false)
                          NewClient)
     /\ List.length flags = 4%nat)
  /\ Forall (fun m => Body m <> "" /\ From m <> "" /\ Stamp m = "")
            [to_model hello; to_model hello].
Proof.
  intros hello empty ps.
  exact (X11_inbound_handler ps NewClient eq_refl).
Defined.

Lemma setConnected_free (b : bool) (c : Client) :
  mu c = false -> setConnected b c = Ret tt (set_connected b c).
Proof.
  destruct c as [conn q m cf cli sl eff]. simpl. intros ->. reflexivity.
Qed.

Lemma reconnect_loop_all_fail (session_Connect : nat -> option string)
  (MaxAttempts : Z) (Backoff : Duration) (c : Client) :
  client c = true ->
  MaxAttempts < MaxInt64 ->
  forall (j fuel : nat) (attempt : Z) (calls : nat),
    1 <= attempt ->
    attempt + Z.of_nat j = Z.max MaxAttempts (attempt - 1) + 1 ->
    (j < fuel)%nat ->
    (forall i, (i < j)%nat -> session_Connect (calls + i)%nat <> None) ->
    reconnect_loop session_Connect MaxAttempts Backoff fuel attempt calls c
    = Some (Ret (Some ("failed to reconnect after " ++ itoa MaxAttempts
                       ++ " attempts"), rounds Backoff j) c).
Proof.
  intros Hcli Hmax.
  induction j as [|j IH]; intros fuel attempt calls Hpos Hsum Hfuel Hfail;
    (destruct fuel as [|fuel]; [lia|]); cbn [reconnect_loop rounds].
  - replace (attempt <=? MaxAttempts) with false
      by (symmetry; apply Z.leb_gt; lia).
    reflexivity.
  - replace (attempt <=? MaxAttempts) with true
      by (symmetry; apply Z.leb_le; lia).
    rewrite Hcli. cbn [negb].
    assert (H0 := Hfail 0%nat ltac:(lia)). rewrite Nat.add_0_r in H0.
    destruct (session_Connect calls) as [e|]; [|congruence].
    rewrite wrap64_small by (unfold MaxInt64 in *; lia).
    rewrite (IH fuel (attempt + 1) (S calls)); [reflexivity | lia | lia | lia |].
    intros i Hi. replace (S calls + i)%nat with (calls + S i)%nat by lia.
    apply Hfail. lia.
Qed.

Lemma reconnect_loop_success (session_Connect : nat -> option string)
  (MaxAttempts : Z) (Backoff : Duration) (c : Client) :
  client c = true ->
  mu c = false ->
  MaxAttempts < MaxInt64 ->
  forall (k fuel : nat) (attempt : Z) (calls : nat),
    1 <= attempt ->
    attempt + Z.of_nat k <= MaxAttempts ->
    (k < fuel)%nat ->
    (forall i, (i < k)%nat -> session_Connect (calls + i)%nat <> None) ->
    session_Connect (calls + k)%nat = None ->
    reconnect_loop session_Connect MaxAttempts Backoff fuel attempt calls c
    = Some (Ret (None, rounds Backoff (S k)) (set_connected true c)).
Proof.
  intros Hcli Hmu Hmax.
  induction k as [|k IH]; intros fuel attempt calls Hpos Hsum Hfuel Hfail Hok;
    (destruct fuel as [|fuel]; [lia|]); cbn [reconnect_loop];
    (replace (attempt <=? MaxAttempts) with true
       by (symmetry; apply Z.leb_le; lia));
    rewrite Hcli; cbn [negb].
  - rewrite Nat.add_0_r in Hok. rewrite Hok.
    rewrite setConnected_free by exact Hmu. reflexivity.
  - assert (H0 := Hfail 0%nat ltac:(lia)). rewrite Nat.add_0_r in H0.
    destruct (session_Connect calls) as [e|]; [|congruence].
    rewrite wrap64_small by (unfold MaxInt64 in *; lia).
    rewrite (IH fuel (attempt + 1) (S calls)); [reflexivity | lia | lia | lia | |].
    + intros i Hi. replace (S calls + i)%nat with (calls + S i)%nat by lia.
      apply Hfail. lia.
    + replace (S calls + k)%nat with (calls + S k)%nat by lia. exact Hok.
Qed.

(** X12. [reconnect] sleeps for the backoff before every attempt,
    the first included, and stops at the first [Connect] that succeeds:
    if that is attempt [k + 1] within [max_attempts], it has slept and
    connected [k + 1] times, marks the client connected and returns nil.
    If all [max_attempts] attempts fail (or [max_attempts] is not positive,
    when nothing is attempted) it returns the error "failed to reconnect
    after N attempts" and leaves the client as it was. *)
Theorem X12_reconnect_outcomes (session_Connect : nat -> option string)
  (MaxAttempts : Z) (Backoff : Duration) (calls : nat) (c : Client) :
  client c = true ->
  mu c = false ->
  MaxAttempts < MaxInt64 ->
  (forall k : nat,
     Z.of_nat k < MaxAttempts ->
     (forall i, (i < k)%nat -> session_Connect (calls + i)%nat <> None) ->
     session_Connect (calls + k)%nat = None ->
     reconnect session_Connect MaxAttempts Backoff calls c
     = Some (Ret (None, rounds Backoff (S k)) (set_connected true c)))
  /\ ((forall i, Z.of_nat i < MaxAttempts ->
                 session_Connect (calls + i)%nat <> None) ->
      reconnect session_Connect MaxAttempts Backoff calls c
      = Some (Ret (Some ("failed to reconnect after " ++ itoa MaxAttempts
                         ++ " attempts"),
                   rounds Backoff (Z.to_nat MaxAttempts)) c)).
Proof.
  intros Hcli Hmu Hmax. split.
  - intros k Hk Hfail Hok. unfold reconnect.
    apply reconnect_loop_success; try assumption; lia.
  - intros Hfail. unfold reconnect.
    apply reconnect_loop_all_fail; try assumption; try lia.
    intros i Hi. apply Hfail. lia.
Qed.

Lemma X12_reconnect_outcomes_witness :
  let third := fun n => if (n <? 2)%nat then Some "connection refused"
                        else None in
  let never := fun _ : nat => Some "connection refused" in
  reconnect third 5 (5 * Second) 0 connected_client
  = Some (Ret (None, rounds (5 * Second) 3)
              (set_connected true connected_client))
  /\ reconnect never 5 (5 * Second) 0 connected_client
     = Some (Ret (Some "failed to reconnect after 5 attempts",
                  rounds (5 * Second) 5) connected_client).
Proof.
  intros third never. split.
  - apply (proj1 (X12_reconnect_outcomes third 5 (5 * Second) 0
                    connected_client eq_refl eq_refl eq_refl) 2%nat).
    + reflexivity.
    + intros i Hi. destruct i as [|[|i]]; [discriminate | discriminate | lia].
    + reflexivity.
  - apply (proj2 (X12_reconnect_outcomes never 5 (5 * Second) 0
                    connected_client eq_refl eq_refl eq_refl)).
    intros i _. discriminate.
Defined.

End ClientOpsProperties.

(** ** The XMPP manager *)

Section XmppManagerProperties.
Import XmppManager.

Lemma Disconnect_always_blocks (session_Disconnect : nat -> option string)
  (c : XmppClient.Client) :
  exists c',
    XmppClient.Disconnect session_Disconnect c = Block c'
    /\ XmppClient.mu c' = true
    /\ XmppClient.messageChan c' = XmppClient.messageChan c.
Proof.
  destruct c as [conn q held cf cli sl eff]. destruct held.
  - eexists. split; [reflexivity|]. split; reflexivity.
  - destruct cf; (eexists; split; [reflexivity|]; split; reflexivity).
Qed.

Lemma lookup_store (id : string) (c : XmppClient.Client)
  (cs : list (string * XmppClient.Client)) :
  lookup id (store id c cs) = Some c.
Proof.
  induction cs as [|[k c0] cs IH]; simpl.
  - now rewrite String.eqb_refl.
  - destruct (String.eqb k id) eqn:Hk; simpl; now rewrite Hk.
Qed.

Lemma store_store (id : string) (c : XmppClient.Client)
  (cs : list (string * XmppClient.Client)) :
  store id c (store id c cs) = store id c cs.
Proof.
  induction cs as [|[k c0] cs IH]; simpl.
  - now rewrite String.eqb_refl.
  - destruct (String.eqb k id) eqn:Hk; simpl; rewrite Hk; congruence.
Qed.

Lemma on_client_returns {A : Type} (id : string) (c : XmppClient.Client)
  (body : XmppClient.M A) (a : A) (m : Manager) :
  body c = Ret a c ->
  set_clients (store id c (clients m)) m = m ->
  on_client id c body m = Ret a m.
Proof.
  intros Hbody Hsame. unfold on_client. now rewrite Hbody, Hsame.
Qed.

(** X13. [Stop] on a manager that holds at least one client never
    returns: the first [client.Disconnect()] blocks while [Stop] holds
    [m.mu].  The webhook channel is left open, no client's message channel
    is closed, and from then on [GetDefaultClient], [SendMessage],
    [SendMUCMessage], [IsConnected] and a further [Stop] block as well. *)
Theorem X13_manager_Stop_blocks
  (session_Disconnect : nat -> option string)
  (session_Send : XmppClientOps.Stanza -> option string) (m : Manager) :
  mu m = false ->
  clients m <> [] ->
  exists m',
    Stop session_Disconnect m = Block m'
    /\ mu m' = true
    /\ webhookChan m' = webhookChan m
    /\ map (fun kc => (fst kc, XmppClient.messageChan (snd kc))) (clients m')
       = map (fun kc => (fst kc, XmppClient.messageChan (snd kc))) (clients m)
    /\ GetDefaultClient m' = Block m'
    /\ IsConnected m' = Block m'
    /\ (forall to body messageType,
          SendMessage session_Send to body messageType m' = Block m')
    /\ (forall room body subject,
          SendMUCMessage session_Send room body subject m' = Block m')
    /\ Stop session_Disconnect m' = Block m'.
Proof.
  intros Hmu Hne.
  destruct m as [cs held q d]. simpl in Hmu, Hne. subst held.
  destruct cs as [|[id c] rest]; [congruence|].
  destruct (Disconnect_always_blocks session_Disconnect c)
    as (c' & Hblock & Hheld & Hchan).
  exists (mkManager ((id, c') :: rest) true q d).
  split.
  - unfold Stop, bind, Lock, deferUnlock. cbn [mu set_mu clients].
    cbn [disconnect_all]. unfold bind, on_client. rewrite Hblock.
    unfold set_clients, set_mu.
    cbn [clients store mu webhookChan dispatchers].
    rewrite String.eqb_refl. reflexivity.
  - cbn [mu webhookChan clients map fst snd]. rewrite Hchan.
    repeat split.
Qed.

Lemma X13_manager_Stop_blocks_witness :
  exists m',
    Stop (fun _ => None)
         (mkManager [("default", XmppClient.connected_client)] false
                    (make_chan 1000) 1)
    = Block m'
    /\ mu m' = true
    /\ webhookChan m' = make_chan 1000
    /\ map (fun kc => (fst kc, XmppClient.messageChan (snd kc))) (clients m')
       = [("default", make_chan 100)]
    /\ GetDefaultClient m' = Block m'
    /\ IsConnected m' = Block m'
    /\ (forall to body messageType,
          SendMessage (fun _ => None) to body messageType m' = Block m')
    /\ (forall room body subject,
          SendMUCMessage (fun _ => None) room body subject m' = Block m')
    /\ Stop (fun _ => None) m' = Block m'.
Proof.
  apply (X13_manager_Stop_blocks (fun _ => None) (fun _ => None)
           (mkManager [("default", XmppClient.connected_client)] false
                      (make_chan 1000) 1)).
  - reflexivity.
  - discriminate.
Defined.

(** X14. [Stop] on a manager without clients returns nil, closes the
    webhook channel and releases [m.mu].  A second [Stop] then panics
    with "close of closed channel"; its deferred unlock still runs, so the
    mutex is free afterwards. *)
Theorem X14_manager_Stop_twice_panics
  (session_Disconnect : nat -> option string) (m : Manager) :
  clients m = [] ->
  mu m = false ->
  closed (webhookChan m) = false ->
  let m1 := set_webhookChan
              (mkChan (buf (webhookChan m)) (cap (webhookChan m)) true) m in
  Stop session_Disconnect m = Ret None m1
  /\ Stop session_Disconnect m1 = Panic "close of closed channel" m1.
Proof.
  destruct m as [cs held [b cp cl] d]. simpl. intros -> -> ->.
  split; reflexivity.
Qed.

Lemma X14_manager_Stop_twice_panics_witness :
  let m1 := set_webhookChan (mkChan [] 1000 true) NewManager in
  Stop (fun _ => None) NewManager = Ret None m1
  /\ Stop (fun _ => None) m1 = Panic "close of closed channel" m1.
Proof.
  exact (X14_manager_Stop_twice_panics (fun _ => None) NewManager
           eq_refl eq_refl eq_refl).
Defined.

(** X15. [Start] registers the default client only when [Connect] has
    succeeded.  On success the client under "default" is connected, one
    dispatcher is started, [IsConnected] answers true and [SendMessage]
    hands exactly one stanza to the session, of type "chat" when no type
    is given.  On failure of the library's [NewClient] or [Connect] the
    manager is unchanged and [Start] returns the wrapped error. *)
Theorem X15_manager_Start
  (os_CreateTemp : bool) (xmpp_NewClient session_Connect : option string)
  (session_Send : XmppClientOps.Stanza -> option string) (m : Manager) :
  mu m = false ->
  let c := XmppClient.mkClient true (make_chan 100) false true true
                               os_CreateTemp [] in
  let m1 := spawn_dispatcher (set_clients (store "default" c (clients m)) m) in
  (xmpp_NewClient = None -> session_Connect = None ->
   Start os_CreateTemp xmpp_NewClient session_Connect m = Ret None m1
   /\ GetDefaultClient m1 = Ret (Some c) m1
   /\ IsConnected m1 = Ret true m1
   /\ forall to body messageType,
        let msg := XmppClientOps.mkStanza "" "" to
                     (if String.eqb messageType "" then "chat"
                      else messageType) body "" "" in
        SendMessage session_Send to body messageType m1
        = Ret (match session_Send msg with
               | Some e => Some ("failed to send message: " ++ e)
               | None => None
               end, [msg]) m1)
  /\ (forall e, xmpp_NewClient = Some e ->
        Start os_CreateTemp xmpp_NewClient session_Connect m
        = Ret (Some ("failed to create XMPP client: " ++ e)) m)
  /\ (forall e, xmpp_NewClient = None -> session_Connect = Some e ->
        Start os_CreateTemp xmpp_NewClient session_Connect m
        = Ret (Some ("failed to connect to XMPP server: " ++ e)) m).
Proof.
  intros Hmu c m1.
  destruct m as [cs held q d]. simpl in Hmu. subst held.
  split; [|split].
  - intros -> ->.
    assert (Hget : GetDefaultClient m1 = Ret (Some c) m1).
    { unfold GetDefaultClient, bind, RLock. subst m1.
      cbn [mu spawn_dispatcher set_clients clients].
      now rewrite lookup_store. }
    assert (Hsame : set_clients (store "default" c (clients m1)) m1 = m1).
    { subst m1. unfold set_clients, spawn_dispatcher.
      cbn [clients mu webhookChan dispatchers]. now rewrite store_store. }
    split; [reflexivity|]. split; [exact Hget|]. split.
    + unfold IsConnected, bind. rewrite Hget.
      apply on_client_returns; [reflexivity | exact Hsame].
    + intros to body messageType msg.
      unfold SendMessage, bind. rewrite Hget.
      apply on_client_returns; [|exact Hsame].
      unfold XmppClientOps.SendMessage, XmppClient.bind,
        XmppClientOps.isConnected, XmppClientOps.RLock,
        XmppClientOps.session_send, XmppClient.ret.
      cbn [XmppClient.mu XmppClient.connected XmppClient.client c negb].
      fold msg. destruct (session_Send msg); reflexivity.
  - intros e ->. reflexivity.
  - intros e -> ->. reflexivity.
Qed.

Lemma X15_manager_Start_witness :
  let c := XmppClient.mkClient true (make_chan 100) false true true true [] in
  let m1 := spawn_dispatcher (set_clients [("default", c)] NewManager) in
  Start true None None NewManager = Ret None m1
  /\ GetDefaultClient m1 = Ret (Some c) m1
  /\ IsConnected m1 = Ret true m1
  /\ forall to body messageType,
       let msg := XmppClientOps.mkStanza "" "" to
                    (if String.eqb messageType "" then "chat"
                     else messageType) body "" "" in
       SendMessage (fun _ => None) to body messageType m1
       = Ret (match (fun _ : XmppClientOps.Stanza => @None string) msg with
              | Some e => Some ("failed to send message: " ++ e)
              | None => None
              end, [msg]) m1.
Proof.
  exact (proj1 (X15_manager_Start true None None (fun _ => None) NewManager
                  eq_refl) eq_refl eq_refl).
Defined.

End XmppManagerProperties.

(** ** Configuration defaults and authentication *)

Section ConfigProperties.
Import ConfigPkg.

Ltac config_simpl :=
  cbn [API Webhook Logging Reconnection Port Host APIKey Enabled Timeout
       RetryAttempts Level Output MaxAttempts Backoff set_Port set_Host
       set_APIKey set_Enabled set_Timeout set_RetryAttempts set_Level
       set_Output set_MaxAttempts set_Backoff set_API set_Webhook set_Logging
       set_Reconnection XMPP URL TestModeSuffix FilePath ReconnectionEnabled].

(** The defaults act on each field on its own. *)
Lemma defaults_fields (raw : Config) :
  defaults raw
  = mkConfig
      (XMPP raw)
      (mkAPIConfig
         (if Port (API raw) =? 0 then 8080 else Port (API raw))
         (if String.eqb (Host (API raw)) "" then "0.0.0.0"
          else Host (API raw))
         (APIKey (API raw))
         (if String.eqb (APIKey (API raw)) "" then false
          else Enabled (API raw)))
      (mkWebhookConfig
         (URL (Webhook raw))
         (if Timeout (Webhook raw) =? 0 then 30 * Second
          else Timeout (Webhook raw))
         (if RetryAttempts (Webhook raw) =? 0 then 3
          else RetryAttempts (Webhook raw))
         (TestModeSuffix (Webhook raw)))
      (mkLoggingConfig
         (if String.eqb (Level (Logging raw)) "" then "info"
          else Level (Logging raw))
         (if String.eqb (Output (Logging raw)) "" then "stdout"
          else Output (Logging raw))
         (FilePath (Logging raw)))
      (mkReconnectionConfig
         (ReconnectionEnabled (Reconnection raw))
         (if MaxAttempts (Reconnection raw) =? 0 then 5
          else MaxAttempts (Reconnection raw))
         (if Backoff (Reconnection raw) =? 0 then 5 * Second
          else Backoff (Reconnection raw))).
Proof.
  destruct raw as [x [p h k e] [u t r ts] [l o f] [re ma b]].
  unfold defaults, when. config_simpl.
  destruct (p =? 0); config_simpl.
  all: destruct (String.eqb h ""); config_simpl.
  all: destruct (String.eqb k "") eqn:Hk; config_simpl.
  all: try (apply String.eqb_eq in Hk; subst k).
  all: destruct (t =? 0); config_simpl.
  all: destruct (r =? 0); config_simpl.
  all: destruct (String.eqb l ""); config_simpl.
  all: destruct (String.eqb o ""); config_simpl.
  all: destruct (ma =? 0); config_simpl.
  all: destruct (b =? 0); reflexivity.
Qed.

Lemma nonzero_default (z d : Z) : d <> 0 -> (if z =? 0 then d else z) <> 0.
Proof. intros Hd. destruct (z =? 0) eqn:Hz; [exact Hd | now apply Z.eqb_neq]. Qed.

Lemma nonempty_default (v d : string) :
  d <> "" -> (if String.eqb v "" then d else v) <> "".
Proof.
  intros Hd. destruct (String.eqb v "") eqn:Hv; [exact Hd|].
  now apply String.eqb_neq.
Qed.

Lemma kept_Z (z d : Z) : z <> 0 -> (if z =? 0 then d else z) = z.
Proof. intros Hz. apply Z.eqb_neq in Hz. now rewrite Hz. Qed.

Lemma kept_string (v d : string) :
  v <> "" -> (if String.eqb v "" then d else v) = v.
Proof. intros Hv. apply String.eqb_neq in Hv. now rewrite Hv. Qed.

(** X16. A configuration that [Load] returns is the decoded one with its
    zero fields filled in: the port, host, webhook timeout, retry
    attempts, log level, log output, reconnection attempts and backoff
    are never zero or empty, and authentication is enabled only with a
    non-empty API key.  Fields that were set are kept as decoded, a
    negative number included, and filling in the defaults a second time
    changes nothing. *)
Theorem X16_Load_defaults (viper_ReadInConfig : option string)
  (viper_Unmarshal : Config + string) (cfg : Config) :
  Load viper_ReadInConfig viper_Unmarshal = inl cfg ->
  exists raw,
    viper_ReadInConfig = None /\ viper_Unmarshal = inl raw
    /\ (Port (API cfg) <> 0 /\ Host (API cfg) <> ""
        /\ Timeout (Webhook cfg) <> 0 /\ RetryAttempts (Webhook cfg) <> 0
        /\ Level (Logging cfg) <> "" /\ Output (Logging cfg) <> ""
        /\ MaxAttempts (Reconnection cfg) <> 0
        /\ Backoff (Reconnection cfg) <> 0)
    /\ (Enabled (API cfg) = true ->
        APIKey (API cfg) <> "" /\ Enabled (API raw) = true)
    /\ (XMPP cfg = XMPP raw /\ APIKey (API cfg) = APIKey (API raw)
        /\ URL (Webhook cfg) = URL (Webhook raw)
        /\ TestModeSuffix (Webhook cfg) = TestModeSuffix (Webhook raw)
        /\ FilePath (Logging cfg) = FilePath (Logging raw)
        /\ ReconnectionEnabled (Reconnection cfg)
           = ReconnectionEnabled (Reconnection raw))
    /\ ((Port (API raw) <> 0 -> Port (API cfg) = Port (API raw))
        /\ (Host (API raw) <> "" -> Host (API cfg) = Host (API raw))
        /\ (APIKey (API raw) <> "" ->
            Enabled (API cfg) = Enabled (API raw))
        /\ (Timeout (Webhook raw) <> 0 ->
            Timeout (Webhook cfg) = Timeout (Webhook raw))
        /\ (RetryAttempts (Webhook raw) <> 0 ->
            RetryAttempts (Webhook cfg) = RetryAttempts (Webhook raw))
        /\ (Level (Logging raw) <> "" ->
            Level (Logging cfg) = Level (Logging raw))
        /\ (Output (Logging raw) <> "" ->
            Output (Logging cfg) = Output (Logging raw))
        /\ (MaxAttempts (Reconnection raw) <> 0 ->
            MaxAttempts (Reconnection cfg) = MaxAttempts (Reconnection raw))
        /\ (Backoff (Reconnection raw) <> 0 ->
            Backoff (Reconnection cfg) = Backoff (Reconnection raw)))
    /\ defaults cfg = cfg.
Proof.
  unfold Load. intros HLoad.
  destruct viper_ReadInConfig as [err|]; [discriminate|].
  destruct viper_Unmarshal as [raw|err]; [|discriminate].
  injection HLoad as <-. exists raw.
  split; [reflexivity|]. split; [reflexivity|].
  rewrite (defaults_fields (defaults raw)).
  rewrite (defaults_fields raw). config_simpl.
  split; [|split; [|split; [|split]]].
  - repeat split;
      first [ apply nonzero_default; unfold Second; lia
            | apply nonempty_default; discriminate ].
  - destruct (String.eqb (APIKey (API raw)) "") eqn:Hk; [discriminate|].
    intros He. split; [now apply String.eqb_neq | exact He].
  - repeat split.
  - repeat split; intros H;
      first [ now apply kept_Z | now apply kept_string
            | apply String.eqb_neq in H; now rewrite H ].
  - f_equal.
    + f_equal.
      * destruct (Port (API raw) =? 0) eqn:H; [reflexivity | now rewrite H].
      * destruct (String.eqb (Host (API raw)) "") eqn:H;
          [reflexivity | now rewrite H].
      * destruct (String.eqb (APIKey (API raw)) ""); reflexivity.
    + f_equal.
      * destruct (Timeout (Webhook raw) =? 0) eqn:H;
          [reflexivity | now rewrite H].
      * destruct (RetryAttempts (Webhook raw) =? 0) eqn:H;
          [reflexivity | now rewrite H].
    + f_equal.
      * destruct (String.eqb (Level (Logging raw)) "") eqn:H;
          [reflexivity | now rewrite H].
      * destruct (String.eqb (Output (Logging raw)) "") eqn:H;
          [reflexivity | now rewrite H].
    + f_equal.
      * destruct (MaxAttempts (Reconnection raw) =? 0) eqn:H;
          [reflexivity | now rewrite H].
      * destruct (Backoff (Reconnection raw) =? 0) eqn:H;
          [reflexivity | now rewrite H].
Qed.

Lemma X16_Load_defaults_witness :
  let raw :=
    mkConfig (mkXMPPConfig "bot@example.com" "secret" "example.com:5222" "bot")
             (mkAPIConfig 0 "" "" true)
             (mkWebhookConfig "http://hooks.example.com/in" 0 (-1) "")
             (mkLoggingConfig "" "debug.log" "")
             (mkReconnectionConfig true 0 0) in
  let cfg :=
    mkConfig (mkXMPPConfig "bot@example.com" "secret" "example.com:5222" "bot")
             (mkAPIConfig 8080 "0.0.0.0" "" false)
             (mkWebhookConfig "http://hooks.example.com/in" (30 * Second)
                              (-1) "")
             (mkLoggingConfig "info" "debug.log" "")
             (mkReconnectionConfig true 5 (5 * Second)) in
  Load None (inl raw) = inl cfg
  /\ RetryAttempts (Webhook cfg) <> 0
  /\ (Enabled (API cfg) = true -> APIKey (API cfg) <> "")
  /\ defaults cfg = cfg.
Proof.
  intros raw cfg.
  destruct (X16_Load_defaults None (inl raw) cfg eq_refl)
    as (raw' & _ & _ & Hset & Hkey & _ & _ & Hidem).
  split; [reflexivity|]. split; [apply Hset|].
  split; [intros He; apply (Hkey He) | exact Hidem].
Defined.

Lemma Load_enabled_key (viper_ReadInConfig : option string)
  (viper_Unmarshal : Config + string) (cfg : Config) :
  Load viper_ReadInConfig viper_Unmarshal = inl cfg ->
  Enabled (API cfg) = true -> APIKey (API cfg) <> "".
Proof.
  unfold Load. intros HLoad.
  destruct viper_ReadInConfig as [err|]; [discriminate|].
  destruct viper_Unmarshal as [raw|err]; [|discriminate].
  injection HLoad as <-. rewrite (defaults_fields raw). config_simpl.
  destruct (String.eqb (APIKey (API raw)) "") eqn:Hk; [discriminate|].
  intros _. now apply String.eqb_neq.
Qed.

Lemma TrimPrefix_append (p r : string) : TrimPrefix (p ++ r) p = r.
Proof. unfold TrimPrefix. now rewrite HasPrefix_append, skip_append. Qed.

Lemma apiKey_of_spec (h : Auth.Headers) (key : string) :
  key <> "" ->
  Auth.apiKey_of h = key
  <-> Auth.h_API_Key h = key
      \/ (Auth.h_API_Key h = ""
          /\ Auth.h_Authorization h = "Bearer " ++ key).
Proof.
  intros Hkey. unfold Auth.apiKey_of.
  destruct (String.eqb (Auth.h_API_Key h) "") eqn:Hempty.
  - apply String.eqb_eq in Hempty.
    destruct (HasPrefix (Auth.h_Authorization h) "Bearer ") eqn:Hpre.
    + split.
      * intros Htrim. right. split; [exact Hempty|].
        rewrite (HasPrefix_split _ _ Hpre) at 1.
        unfold TrimPrefix in Htrim. rewrite Hpre in Htrim.
        now rewrite Htrim.
      * intros [Heq | [_ Heq]]; [congruence|].
        rewrite Heq. apply TrimPrefix_append.
    + split.
      * intros Heq. congruence.
      * intros [Heq | [_ Heq]]; [congruence|].
        rewrite Heq, HasPrefix_append in Hpre. discriminate.
  - apply String.eqb_neq in Hempty. split.
    + intros Heq. now left.
    + intros [Heq | [Heq _]]; [exact Heq | contradiction].
Qed.

(** X17. Under a configuration returned by [Load], [AuthMiddleware] lets
    a request through exactly when authentication is disabled, or the
    API-Key header is the configured key, or that header is absent and
    the Authorization header is "Bearer " followed by the key; every
    other request is answered 401.  [OptionalAuthMiddleware] never
    rejects, and marks as authenticated exactly the requests carrying
    the key.  It is the rule of [Load] about empty keys that shuts out
    requests without credentials: on a configuration with an empty key
    [AuthMiddleware] lets them through whether enabled or not. *)
Theorem X17_auth_on_loaded_config (viper_ReadInConfig : option string)
  (viper_Unmarshal : Config + string) (cfg : Config) (h : Auth.Headers) :
  Load viper_ReadInConfig viper_Unmarshal = inl cfg ->
  let carries_key :=
    Auth.h_API_Key h = APIKey (API cfg)
    \/ (Auth.h_API_Key h = ""
        /\ Auth.h_Authorization h = "Bearer " ++ APIKey (API cfg)) in
  (Auth.AuthMiddleware (API cfg) h = Auth.Next None
   <-> Enabled (API cfg) = false \/ carries_key)
  /\ (Auth.AuthMiddleware (API cfg) h <> Auth.Next None ->
      Auth.AuthMiddleware (API cfg) h
      = Auth.Respond 401 false "Unauthorized - valid API key required" 401)
  /\ (Enabled (API cfg) = true ->
      Auth.OptionalAuthMiddleware (API cfg) h
      = Auth.Next (Some (if String.eqb (Auth.apiKey_of h) (APIKey (API cfg))
                         then true else false))
      /\ (Auth.OptionalAuthMiddleware (API cfg) h = Auth.Next (Some true)
          <-> carries_key))
  /\ (Enabled (API cfg) = false ->
      Auth.OptionalAuthMiddleware (API cfg) h = Auth.Next None)
  /\ (forall api : APIConfig,
        APIKey api = "" ->
        Auth.AuthMiddleware api (Auth.mkHeaders "" "") = Auth.Next None).
Proof.
  intros HLoad carries_key.
  assert (Hkey := Load_enabled_key _ _ _ HLoad).
  unfold Auth.AuthMiddleware, Auth.OptionalAuthMiddleware.
  destruct (Enabled (API cfg)) eqn:He; cbn [negb].
  - specialize (Hkey eq_refl).
    assert (Hspec := apiKey_of_spec h (APIKey (API cfg)) Hkey).
    fold carries_key in Hspec.
    destruct (String.eqb (Auth.apiKey_of h) (APIKey (API cfg))) eqn:Hcmp;
      cbn [negb].
    + apply String.eqb_eq in Hcmp.
      split; [split; [intros _; right; now apply Hspec | reflexivity]|].
      split; [congruence|].
      split; [intros _; split; [reflexivity|];
              split; [intros _; now apply Hspec | reflexivity]|].
      split; [discriminate|].
      intros api Hempty. destruct (Enabled api); cbn [negb]; [|reflexivity].
      rewrite Hempty. reflexivity.
    + apply String.eqb_neq in Hcmp.
      split; [split; [discriminate|]|].
      { intros [Hd | Hc]; [discriminate|]. apply Hspec in Hc. contradiction. }
      split; [reflexivity|].
      split; [intros _; split; [reflexivity|]; split; [discriminate|]|].
      { intros Hc. apply Hspec in Hc. contradiction. }
      split; [discriminate|].
      intros api Hempty. destruct (Enabled api); cbn [negb]; [|reflexivity].
      rewrite Hempty. reflexivity.
  - split; [split; [intros _; now left | reflexivity]|].
    split; [congruence|].
    split; [discriminate|].
    split; [reflexivity|].
    intros api Hempty. destruct (Enabled api); cbn [negb]; [|reflexivity].
    rewrite Hempty. reflexivity.
Qed.

Lemma X17_auth_on_loaded_config_witness :
  let cfg :=
    mkConfig (mkXMPPConfig "bot@example.com" "secret" "example.com:5222" "bot")
             (mkAPIConfig 8080 "0.0.0.0" "k3y" true)
             (mkWebhookConfig "http://hooks.example.com/in" (30 * Second) 3 "")
             (mkLoggingConfig "info" "stdout" "")
             (mkReconnectionConfig true 5 (5 * Second)) in
  let h := Auth.mkHeaders "" "Bearer k3y" in
  (Auth.AuthMiddleware (API cfg) h = Auth.Next None
   <-> Enabled (API cfg) = false
       \/ (Auth.h_API_Key h = APIKey (API cfg)
           \/ (Auth.h_API_Key h = ""
               /\ Auth.h_Authorization h = "Bearer " ++ APIKey (API cfg))))
  /\ (Auth.OptionalAuthMiddleware (API cfg) h = Auth.Next (Some true)
      <-> (Auth.h_API_Key h = APIKey (API cfg)
           \/ (Auth.h_API_Key h = ""
               /\ Auth.h_Authorization h = "Bearer " ++ APIKey (API cfg)))).
Proof.
  intros cfg h.
  destruct (X17_auth_on_loaded_config None (inl cfg) cfg h eq_refl)
    as (Hauth & _ & Hopt & _).
  split; [exact Hauth | exact (proj2 (Hopt eq_refl))].
Defined.

(** X18. [Load] replaces a retry count of zero by three but keeps a
    negative one.  A service running on such a configuration gives up on
    every message without a single attempt: [sendWebhook] issues no
    request and does not sleep, logs the final error only, and counts
    one failure ([TotalFailed] goes up by one, as an [int64]) with the
    text "unknown error" in [LastError]. *)
Theorem X18_negative_retry_attempts (E : Env) (raw : Config) (s : Service)
  (msg : Message) (w : World) :
  RetryAttempts (Webhook raw) < 0 ->
  config s = Webhook (defaults raw) ->
  Load None (inl raw) = inl (defaults raw)
  /\ (forall zero : Config,
        RetryAttempts (Webhook zero) = 0 ->
        Load None (inl zero) = inl (defaults zero)
        /\ RetryAttempts (Webhook (defaults zero)) = 3)
  /\ RetryAttempts (config s) = RetryAttempts (Webhook raw)
  /\ exists r,
       sendWebhook E s msg w = Some r
       /\ (exists url,
             sr_trace r
             = [EvErrorAllFailed (RetryAttempts (Webhook raw)) None url])
       /\ requests (sr_trace r) = []
       /\ sr_service r
          = updateStats (time_Now E (S (w_clock w))) false "unknown error" s
       /\ one_failure_recorded (time_Now E (S (w_clock w))) "unknown error"
            s (sr_service r)
       /\ w_http (sr_world r) = w_http w.
Proof.
  intros Hneg Hcfg.
  assert (Hkept : RetryAttempts (config s) = RetryAttempts (Webhook raw)).
  { rewrite Hcfg, (defaults_fields raw). config_simpl.
    apply kept_Z. lia. }
  split; [reflexivity|].
  split.
  { intros zero Hzero. split; [reflexivity|].
    rewrite (defaults_fields zero). config_simpl. now rewrite Hzero. }
  split; [exact Hkept|].
  unfold sendWebhook, sendWebhook_fuel.
  cbn [sendWebhook_loop].
  replace (1 <=? RetryAttempts (config s)) with false
    by (symmetry; apply Z.leb_gt; lia).
  eexists. split; [reflexivity|].
  cbn [sr_trace sr_service sr_world tick w_clock w_http requests].
  rewrite Hkept.
  split; [eexists; reflexivity|]. split; [reflexivity|].
  split; [reflexivity|]. split; [apply updateStats_failure | reflexivity].
Qed.

Lemma X18_negative_retry_attempts_witness :
  let raw :=
    mkConfig (mkXMPPConfig "bot@example.com" "secret" "example.com:5222" "bot")
             (mkAPIConfig 0 "" "" true)
             (mkWebhookConfig "http://hooks.example.com/in" 0 (-1) "")
             (mkLoggingConfig "" "" "")
             (mkReconnectionConfig true 0 0) in
  let s := NewService (Webhook (defaults raw)) in
  exists r,
    sendWebhook (demo_Env 200) s (demo_message "hello") (mkWorld 0 0) = Some r
    /\ requests (sr_trace r) = []
    /\ TotalFailed (stats (sr_service r)) = 1
    /\ LastError (stats (sr_service r)) = "unknown error"
    /\ TotalSent (stats (sr_service r)) = 0.
Proof.
  intros raw s.
  destruct (X18_negative_retry_attempts (demo_Env 200) raw s
              (demo_message "hello") (mkWorld 0 0))
    as (_ & _ & _ & r & Hr & _ & Hreq & _ & Hrec & _).
  - vm_compute. reflexivity.
  - reflexivity.
  - exists r. split; [exact Hr|]. split; [exact Hreq|].
    destruct Hrec as (_ & Hone & Hsent & _ & _ & Herr & _).
    split; [apply Hone; vm_compute; split; [discriminate | reflexivity]|].
    split; [exact Herr | exact Hsent].
Defined.

End ConfigProperties.

(** ** The send handler of the API *)

Section ApiProperties.
Import XmppManager.

Lemma store_lookup (id : string) (c : XmppClient.Client)
  (cs : list (string * XmppClient.Client)) :
  lookup id cs = Some c -> store id c cs = cs.
Proof.
  induction cs as [|[k c0] cs IH]; simpl; [discriminate|].
  destruct (String.eqb k id) eqn:Hk.
  - now intros [= ->].
  - intros H. now rewrite IH.
Qed.

Lemma set_clients_same (m : Manager) : set_clients (clients m) m = m.
Proof. now destruct m. Qed.

(** What [SendMessage] of the manager can return. *)
Lemma manager_SendMessage_returns
  (session_Send : XmppClientOps.Stanza -> option string)
  (to body messageType : string) (m m' : Manager)
  (err : option string) (sent : list XmppClientOps.Stanza) :
  SendMessage session_Send to body messageType m = Ret (err, sent) m' ->
  let msg := XmppClientOps.mkStanza "" "" to
               (if String.eqb messageType "" then "chat" else messageType)
               body "" "" in
  m' = m
  /\ mu m = false
  /\ ((sent = [] /\ err <> None)
      \/ (sent = [msg]
          /\ err = match session_Send msg with
                   | Some e => Some ("failed to send message: " ++ e)
                   | None => None
                   end)).
Proof.
  intros H msg.
  unfold SendMessage, GetDefaultClient, bind, RLock in H.
  cbv beta in H.
  destruct (mu m) eqn:Hmu; [discriminate|]. cbv beta iota in H.
  destruct (lookup "default" (clients m)) as [c|] eqn:Hlook.
  - unfold on_client, XmppClientOps.SendMessage, XmppClientOps.isConnected,
      XmppClientOps.RLock, XmppClientOps.session_send, XmppClient.bind,
      XmppClient.ret in H.
    cbv beta in H.
    destruct (XmppClient.mu c); [discriminate|].
    destruct (XmppClient.connected c); cbn [negb] in H; cbv beta iota in H.
    + destruct (XmppClient.client c); [|discriminate].
      fold msg in H.
      destruct (session_Send msg) as [e|]; cbv beta iota in H;
        rewrite (store_lookup _ _ _ Hlook), set_clients_same in H;
        injection H as <- <- <-;
        (split; [reflexivity|]; split; [reflexivity|]; right; now split).
    + rewrite (store_lookup _ _ _ Hlook), set_clients_same in H.
      injection H as <- <- <-.
      split; [reflexivity|]. split; [reflexivity|]. left. now split.
  - unfold ret in H. injection H as <- <- <-.
    split; [reflexivity|]. split; [reflexivity|]. left. now split.
Qed.

Lemma validate_accepts (req : Api.SendMessageRequest) :
  Api.validateSendMessageRequest req = None ->
  Api.req_To req <> "" /\ Api.req_Body req <> ""
  /\ Api.len (Api.req_Body req) <= 10000
  /\ Contains (Api.req_To req) "@" = true.
Proof.
  unfold Api.validateSendMessageRequest.
  destruct (String.eqb (TrimSpace (Api.req_To req)) "") eqn:Hto;
    [discriminate|].
  destruct (String.eqb (TrimSpace (Api.req_Body req)) "") eqn:Hbody;
    [discriminate|].
  destruct (Api.len (Api.req_Body req) >? 10000) eqn:Hlen; [discriminate|].
  destruct (Contains (Api.req_To req) "@") eqn:Hat; [|discriminate].
  intros _. apply String.eqb_neq in Hto, Hbody.
  split; [intros Heq; rewrite Heq in Hto; now apply Hto|].
  split; [intros Heq; rewrite Heq in Hbody; now apply Hbody|].
  split; [|reflexivity].
  rewrite Z.gtb_ltb in Hlen. apply Z.ltb_ge in Hlen. exact Hlen.
Qed.

(** X19. Whenever [handleSendMessage] answers, the XMPP manager is as it
    was.  A stanza has reached the XMPP session only for a request that
    was decoded and passed the validation (recipient with an "@", body
    not empty and at most 10000 bytes); it is then the only one, and
    carries the recipient and body of the request and its type, "chat"
    when none was given.  The answer is 200 exactly when the session
    took that stanza without error; a request that fails decoding or
    validation gets 400 and every other failure 500. *)
Theorem X19_handleSendMessage
  (session_Send : XmppClientOps.Stanza -> option string)
  (BodyParser : option Api.SendMessageRequest) (sent_at request_id : string)
  (m m' : Manager) (resp : Api.Response)
  (sent : list XmppClientOps.Stanza) :
  Api.handleSendMessage session_Send BodyParser sent_at request_id m
  = Ret (resp, sent) m' ->
  m' = m
  /\ (forall st, In st sent ->
        exists req,
          BodyParser = Some req
          /\ Api.validateSendMessageRequest req = None
          /\ Contains (Api.req_To req) "@" = true
          /\ Api.req_Body req <> ""
          /\ Api.len (Api.req_Body req) <= 10000
          /\ sent = [st]
          /\ st = XmppClientOps.mkStanza "" "" (Api.req_To req)
                    (if String.eqb (Api.req_Type req) "" then "chat"
                     else Api.req_Type req)
                    (Api.req_Body req) "" "")
  /\ (Api.status_of resp = 200
      <-> exists st, sent = [st] /\ session_Send st = None)
  /\ (Api.status_of resp = 400
      <-> BodyParser = None
          \/ exists req, BodyParser = Some req
                         /\ Api.validateSendMessageRequest req <> None)
  /\ (Api.status_of resp = 200 \/ Api.status_of resp = 400
      \/ Api.status_of resp = 500).
Proof.
  unfold Api.handleSendMessage. intros H.
  destruct BodyParser as [req|].
  - destruct (Api.validateSendMessageRequest req) as [e|] eqn:Hval.
    + unfold ret in H. injection H as <- <- <-.
      split; [reflexivity|]. split; [intros st []|].
      split; [split; [discriminate | intros (st & Hs & _); discriminate]|].
      split; [|right; left; reflexivity].
      split; [intros _; right; exists req; split; [reflexivity|congruence]
             | reflexivity].
    + unfold bind in H.
      destruct (SendMessage session_Send (Api.req_To req) (Api.req_Body req)
                            (Api.req_Type req) m)
        as [[err sent0] m0 | |] eqn:Hsend; [|discriminate..].
      destruct (manager_SendMessage_returns _ _ _ _ _ _ _ _ Hsend)
        as (Hm & _ & Hcases).
      destruct (validate_accepts req Hval) as (_ & Hbody & Hlen & Hat).
      cbn [fst snd] in H. unfold ret in H.
      assert (Hnot400 : forall r : Api.Response,
                 Api.status_of r <> 400 ->
                 (Api.status_of r = 400 <->
                  Some req = None
                  \/ exists req0, Some req = Some req0
                       /\ Api.validateSendMessageRequest req0 <> None)).
      { intros r Hr. split; [intros Hs; contradiction|].
        intros [Hn | (req0 & [= <-] & Hv)]; [discriminate | contradiction]. }
      destruct Hcases as [(-> & Herr) | (-> & ->)].
      * destruct err as [e|]; [|congruence]. injection H as <- <- <-.
        split; [exact Hm|]. split; [intros st []|].
        split; [split; [discriminate | intros (st & Hs & _); discriminate]|].
        split; [apply Hnot400; discriminate | right; right; reflexivity].
      * destruct (session_Send _) as [e|] eqn:Hans; injection H as <- <- <-;
          (split; [exact Hm|]); (split; [|split; [|split]]).
        -- intros st [<- | []]. exists req. repeat split; assumption.
        -- split; [discriminate|]. intros (st & [= <-] & Hs). congruence.
        -- apply Hnot400. discriminate.
        -- right; right; reflexivity.
        -- intros st [<- | []]. exists req. repeat split; assumption.
        -- split; [intros _; eexists; split; [reflexivity | exact Hans]
                  | reflexivity].
        -- apply Hnot400. discriminate.
        -- left; reflexivity.
  - unfold ret in H. injection H as <- <- <-.
    split; [reflexivity|]. split; [intros st []|].
    split; [split; [discriminate | intros (st & Hs & _); discriminate]|].
    split; [|right; left; reflexivity].
    split; [intros _; now left | reflexivity].
Qed.

Lemma X19_handleSendMessage_witness :
  let c := XmppClient.mkClient true (make_chan 100) false true true true [] in
  let m := spawn_dispatcher (set_clients [("default", c)] NewManager) in
  let req := Api.mkSendMessageRequest "alice@example.com" "hello" "" in
  let st := XmppClientOps.mkStanza "" "" "alice@example.com" "chat" "hello"
                                   "" "" in
  let resp := Api.APIResponse true "Message sent successfully"
                "alice@example.com" "" 5 "2023-11-14T22:13:20Z" "r-1" in
  Api.handleSendMessage (fun _ => None) (Some req) "2023-11-14T22:13:20Z"
                        "r-1" m
  = Ret (resp, [st]) m
  /\ (Api.status_of resp = 200
      <-> exists st', [st] = [st'] /\ (fun _ => @None string) st' = None).
Proof.
  intros c m req st resp.
  split; [reflexivity|].
  exact (proj1 (proj2 (proj2
           (X19_handleSendMessage (fun _ => None) (Some req)
              "2023-11-14T22:13:20Z" "r-1" m m resp [st] eq_refl)))).
Defined.

(** X20. Requests that fail decoding or validation are answered 400
    without touching the XMPP manager, even while its mutex is held.
    Every other request, and the health check, wait for the mutex: once
    [Stop] has blocked on a manager with a client, [handleSendMessage]
    with a valid request and [handleHealth] never answer. *)
Theorem X20_handlers_behind_the_mutex
  (session_Disconnect : nat -> option string)
  (session_Send : XmppClientOps.Stanza -> option string)
  (sent_at request_id : string) (m : Manager) :
  mu m = false ->
  clients m <> [] ->
  exists m',
    Stop session_Disconnect m = Block m'
    /\ Api.handleHealth m' = Block m'
    /\ (forall req,
          Api.validateSendMessageRequest req = None ->
          Api.handleSendMessage session_Send (Some req) sent_at request_id m'
          = Block m')
    /\ (forall req,
          Api.validateSendMessageRequest req <> None ->
          exists text,
            Api.handleSendMessage session_Send (Some req) sent_at request_id
                                  m'
            = Ret (Api.FiberError 400 text, []) m')
    /\ Api.handleSendMessage session_Send None sent_at request_id m'
       = Ret (Api.FiberError 400 "Invalid request body", []) m'.
Proof.
  intros Hmu Hne.
  destruct m as [cs held q d]. simpl in Hmu, Hne. subst held.
  destruct cs as [|[id c] rest]; [congruence|].
  destruct (Disconnect_always_blocks session_Disconnect c)
    as (c' & Hblock & Hheld & Hchan).
  exists (mkManager ((id, c') :: rest) true q d).
  split.
  - unfold Stop, bind, Lock, deferUnlock. cbn [mu set_mu clients].
    cbn [disconnect_all]. unfold bind, on_client. rewrite Hblock.
    unfold set_clients, set_mu.
    cbn [clients store mu webhookChan dispatchers].
    rewrite String.eqb_refl. reflexivity.
  - split; [reflexivity|]. split; [|split].
    + intros req Hval. unfold Api.handleSendMessage. rewrite Hval.
      reflexivity.
    + intros req Hval. unfold Api.handleSendMessage.
      destruct (Api.validateSendMessageRequest req) as [e|]; [|congruence].
      eexists. reflexivity.
    + reflexivity.
Qed.

Lemma X20_handlers_behind_the_mutex_witness :
  exists m',
    Stop (fun _ => None)
         (mkManager [("default", XmppClient.connected_client)] false
                    (make_chan 1000) 1)
    = Block m'
    /\ Api.handleHealth m' = Block m'
    /\ Api.handleSendMessage (fun _ => None) None "" "" m'
       = Ret (Api.FiberError 400 "Invalid request body", []) m'.
Proof.
  destruct (X20_handlers_behind_the_mutex (fun _ => None) (fun _ => None)
              "" ""
              (mkManager [("default", XmppClient.connected_client)] false
                         (make_chan 1000) 1))
    as (m' & HStop & Hhealth & _ & _ & Hbad).
  - reflexivity.
  - discriminate.
  - exists m'. split; [exact HStop|]. split; [exact Hhealth | exact Hbad].
Defined.

End ApiProperties.
